(** * E-Commerce Growth Intelligence Tool: ingestion, cleaning, aggregation, KPIs

    A shallow embedding of [config.py], [modules/schema_detection.py],
    [modules/data_cleaning.py], [modules/aggregation.py],
    [modules/kpi_engine.py], the figures of [modules/growth_quality.py]
    and the run of [app.py], followed by the properties the
    specification states about them and further properties of the code.

    Numbers: Python floats and ints are idealised as exact rationals in
    canonical form ([Qc]); the float NaN is the separate value [NaN], and
    infinities are outside the model.  Equalities that the specification
    states "within floating-point tolerance" are exact equalities here. *)

From Stdlib Require Import QArith Qcanon Ascii DecimalString.
From stdpp Require Import base numbers option list sorting strings gmap fin_maps.

Local Open Scope string_scope.
Local Open Scope list_scope.

(** ** Values *)

Module Values.

(** A pandas [Timestamp]: calendar date and nanoseconds since midnight. *)
Record Timestamp := mkTs { ts_year : N; ts_month : N; ts_day : N; ts_nanos : N }.

Global Instance Timestamp_eq_dec : EqDecision Timestamp.
Proof. solve_decision. Defined.

(** A Python scalar as it occurs in a DataFrame cell or in the KPI dict:
    [None], the float [nan], pandas' [NaT], a number, a text, a timestamp. *)
Inductive cell :=
  | PNone
  | NaN
  | NaT
  | Num (q : Qc)
  | Str (s : string)
  | Ts (t : Timestamp).

Global Instance cell_eq_dec : EqDecision cell.
Proof. solve_decision. Defined.

Global Instance cell_inhabited : Inhabited cell := populate NaN.

(** [pd.isna] on a scalar. *)
Definition isna (c : cell) : bool :=
  match c with
  | PNone | NaN | NaT => true
  | _ => false
  end.

Definition notna (c : cell) : bool := negb (isna c).

Definition is_Str (c : cell) : bool :=
  match c with Str _ => true | _ => false end.

Definition is_Ts (c : cell) : bool :=
  match c with Ts _ => true | _ => false end.

Definition is_Num (c : cell) : bool :=
  match c with Num _ => true | _ => false end.

(** A float column holds numbers and NaN only. *)
Definition is_float (c : cell) : bool :=
  match c with Num _ | NaN => true | _ => false end.

Definition Qc_of_nat (n : nat) : Qc := Qc_of_Z (Z.of_nat n).

(** Python exceptions that the modelled code can let escape. *)
Inductive exn := KeyError | TypeError.

Inductive result (A : Type) :=
  | Ok (a : A)
  | Raise (e : exn).
Global Arguments Ok {A} a.
Global Arguments Raise {A} e.

Global Instance exn_eq_dec : EqDecision exn.
Proof. solve_decision. Defined.

Global Instance result_eq_dec {A} `{EqDecision A} : EqDecision (result A).
Proof. solve_decision. Defined.

Definition bind {A B} (m : result A) (k : A → result B) : result B :=
  match m with
  | Ok a => k a
  | Raise e => Raise e
  end.

End Values.
Export Values.

Notation "x ←r m ; k" := (bind m (λ x, k))
  (at level 20, m at level 100, k at level 200, right associativity, only parsing).

(** ** config.py *)

Module config.

Definition REQUIRED_COLUMNS : list string :=
  ["date"; "order_id"; "customer_id"; "revenue"].

Definition OPTIONAL_COLUMNS : list string :=
  ["cost"; "channel"; "region"; "category"; "device"; "marketing_spend"].

Definition COLUMN_ALIASES : gmap string (list string) :=
  list_to_map
  [ ("date",
      ["date"; "order_date"; "purchase_date"; "transaction_date";
       "created_at"; "created_date"; "sale_date"; "invoice_date";
       "dt"; "dates"]);
    ("order_id",
      ["order_id"; "orderid"; "order_number"; "order_no";
       "transaction_id"; "txn_id"; "invoice_id"; "id"]);
    ("customer_id",
      ["customer_id"; "customerid"; "cust_id"; "custid";
       "client_id"; "user_id"; "userid"; "buyer_id"]);
    ("revenue",
      ["revenue"; "sales"; "amount"; "total_amount"; "order_value";
       "total_sales"; "total_revenue"; "sale_amount"; "gmv";
       "gross_revenue"; "net_revenue"; "price"; "total_price";
       "order_amount"; "transaction_amount"]);
    ("cost",
      ["cost"; "total_cost"; "cogs"; "cost_of_goods";
       "expense"; "product_cost"]);
    ("channel",
      ["channel"; "source"; "traffic_source"; "acquisition_channel";
       "utm_source"; "marketing_channel"; "medium"]);
    ("region",
      ["region"; "location"; "area"; "zone"; "city";
       "state"; "country"; "geography"; "geo"]);
    ("category",
      ["category"; "product_category"; "item_category";
       "department"; "product_type"; "type"; "segment"]);
    ("device",
      ["device"; "device_type"; "platform"; "device_category"]);
    ("marketing_spend",
      ["marketing_spend"; "ad_spend"; "spend"; "marketing_cost";
       "advertising_cost"; "campaign_cost"; "media_spend"]) ].

(** The currency symbols to strip, as UTF-8 byte strings. *)
Definition CURRENCY_SYMBOLS : list string :=
  ["₹"; "$"; "€"; "£"; "¥"; ","].

Definition DATE_FORMATS : list string :=
  ["%Y-%m-%d"; "%d-%m-%Y"; "%m-%d-%Y"; "%d/%m/%Y"; "%m/%d/%Y";
   "%Y/%m/%d"; "%d %b %Y"; "%d %B %Y"; "%b %d, %Y"; "%B %d, %Y"].

Definition TEXT_COLUMNS : list string :=
  ["channel"; "region"; "category"; "device"].

(** [default=0.0] of the two safe helpers. *)
Definition default_0 : cell := Num 0%Qc.

(** [numerator / denominator] on Python scalars: a number over a non-zero
    number divides, NaN propagates through float arithmetic, every other
    pair of operands raises [TypeError] ([None] in case of [TypeError]). *)
Definition py_div (n d : cell) : option cell :=
  match n, d with
  | Num a, Num b => Some (Num (a / b)%Qc)
  | Num _, NaN | NaN, Num _ | NaN, NaN => Some NaN
  | _, _ => None
  end.

Definition py_sub (a b : cell) : option cell :=
  match a, b with
  | Num x, Num y => Some (Num (x - y)%Qc)
  | Num _, NaN | NaN, Num _ | NaN, NaN => Some NaN
  | _, _ => None
  end.

Definition py_mul (a b : cell) : option cell :=
  match a, b with
  | Num x, Num y => Some (Num (x * y)%Qc)
  | Num _, NaN | NaN, Num _ | NaN, NaN => Some NaN
  | _, _ => None
  end.

(** [denominator is None or denominator == 0] *)
Definition none_or_zero (d : cell) : bool :=
  match d with
  | PNone => true
  | Num q => bool_decide (q = 0%Qc)
  | _ => false
  end.

Definition safe_divide (numerator denominator default : cell) : cell :=
  if none_or_zero denominator then default
  else match py_div numerator denominator with
       | Some v => v
       | None => default
       end.

Definition safe_pct_change (new_val old_val default : cell) : cell :=
  if none_or_zero old_val then default
  else match py_sub new_val old_val with
       | Some diff =>
           match py_div diff old_val with
           | Some ratio =>
               match py_mul ratio (Num (Qc_of_Z 100)) with
               | Some v => v
               | None => default
               end
           | None => default
           end
       | None => default
       end.

End config.

(** ** Python built-ins used by the modules *)

Module builtins.

(** Nearest integer to [q], ties to the even neighbour. *)
Definition round_half_even (q : Q) : Z :=
  let n := Qnum q in
  let d := Z.pos (Qden q) in
  let f := (n / d)%Z in
  let r := (n mod d)%Z in
  match (2 * r ?= d)%Z with
  | Lt => f
  | Gt => (f + 1)%Z
  | Eq => if Z.even f then f else (f + 1)%Z
  end.

(** [round(x, 2)] on an exact value. *)
Definition round2_Qc (q : Qc) : Qc :=
  Q2Qc (round_half_even (this q * 100) # 100).

(** [round(x, 2)]: defined on numbers, NaN stays NaN, anything else raises. *)
Definition round2 (c : cell) : result cell :=
  match c with
  | Num q => Ok (Num (round2_Qc q))
  | NaN => Ok NaN
  | _ => Raise TypeError
  end.

End builtins.

(** [str.strip], [str.lower], [str.replace] and number formatting, on
    byte strings; letters outside ASCII are left as they are. *)
Module pystr.

(** [str.isspace] on an ASCII character. *)
Definition is_space (c : ascii) : bool :=
  let n := nat_of_ascii c in
  bool_decide (9 ≤ n ≤ 13)%nat || bool_decide (28 ≤ n ≤ 32)%nat.

Fixpoint lstrip (s : string) : string :=
  match s with
  | String c s' => if is_space c then lstrip s' else s
  | EmptyString => EmptyString
  end.

Definition strip (s : string) : string :=
  String.rev (lstrip (String.rev (lstrip s))).

Definition lower_ascii (c : ascii) : ascii :=
  let n := nat_of_ascii c in
  if bool_decide (65 ≤ n ≤ 90)%nat then ascii_of_nat (n + 32) else c.

Fixpoint map_chars (f : ascii → ascii) (s : string) : string :=
  match s with
  | String c s' => String (f c) (map_chars f s')
  | EmptyString => EmptyString
  end.

Definition lower (s : string) : string := map_chars lower_ascii s.

(** [s.replace(" ", "_")] *)
Definition spaces_to_underscores (s : string) : string :=
  map_chars (λ c, if bool_decide (c = " "%char) then "_"%char else c) s.

(** Decimal numeral of a natural number, as [str(n)] prints it. *)
Definition of_N (n : N) : string := NilZero.string_of_uint (N.to_uint n).
Definition of_nat (n : nat) : string := of_N (N.of_nat n).

(** The numeral left-padded with zeros to [width] digits ([%04d], [%02d]). *)
Definition zero_pad (width : nat) (n : N) : string :=
  let s := of_N n in
  String.string_of_list_ascii (replicate (width - String.length s) "0"%char) +:+ s.

End pystr.

(** ** The pandas operations the modules call *)

Module pd.

(** A row maps column labels to cells; a frame lists its column labels
    and its rows in index order. *)
Abbreviation row := (gmap string cell).

Record DataFrame := mkDF { columns : list string; rows : list row }.

(** [pd.DataFrame()] *)
Definition empty_frame : DataFrame := mkDF [] [].

(** [df.empty]: some axis has length zero. *)
Definition empty (df : DataFrame) : bool :=
  bool_decide (rows df = []) || bool_decide (columns df = []).

(** [col in df.columns] *)
Definition has_col (c : string) (df : DataFrame) : bool :=
  bool_decide (c ∈ columns df).

(** [df[c]] as the list of its values. *)
Definition col (c : string) (rs : list row) : list cell :=
  (λ r : row, r !!! c) <$> rs.

(** [df[c] = values], aligned on the index. *)
Definition set_col (c : string) (vals : list cell) (df : DataFrame) : DataFrame :=
  mkDF (if has_col c df then columns df else columns df ++ [c])
       (zip_with (λ (r : row) v, <[c := v]> r) (rows df) vals).

(** [df[c] = df[c].map(f)] *)
Definition map_col (c : string) (f : cell → cell) (rs : list row) : list row :=
  (λ r : row, <[c := f (r !!! c)]> r) <$> rs.

(** [series.isna().sum()] and [series.notna().sum()] *)
Definition count_na (s : list cell) : nat := length (filter (λ c, isna c = true) s).
Definition count_notna (s : list cell) : nat := length (filter (λ c, isna c = false) s).

(** Missing values of every kind form one key in [duplicated]. *)
Definition dup_key (c : cell) : cell := if isna c then NaN else c.

(** [df.drop_duplicates(subset=[c], keep="first")]: [seen] holds the keys
    of the rows already passed. *)
Fixpoint drop_duplicates_from (seen : list cell) (c : string) (rs : list row) : list row :=
  match rs with
  | [] => []
  | r :: rs' =>
      let k := dup_key (r !!! c) in
      if bool_decide (k ∈ seen) then drop_duplicates_from seen c rs'
      else r :: drop_duplicates_from (k :: seen) c rs'
  end.

Definition drop_duplicates (c : string) (rs : list row) : list row :=
  drop_duplicates_from [] c rs.

(** [df.dropna(subset=cs)] (how="any") and [df.dropna(subset=cs, how="all")] *)
Definition dropna_any (cs : list string) (rs : list row) : list row :=
  filter (λ r : row, forallb (λ c, notna (r !!! c)) cs = true) rs.

Definition dropna_all (cs : list string) (rs : list row) : list row :=
  filter (λ r : row, forallb (λ c, isna (r !!! c)) cs = false) rs.

(** [series.fillna(0)] on one value. *)
Definition fillna0 (c : cell) : cell := if isna c then Num 0%Qc else c.

(** Sum of the numbers of a list. *)
Definition Qc_sum (l : list Qc) : Qc := foldr Qcplus 0%Qc l.

(** The numbers of a column, missing values skipped; [None] when a
    value is present that is not a number. *)
Fixpoint numbers_skipna (s : list cell) : option (list Qc) :=
  match s with
  | [] => Some []
  | Num q :: s' => cons q <$> numbers_skipna s'
  | c :: s' => if isna c then numbers_skipna s' else None
  end.

(** [series.sum()] and the group-by ["sum"]: missing values are skipped
    and an all-missing column sums to 0.  A present text or timestamp
    makes the float reduction fail with [TypeError]; the cleaner hands
    over float columns only. *)
Definition sum (s : list cell) : result cell :=
  match numbers_skipna s with
  | Some qs => Ok (Num (Qc_sum qs))
  | None => Raise TypeError
  end.

(** The group-by ["count"]: number of values that are not missing. *)
Definition count (s : list cell) : cell := Num (Qc_of_nat (count_notna s)).

(** [series.nunique()]: number of distinct values, missing ones left out. *)
Definition nunique (s : list cell) : cell :=
  Num (Qc_of_nat (length (remove_dups (filter (λ c, isna c = false) s)))).

(** Order of group keys under [sort=True]: numbers by value, texts by
    code points, timestamps by time; in a column that mixes them,
    numbers or timestamps come before texts. *)
Definition Ts_leb (a b : Timestamp) : bool :=
  match (ts_year a ?= ts_year b)%N with
  | Lt => true | Gt => false
  | Eq =>
    match (ts_month a ?= ts_month b)%N with
    | Lt => true | Gt => false
    | Eq =>
      match (ts_day a ?= ts_day b)%N with
      | Lt => true | Gt => false
      | Eq => (ts_nanos a <=? ts_nanos b)%N
      end
    end
  end.

Definition key_rank (c : cell) : nat :=
  match c with
  | Num _ | Ts _ => 0 | Str _ => 1 | _ => 2
  end.

Definition key_leb (a b : cell) : bool :=
  match a, b with
  | Num x, Num y => bool_decide (x ≤ y)%Qc
  | Str s, Str t => bool_decide (String.le s t)
  | Ts s, Ts t => Ts_leb s t
  | _, _ => bool_decide (key_rank a ≤ key_rank b)%nat
  end.

Definition key_le (a b : cell) : Prop := key_leb a b = true.

Global Instance key_le_dec : RelDecision key_le.
Proof. intros a b. unfold key_le. apply _. Defined.

(** Timestamps cannot be compared with numbers: sorting a key column
    that holds both raises [TypeError]. *)
Definition keys_comparable (ks : list cell) : bool :=
  negb (existsb is_Ts ks && existsb is_Num ks).

(** The keys of [df.groupby(c, sort=True)]: distinct values in order,
    rows with a missing key belong to no group. *)
Definition group_keys (c : string) (rs : list row) : result (list cell) :=
  let ks := remove_dups (filter (λ k, isna k = false) (col c rs)) in
  if keys_comparable ks then Ok (merge_sort key_le ks) else Raise TypeError.

(** The rows of one group, in index order. *)
Definition group (c : string) (k : cell) (rs : list row) : list row :=
  filter (λ r : row, r !!! c = k) rs.

(** Run [f] over a list, stopping at the first exception. *)
Fixpoint traverse {A B} (f : A → result B) (l : list A) : result (list B) :=
  match l with
  | [] => Ok []
  | a :: l' => b ←r f a; bs ←r traverse f l'; Ok (b :: bs)
  end.

End pd.
Export pd.

(** ** modules/schema_detection.py *)

Module schema_detection.

(** [str(name).strip().lower().replace(" ", "_")] *)
Definition _normalize_col_name (name : string) : string :=
  pystr.spaces_to_underscores (pystr.lower (pystr.strip name)).

(** The loop of [_deduplicate_columns]; [seen] counts the repeats of each
    name met so far. *)
Fixpoint _deduplicate_columns_from (seen : gmap string nat) (columns : list string)
    : list string :=
  match columns with
  | [] => []
  | col :: rest =>
      match seen !! col with
      | Some n =>
          (col +:+ "_" +:+ pystr.of_nat (S n))
            :: _deduplicate_columns_from (<[col := S n]> seen) rest
      | None => col :: _deduplicate_columns_from (<[col := 0]> seen) rest
      end
  end.

Definition _deduplicate_columns (columns : list string) : list string :=
  _deduplicate_columns_from ∅ columns.

(** [config.COLUMN_ALIASES.get(standard_col, [standard_col])] *)
Definition aliases_of (standard_col : string) : list string :=
  default [standard_col] (config.COLUMN_ALIASES !! standard_col).

(** The two dicts built by step 3: [mapping] (standard name to source
    column) and [rename_map] (source column to standard name). *)
Record maps := mkMaps { mapping : gmap string string; rename_map : gmap string string }.

(** The inner [for alias in aliases] loop with its [break]. *)
Fixpoint scan_aliases (df_columns : list string) (standard_col : string)
    (aliases : list string) (st : maps) : maps :=
  match aliases with
  | [] => st
  | alias :: rest =>
      let normalized_alias := _normalize_col_name alias in
      if bool_decide (normalized_alias ∈ df_columns)
         && bool_decide (rename_map st !! normalized_alias = None)
      then
        mkMaps (<[standard_col := normalized_alias]> (mapping st))
               (if bool_decide (normalized_alias ≠ standard_col)
                then <[normalized_alias := standard_col]> (rename_map st)
                else rename_map st)
      else scan_aliases df_columns standard_col rest st
  end.

(** The outer [for standard_col in all_standard] loop. *)
Definition build_mapping (df_columns : list string) : maps :=
  foldl (λ st standard_col,
           scan_aliases df_columns standard_col (aliases_of standard_col) st)
        (mkMaps ∅ ∅)
        (config.REQUIRED_COLUMNS ++ config.OPTIONAL_COLUMNS).

(** The column labels after steps 1 and 2. *)
Definition normalized_columns (raw_columns : list string) : list string :=
  _deduplicate_columns (_normalize_col_name <$> raw_columns).

(** [detect_and_map], on the column labels of the frame (the cell data
    is carried along unchanged): the renamed labels, [mapping] and
    [missing_required]. *)
Definition detect_and_map (raw_columns : list string)
    : list string * gmap string string * list string :=
  let df_columns := normalized_columns raw_columns in
  let st := build_mapping df_columns in
  let renamed := (λ c, default c (rename_map st !! c)) <$> df_columns in
  let missing_required :=
    filter (λ c, mapping st !! c = None) config.REQUIRED_COLUMNS in
  (renamed, mapping st, missing_required).

End schema_detection.

(** ** modules/data_cleaning.py *)

Module data_cleaning.

(** The counters of the cleaning report. *)
Record report := mkReport {
  original_rows : Z;
  duplicates_removed : Z;
  null_rows_dropped : Z;
  invalid_dates : Z;
  invalid_revenue : Z;
  negative_revenue : Z;
  text_normalized : Z;
  final_rows : Z
}.

Definition len {A} (l : list A) : Z := Z.of_nat (length l).

(** The symbol of the list that [s] starts with, if any. *)
Definition leading_symbol (s : string) : option string :=
  head (filter (λ sym, String.prefix sym s = true) config.CURRENCY_SYMBOLS).

(** [s.str.replace("[<symbols>\s]", "", regex=True)] on one text;
    [fuel] bounds the scan by the length of the text. *)
Fixpoint strip_symbols_fuel (fuel : nat) (s : string) : string :=
  match fuel with
  | O => s
  | S fuel' =>
      match s with
      | EmptyString => EmptyString
      | String c s' =>
          match leading_symbol s with
          | Some sym =>
              strip_symbols_fuel fuel'
                (String.substring (String.length sym)
                   (String.length s - String.length sym) s)
          | None =>
              if pystr.is_space c then strip_symbols_fuel fuel' s'
              else String c (strip_symbols_fuel fuel' s')
          end
      end
  end.

Definition strip_symbols (s : string) : string :=
  strip_symbols_fuel (String.length s) s.

Section cleaning.

(** The pandas conversions that the cleaner calls on cell contents:
    - [parse_auto series v]: the timestamp that
      [pd.to_datetime(series, errors="coerce")] yields for the value [v]
      of [series] ([None] for NaT);
    - [parse_fmt fmt v]: the same for
      [pd.to_datetime(series, format=fmt, errors="coerce")];
    - [to_numeric s]: [pd.to_numeric] on a text ([None] where it is
      coerced to NaN);
    - [str_of_num], [str_of_ts]: what [astype(str)] prints for a number
      and for a timestamp. *)
Variable parse_auto : list cell → cell → option Timestamp.
Variable parse_fmt : string → cell → option Timestamp.
Variable to_numeric : string → option Qc.
Variable str_of_num : Qc → string.
Variable str_of_ts : Timestamp → string.

(** [pd.to_datetime(series, ..., errors="coerce")]: missing stays
    missing, what does not parse becomes NaT. *)
Definition to_datetime (parse : cell → option Timestamp) (series : list cell)
    : list cell :=
  (λ v, if isna v then NaT
        else match parse v with Some t => Ts t | None => NaT end) <$> series.

(** One turn of [for fmt in config.DATE_FORMATS]. *)
Definition try_format (series : list cell) (converted : list cell) (fmt : string)
    : list cell :=
  let attempt := to_datetime (parse_fmt fmt) series in
  if bool_decide (count_notna converted < count_notna attempt)%nat
  then attempt else converted.

Definition _convert_dates (series : list cell) : list cell * Z :=
  let converted := to_datetime (parse_auto series) series in
  (* nat_ratio > 0.5, with nat_ratio = NaT count / max(len(series), 1) *)
  let converted :=
    if bool_decide (Z.max (len series) 1 < 2 * Z.of_nat (count_na converted))%Z
    then foldl (try_format series) converted config.DATE_FORMATS
    else converted in
  let invalid_count :=
    Z.max 0 (Z.of_nat (count_na converted) - Z.of_nat (count_na series)) in
  (converted, invalid_count).

(** [series.astype(str)] on one value. *)
Definition astype_str (v : cell) : string :=
  match v with
  | PNone => "None"
  | NaN => "nan"
  | NaT => "NaT"
  | Num q => str_of_num q
  | Str s => s
  | Ts t => str_of_ts t
  end.

(** [_clean_numeric] on one value.  A number prints as a numeral that
    holds none of the stripped symbols and converts back to itself; a
    missing value prints as a text that converts to NaN, and so does a
    timestamp. *)
Definition _clean_numeric (v : cell) : cell :=
  match v with
  | Num q => Num q
  | Str s =>
      let s := strip_symbols s in
      if bool_decide (s ∈ ["nan"; ""; "none"; "null"]) then NaN
      else match to_numeric s with Some q => Num q | None => NaN end
  | _ => NaN
  end.

(** Step 6 on one value:
    [astype(str).str.strip().str.lower()], then [replace("nan", "unknown")]. *)
Definition normalize_text (v : cell) : cell :=
  let s := pystr.lower (pystr.strip (astype_str v)) in
  Str (if bool_decide (s = "nan") then "unknown" else s).

(** [dt.to_period("M").astype(str)] on one value. *)
Definition year_month_of (v : cell) : cell :=
  match v with
  | Ts t => Str (pystr.zero_pad 4 (ts_year t) +:+ "-" +:+ pystr.zero_pad 2 (ts_month t))
  | _ => Str "NaT"
  end.

(** [(series < 0).sum()] *)
Definition count_negative (s : list cell) : nat :=
  length (filter (λ v, match v with Num q => bool_decide (q < 0)%Qc | _ => false end = true) s).

(** Steps 3, 5 and 6 visit the configured columns that the frame has. *)
Definition present (cs : list string) (df : DataFrame) : list string :=
  filter (λ c, has_col c df = true) cs.

Definition map_cols (cs : list string) (f : cell → cell) (rs : list row) : list row :=
  foldl (λ rs c, map_col c f rs) rs cs.

Definition clean (df : DataFrame) : DataFrame * report :=
  let original := len (rows df) in
  (* Step 1: remove duplicates on order_id *)
  let rs1 :=
    if has_col "order_id" df then drop_duplicates "order_id" (rows df)
    else rows df in
  let duplicates := if has_col "order_id" df then (original - len rs1)%Z else 0%Z in
  (* Step 2: convert the date column, drop rows with no valid date *)
  let '(converted, invalid_count) := _convert_dates (col "date" rs1) in
  let rs2 :=
    if has_col "date" df
    then dropna_any ["date"] (rows (set_col "date" converted (mkDF (columns df) rs1)))
    else rs1 in
  let invalid := if has_col "date" df then invalid_count else 0%Z in
  let null_dates := if has_col "date" df then Z.of_nat (count_na converted) else 0%Z in
  (* Step 3: clean numeric columns *)
  let rs3 := map_cols (present ["revenue"; "cost"; "marketing_spend"] df) _clean_numeric rs2 in
  let inv_rev := if has_col "revenue" df then Z.of_nat (count_na (col "revenue" rs3)) else 0%Z in
  let neg_rev := if has_col "revenue" df then Z.of_nat (count_negative (col "revenue" rs3)) else 0%Z in
  (* Step 4: drop rows where all required fields are null *)
  let required_present := present config.REQUIRED_COLUMNS df in
  let rs4 :=
    match required_present with
    | [] => rs3
    | _ => dropna_all required_present rs3
    end in
  let null_rows := (null_dates + (len rs3 - len rs4))%Z in
  (* Step 5: fill optional numeric columns with 0 *)
  let rs5 := map_cols (present ["cost"; "marketing_spend"] df) fillna0 rs4 in
  (* Step 6: normalize text columns *)
  let text_cols := present config.TEXT_COLUMNS df in
  let rs6 := map_cols text_cols normalize_text rs5 in
  (* Step 7: add year_month *)
  let out :=
    if has_col "date" df
    then mkDF (if has_col "year_month" df then columns df else columns df ++ ["year_month"])
              ((λ r : row, <["year_month" := year_month_of (r !!! "date")]> r) <$> rs6)
    else mkDF (columns df) rs6 in
  (* Step 8: reset_index renumbers the rows and keeps their order *)
  (out,
   mkReport original duplicates null_rows invalid inv_rev neg_rev
            (len text_cols) (len (rows out))).

End cleaning.

End data_cleaning.

(** ** modules/aggregation.py *)

Module aggregation.

Import config builtins.

(** [df.groupby(key).agg({c: ...})] raises [KeyError] when a column of the
    dict is not a column of the grouped frame; the key column itself is
    not one of them. *)
Definition agg_columns_exist (key : string) (cs : list string) (df : DataFrame) : bool :=
  forallb (λ c, has_col c df && bool_decide (c ≠ key)) cs.

(** [round(safe_divide(r["total_revenue"], r["total_orders"]), 2)] *)
Definition avg_order_value (total_revenue total_orders : cell) : result cell :=
  round2 (safe_divide total_revenue total_orders default_0).

(** The summary row of one month: the aggregates of the group, renamed,
    and the derived average. *)
Definition monthly_row (has_cost has_spend : bool) (rs : list row) (k : cell)
    : result row :=
  let g := group "year_month" k rs in
  total_revenue ←r pd.sum (col "revenue" g);
  let total_orders := pd.count (col "order_id" g) in
  let unique_customers := pd.nunique (col "customer_id" g) in
  total_cost ←r (if has_cost then pd.sum (col "cost" g) else Ok NaN);
  total_spend ←r (if has_spend then pd.sum (col "marketing_spend" g) else Ok NaN);
  aov ←r avg_order_value total_revenue total_orders;
  let r : row :=
    <["unique_customers" := unique_customers]>
      (<["total_orders" := total_orders]>
         (<["total_revenue" := total_revenue]>
            (<["year_month" := k]> ∅))) in
  let r : row := if has_cost then <["total_cost" := total_cost]> r else r in
  let r : row := if has_spend then <["total_marketing_spend" := total_spend]> r else r in
  Ok (<["avg_order_value" := aov]> r).

Definition build_monthly_summary (df : DataFrame) : result DataFrame :=
  if negb (has_col "year_month" df) || pd.empty df then Ok empty_frame
  else
    let has_cost := has_col "cost" df in
    let has_spend := has_col "marketing_spend" df in
    let agg_dict :=
      ["revenue"; "order_id"; "customer_id"]
        ++ (if has_cost then ["cost"] else [])
        ++ (if has_spend then ["marketing_spend"] else []) in
    if negb (agg_columns_exist "year_month" agg_dict df) then Raise KeyError
    else
      keys ←r group_keys "year_month" (rows df);
      monthly ←r traverse (monthly_row has_cost has_spend (rows df)) keys;
      Ok (mkDF (["year_month"; "total_revenue"; "total_orders"; "unique_customers"]
                  ++ (if has_cost then ["total_cost"] else [])
                  ++ (if has_spend then ["total_marketing_spend"] else [])
                  ++ ["avg_order_value"])
               monthly).

Definition segment_row (segment_col : string) (rs : list row) (k : cell)
    : result row :=
  let g := group segment_col k rs in
  total_revenue ←r pd.sum (col "revenue" g);
  let total_orders := pd.count (col "order_id" g) in
  let unique_customers := pd.nunique (col "customer_id" g) in
  aov ←r avg_order_value total_revenue total_orders;
  Ok (<["avg_order_value" := aov]>
        (<["unique_customers" := unique_customers]>
           (<["total_orders" := total_orders]>
              (<["total_revenue" := total_revenue]>
                 (<["segment" := k]> (∅ : row)))))).

(** The revenue that [sort_values] reads from a summary row. *)
Definition total_revenue_of (r : row) : Qc :=
  match r !!! "total_revenue" with Num q => q | _ => 0%Qc end.

Section segment.

(** [frame.sort_values("total_revenue", ascending=False)] on the rows of
    the frame.  The call leaves [kind] at its default, "quicksort",
    which pandas documents as not stable: the result is in descending
    order, and rows of equal revenue come in an order that the sort
    routine of the platform decides. *)
Variable sort_values_desc : list row → list row.

Definition build_segment_summary (df : DataFrame) (segment_col : string)
    : result DataFrame :=
  if negb (has_col segment_col df) || pd.empty df then Ok empty_frame
  else if negb (agg_columns_exist segment_col ["revenue"; "order_id"; "customer_id"] df)
  then Raise KeyError
  else
    keys ←r group_keys segment_col (rows df);
    segment ←r traverse (segment_row segment_col (rows df)) keys;
    Ok (mkDF ["segment"; "total_revenue"; "total_orders"; "unique_customers";
              "avg_order_value"]
             (sort_values_desc segment)).

End segment.

Definition daily_row (rs : list row) (k : cell) : result row :=
  let g := group "date" k rs in
  daily_revenue ←r pd.sum (col "revenue" g);
  let daily_orders := pd.count (col "order_id" g) in
  Ok (<["daily_orders" := daily_orders]>
        (<["daily_revenue" := daily_revenue]>
           (<["date" := k]> (∅ : row)))).

Definition build_daily_summary (df : DataFrame) : result DataFrame :=
  if negb (has_col "date" df) || pd.empty df then Ok empty_frame
  else if negb (agg_columns_exist "date" ["revenue"; "order_id"] df)
  then Raise KeyError
  else
    keys ←r group_keys "date" (rows df);
    daily ←r traverse (daily_row (rows df)) keys;
    Ok (mkDF ["date"; "daily_revenue"; "daily_orders"] daily).

End aggregation.

(** ** modules/kpi_engine.py *)

Module kpi_engine.

Import config builtins.

Definition _empty_kpis : gmap string cell :=
  <["orders_per_customer" := Num 0%Qc]>
  (<["total_months" := Num 0%Qc]>
  (<["roas" := PNone]>
  (<["total_marketing_spend" := PNone]>
  (<["gross_margin" := PNone]>
  (<["total_cost" := PNone]>
  (<["mom_revenue_growth" := PNone]>
  (<["latest_month_revenue" := Num 0%Qc]>
  (<["latest_month" := Str "N/A"]>
  (<["revenue_per_customer" := Num 0%Qc]>
  (<["avg_order_value" := Num 0%Qc]>
  (<["unique_customers" := Num 0%Qc]>
  (<["total_orders" := Num 0%Qc]>
  (<["total_revenue" := Num 0%Qc]> ∅))))))))))))).

(** [df[c]]: [KeyError] when the frame has no such column. *)
Definition getcol (c : string) (df : DataFrame) : result (list cell) :=
  if has_col c df then Ok (col c (rows df)) else Raise KeyError.

(** [df.iloc[-n][c]] for a frame with at least [n] rows. *)
Definition iloc_back (n : nat) (c : string) (df : DataFrame) : result cell :=
  if has_col c df
  then match reverse (rows df) !! (n - 1)%nat with
       | Some r => Ok (r !!! c)
       | None => Raise KeyError
       end
  else Raise KeyError.

(** A Python operator that raises [TypeError] on operands it rejects. *)
Definition arith (v : option cell) : result cell :=
  match v with Some c => Ok c | None => Raise TypeError end.

(** The sections of [compute_kpis] that branch; each extends the dict
    built so far. *)

(* Latest month *)
Definition latest_month_kpis (monthly_df : DataFrame) (kpis : gmap string cell)
    : result (gmap string cell) :=
  if bool_decide (1 ≤ length (rows monthly_df))%nat then
    latest_month ←r iloc_back 1 "year_month" monthly_df;
    latest ←r iloc_back 1 "total_revenue" monthly_df;
    latest_month_revenue ←r round2 latest;
    Ok (<["latest_month_revenue" := latest_month_revenue]>
          (<["latest_month" := latest_month]> kpis))
  else
    Ok (<["latest_month_revenue" := Num 0%Qc]>
          (<["latest_month" := Str "N/A"]> kpis)).

(* Previous month *)
Definition growth_kpis (monthly_df : DataFrame) (kpis : gmap string cell)
    : result (gmap string cell) :=
  if bool_decide (2 ≤ length (rows monthly_df))%nat then
    prev_rev ←r iloc_back 2 "total_revenue" monthly_df;
    curr_rev ←r iloc_back 1 "total_revenue" monthly_df;
    growth ←r round2 (safe_pct_change curr_rev prev_rev default_0);
    Ok (<["mom_revenue_growth" := growth]> kpis)
  else
    Ok (<["mom_revenue_growth" := PNone]> kpis).

(* Cost and margin *)
Definition cost_kpis (clean_df : DataFrame) (total_revenue : cell)
    (kpis : gmap string cell) : result (gmap string cell) :=
  if has_col "cost" clean_df then
    total_cost ←r pd.sum (col "cost" (rows clean_df));
    total_cost_2 ←r round2 total_cost;
    margin ←r arith (py_sub total_revenue total_cost);
    pct ←r arith (py_mul (safe_divide margin total_revenue default_0)
                         (Num (Qc_of_Z 100)));
    gross_margin ←r round2 pct;
    Ok (<["gross_margin" := gross_margin]>
          (<["total_cost" := total_cost_2]> kpis))
  else
    Ok (<["gross_margin" := PNone]> (<["total_cost" := PNone]> kpis)).

(* Marketing *)
Definition marketing_kpis (clean_df : DataFrame) (total_revenue : cell)
    (kpis : gmap string cell) : result (gmap string cell) :=
  if has_col "marketing_spend" clean_df then
    spend ←r pd.sum (col "marketing_spend" (rows clean_df));
    total_marketing_spend ←r round2 spend;
    roas ←r round2 (safe_divide total_revenue total_marketing_spend default_0);
    Ok (<["roas" := roas]>
          (<["total_marketing_spend" := total_marketing_spend]> kpis))
  else
    Ok (<["roas" := PNone]> (<["total_marketing_spend" := PNone]> kpis)).

Definition compute_kpis (clean_df monthly_df : DataFrame) : result (gmap string cell) :=
  if pd.empty clean_df || pd.empty monthly_df then Ok _empty_kpis
  else
    let kpis : gmap string cell := ∅ in
    (* Revenue KPIs *)
    revenue ←r getcol "revenue" clean_df;
    revenue_sum ←r pd.sum revenue;
    total_revenue ←r round2 revenue_sum;
    let kpis := <["total_revenue" := total_revenue]> kpis in
    let total_orders :=
      if has_col "order_id" clean_df then pd.nunique (col "order_id" (rows clean_df))
      else Num (Qc_of_nat (length (rows clean_df))) in
    let kpis := <["total_orders" := total_orders]> kpis in
    let unique_customers :=
      if has_col "customer_id" clean_df
      then pd.nunique (col "customer_id" (rows clean_df))
      else Num 0%Qc in
    let kpis := <["unique_customers" := unique_customers]> kpis in
    (* Averages *)
    aov ←r round2 (safe_divide total_revenue total_orders default_0);
    let kpis := <["avg_order_value" := aov]> kpis in
    rpc ←r round2 (safe_divide total_revenue unique_customers default_0);
    let kpis := <["revenue_per_customer" := rpc]> kpis in
    kpis ←r latest_month_kpis monthly_df kpis;
    kpis ←r growth_kpis monthly_df kpis;
    kpis ←r cost_kpis clean_df total_revenue kpis;
    kpis ←r marketing_kpis clean_df total_revenue kpis;
    (* Period info *)
    let kpis := <["total_months" := Num (Qc_of_nat (length (rows monthly_df)))]> kpis in
    opc ←r round2 (safe_divide total_orders unique_customers default_0);
    Ok (<["orders_per_customer" := opc]> kpis).

End kpi_engine.

(** ** modules/growth_quality.py

    The new-versus-repeat section of [analyze]: the figures behind its
    four KPI cards and the table behind its stacked bar chart.  The
    texts of the cards and of the insights are formatting and are left
    out. *)

Module growth_quality.

Import config builtins.

(** [a == b] on Python scalars: NaN and NaT equal nothing. *)
Definition py_eq (a b : cell) : bool :=
  match a, b with
  | NaN, _ | _, NaN | NaT, _ | _, NaT => false
  | _, _ => bool_decide (a = b)
  end.

(** [a + b] on floats. *)
Definition py_add (a b : cell) : option cell :=
  match a, b with
  | Num x, Num y => Some (Num (x + y)%Qc)
  | Num _, NaN | NaN, Num _ | NaN, NaN => Some NaN
  | _, _ => None
  end.

(** [round(x, 1)] *)
Definition round1_Qc (q : Qc) : Qc :=
  Q2Qc (round_half_even (this q * 10) # 10).

Definition round1 (c : cell) : result cell :=
  match c with
  | Num q => Ok (Num (round1_Qc q))
  | NaN => Ok NaN
  | _ => Raise TypeError
  end.

(** Values of one kind can be compared with each other. *)
Definition same_kind (vs : list cell) : bool :=
  forallb is_Str vs || forallb is_Num vs || forallb is_Ts vs.

(** The group-by ["min"]: the least of the values that are not missing,
    NaN when all are missing; texts cannot be compared with numbers or
    timestamps ([TypeError]). *)
Definition group_min (vs : list cell) : result cell :=
  match filter (λ v, isna v = false) vs with
  | [] => Ok NaN
  | v :: rest =>
      if same_kind (v :: rest)
      then Ok (foldl (λ m x, if bool_decide (key_le m x) then m else x) v rest)
      else Raise TypeError
  end.

(** [clean_df.groupby("customer_id")["year_month"].min().reset_index()]:
    the customers in key order, each with the first month. *)
Definition customer_first_month (rs : list row) : result (list (cell * cell)) :=
  keys ←r group_keys "customer_id" rs;
  traverse (λ k, first_month ←r group_min (col "year_month" (group "customer_id" k rs));
                 Ok (k, first_month))
           keys.

(** The [first_month] that the left merge on [customer_id] gives a row:
    NaN where the customer id is missing. *)
Definition first_month_of (cfm : list (cell * cell)) (r : row) : cell :=
  match list_find (λ p, p.1 = r !!! "customer_id") cfm with
  | Some (_, (_, first_month)) => first_month
  | None => NaN
  end.

Definition customer_type (cfm : list (cell * cell)) (r : row) : string :=
  if py_eq (r !!! "year_month") (first_month_of cfm r) then "New" else "Repeat".

(** [merged[merged["customer_type"] == t]] *)
Definition of_type (cfm : list (cell * cell)) (t : string) (rs : list row) : list row :=
  filter (λ r, customer_type cfm r = t) rs.

(** The rows of [monthly_type]: for every month the customer types that
    occur in it, with their revenue and their number of customers. *)
Definition month_types (cfm : list (cell * cell)) (rs : list row) (k : cell)
    : result (list row) :=
  let g := group "year_month" k rs in
  types ←r group_keys "customer_type"
             ((λ r : row, <["customer_type" := Str (customer_type cfm r)]> r) <$> g);
  traverse (λ t,
      let gt := filter (λ r, Str (customer_type cfm r) = t) g in
      total_revenue ←r pd.sum (col "revenue" gt);
      Ok (<["customers" := pd.nunique (col "customer_id" gt)]>
            (<["total_revenue" := total_revenue]>
               (<["customer_type" := t]>
                  (<["year_month" := k]> (∅ : row))))))
    types.

Definition monthly_type (cfm : list (cell * cell)) (rs : list row)
    : result (list row) :=
  months ←r group_keys "year_month" rs;
  per_month ←r traverse (month_types cfm rs) months;
  Ok (concat per_month).

(** The figures of the analysis. *)
Record figures := mkFigures {
  fig_monthly_type : list row;
  new_count : cell;
  repeat_count : cell;
  repeat_rate : cell;
  new_revenue : cell;
  repeat_revenue : cell;
  total_rev : cell;
  repeat_revenue_share : cell
}.

(** A Python operator that raises [TypeError] on operands it rejects. *)
Definition arith (v : option cell) : result cell :=
  match v with Some c => Ok c | None => Raise TypeError end.

(** [None] stands for the early return on empty input. *)
Definition analyze (clean_df monthly_df : DataFrame) (kpis : gmap string cell)
    : result (option figures) :=
  if pd.empty clean_df || pd.empty monthly_df then Ok None
  else if negb (has_col "customer_id" clean_df && has_col "year_month" clean_df)
  then Raise KeyError
  else
    cfm ←r customer_first_month (rows clean_df);
    if negb (has_col "revenue" clean_df) then Raise KeyError
    else
      monthly_type ←r monthly_type cfm (rows clean_df);
      let total_customers := default (Num 0%Qc) (kpis !! "unique_customers") in
      let new_rows := of_type cfm "New" (rows clean_df) in
      let repeat_rows := of_type cfm "Repeat" (rows clean_df) in
      let new_count := pd.nunique (col "customer_id" new_rows) in
      let repeat_count := pd.nunique (col "customer_id" repeat_rows) in
      rate ←r arith (py_mul (safe_divide repeat_count total_customers default_0)
                            (Num (Qc_of_Z 100)));
      repeat_rate ←r round1 rate;
      new_revenue ←r pd.sum (col "revenue" new_rows);
      repeat_revenue ←r pd.sum (col "revenue" repeat_rows);
      total_rev ←r arith (py_add new_revenue repeat_revenue);
      share ←r arith (py_mul (safe_divide repeat_revenue total_rev default_0)
                             (Num (Qc_of_Z 100)));
      repeat_revenue_share ←r round1 share;
      Ok (Some (mkFigures monthly_type new_count repeat_count repeat_rate
                  new_revenue repeat_revenue total_rev repeat_revenue_share)).

End growth_quality.

(** ** app.py

    The run of the script from the column mapping to the KPIs (the part
    between the upload and the tabs), for the mapped frame and the
    missing columns that [detect_and_map] returns. *)

Module app.

(** Where the run ends: at one of the two [st.stop()], or with the
    inputs of the tabs. *)
Inductive outcome :=
  | MissingRequired (missing_required : list string)
  | NoValidData
  | Analysed (clean_df monthly_df : DataFrame) (kpis : gmap string cell).

Section run.

Variable parse_auto : list cell → cell → option Timestamp.
Variable parse_fmt : string → cell → option Timestamp.
Variable to_numeric : string → option Qc.
Variable str_of_num : Qc → string.
Variable str_of_ts : Timestamp → string.

Definition run (mapped_df : DataFrame) (missing_required : list string)
    : result outcome :=
  if bool_decide (missing_required ≠ []) then Ok (MissingRequired missing_required)
  else
    let '(clean_df, cleaning_report) :=
      data_cleaning.clean parse_auto parse_fmt to_numeric str_of_num str_of_ts
        mapped_df in
    if pd.empty clean_df then Ok NoValidData
    else
      monthly_df ←r aggregation.build_monthly_summary clean_df;
      kpis ←r kpi_engine.compute_kpis clean_df monthly_df;
      Ok (Analysed clean_df monthly_df kpis).

End run.

End app.

(** ** Sample conversions and tables

    Small stand-ins for the pandas conversions, enough to run the
    cleaner on sample tables: dates are read in fixed-width numeric
    form, numbers as decimal numerals. *)

Module samples.

Fixpoint digits_value (acc : N) (s : string) : option N :=
  match s with
  | EmptyString => Some acc
  | String c s' =>
      match Ascii.is_nat c with
      | Some d => digits_value (acc * 10 + N.of_nat d) s'
      | None => None
      end
  end.

(** A non-empty string of decimal digits. *)
Definition numeral (s : string) : option N :=
  match s with
  | EmptyString => None
  | _ => digits_value 0 s
  end.

Definition field (start len : nat) (s : string) : option N :=
  numeral (String.substring start len s).

Definition sep_at (i : nat) (c : ascii) (s : string) : bool :=
  bool_decide (String.get i s = Some c).

Definition valid_date (y m d : N) : option Timestamp :=
  if bool_decide (1 ≤ m ≤ 12)%N && bool_decide (1 ≤ d ≤ 31)%N
  then Some (mkTs y m d 0) else None.

(** Fixed-width readers for ["%Y-%m-%d"] and ["%d-%m-%Y"]; other
    formats read nothing. *)
Definition parse_fmt (fmt : string) (v : cell) : option Timestamp :=
  match v with
  | Str s =>
      if negb (bool_decide (String.length s = 10%nat)) then None
      else if bool_decide (fmt = "%Y-%m-%d") then
        if sep_at 4 "-" s && sep_at 7 "-" s then
          y ← field 0 4 s; m ← field 5 2 s; d ← field 8 2 s; valid_date y m d
        else None
      else if bool_decide (fmt = "%d-%m-%Y") then
        if sep_at 2 "-" s && sep_at 5 "-" s then
          d ← field 0 2 s; m ← field 3 2 s; y ← field 6 4 s; valid_date y m d
        else None
      else None
  | Ts t => Some t
  | _ => None
  end.

(** The general reader: ISO dates only. *)
Definition parse_auto (series : list cell) (v : cell) : option Timestamp :=
  parse_fmt "%Y-%m-%d" v.

(** Unsigned whole numerals. *)
Definition to_numeric (s : string) : option Qc :=
  (λ n, Qc_of_Z (Z.of_N n)) <$> numeral s.

Definition str_of_num (q : Qc) : string :=
  pystr.of_N (Z.to_N (Qnum (this q) / Z.pos (Qden (this q)))).

Definition str_of_ts (t : Timestamp) : string :=
  pystr.zero_pad 4 (ts_year t) +:+ "-" +:+ pystr.zero_pad 2 (ts_month t)
    +:+ "-" +:+ pystr.zero_pad 2 (ts_day t).

Definition clean : DataFrame → DataFrame * data_cleaning.report :=
  data_cleaning.clean parse_auto parse_fmt to_numeric str_of_num str_of_ts.

(** A sort that meets the contract of [sort_values] and keeps ties in
    their incoming order, and one that reverses them. *)
Definition revenue_ge (a b : row) : Prop :=
  (aggregation.total_revenue_of b ≤ aggregation.total_revenue_of a)%Qc.

Definition revenue_le (a b : row) : Prop :=
  (aggregation.total_revenue_of a ≤ aggregation.total_revenue_of b)%Qc.

Global Instance revenue_ge_dec : RelDecision revenue_ge.
Proof. intros a b. unfold revenue_ge. apply _. Defined.

Global Instance revenue_le_dec : RelDecision revenue_le.
Proof. intros a b. unfold revenue_le. apply _. Defined.

Definition stable_sort_desc (rs : list row) : list row :=
  merge_sort revenue_ge rs.

Definition reversing_sort_desc (rs : list row) : list row :=
  reverse (merge_sort revenue_le rs).

(** Build a row from its labelled cells. *)
Definition mkrow (l : list (string * cell)) : row := list_to_map l.

Definition num (z : Z) : cell := Num (Qc_of_Z z).

End samples.

(** ** Conditions under which the properties are stated *)

Module conditions.

(** Every value of column [c] is a number or NaN. *)
Definition float_column (c : string) (df : DataFrame) : Prop :=
  Forall (λ v, is_float v = true) (col c (rows df)).

(** The inputs that the pipeline hands to [compute_kpis]: a clean table
    with a float revenue column (and float cost and spend columns, where
    present) and a monthly summary with its month and revenue columns. *)
Record kpi_ready (clean_df monthly_df : DataFrame) : Prop := {
  ready_revenue : has_col "revenue" clean_df = true;
  ready_revenue_float : float_column "revenue" clean_df;
  ready_cost : has_col "cost" clean_df = true → float_column "cost" clean_df;
  ready_spend :
    has_col "marketing_spend" clean_df = true →
    float_column "marketing_spend" clean_df;
  ready_year_month : has_col "year_month" monthly_df = true;
  ready_total : has_col "total_revenue" monthly_df = true;
  ready_total_float : float_column "total_revenue" monthly_df
}.

(** The fourteen keys of the KPI dict. *)
Definition kpi_keys : gset string :=
  list_to_set
    ["total_revenue"; "total_orders"; "unique_customers"; "avg_order_value";
     "revenue_per_customer"; "latest_month"; "latest_month_revenue";
     "mom_revenue_growth"; "total_cost"; "gross_margin";
     "total_marketing_spend"; "roas"; "total_months"; "orders_per_customer"].

End conditions.

(** ** Sample tables *)

Module tables.

Import samples.

(** A clean table of three orders in two months. *)
Definition clean_3 : DataFrame :=
  mkDF ["order_id"; "customer_id"; "revenue"; "date"; "year_month"]
    [ mkrow [("order_id", Str "A1"); ("customer_id", Str "c1");
             ("revenue", num 1000); ("date", Ts (mkTs 2024 1 5 0));
             ("year_month", Str "2024-01")];
      mkrow [("order_id", Str "A2"); ("customer_id", Str "c2");
             ("revenue", num 1200); ("date", Ts (mkTs 2024 2 6 0));
             ("year_month", Str "2024-02")];
      mkrow [("order_id", Str "A3"); ("customer_id", Str "c2");
             ("revenue", NaN); ("date", Ts (mkTs 2024 2 9 0));
             ("year_month", Str "2024-02")] ].

Definition month (ym : string) (revenue : Z) : row :=
  mkrow [("year_month", Str ym); ("total_revenue", num revenue);
         ("total_orders", num 1); ("unique_customers", num 1);
         ("avg_order_value", num revenue)].

Definition monthly_columns : list string :=
  ["year_month"; "total_revenue"; "total_orders"; "unique_customers";
   "avg_order_value"].

(** Monthly revenues [1000, 1200]. *)
Definition monthly_1000_1200 : DataFrame :=
  mkDF monthly_columns [month "2024-01" 1000; month "2024-02" 1200].

(** A single month. *)
Definition monthly_single : DataFrame :=
  mkDF monthly_columns [month "2024-01" 1000].

(** A month without revenue followed by a month with some. *)
Definition monthly_0_500 : DataFrame :=
  mkDF monthly_columns [month "2024-01" 0; month "2024-02" 500].

(** A clean table without rows. *)
Definition clean_no_rows : DataFrame :=
  mkDF ["order_id"; "customer_id"; "revenue"; "date"; "year_month"] [].

(** A table with a month bucket and nothing to aggregate. *)
Definition only_year_month : DataFrame :=
  mkDF ["year_month"] [mkrow [("year_month", Str "2024-01")]].

End tables.

(** Further conditions and tables of the column mapping. *)

Module mapping_conditions.

Import schema_detection.

Definition all_standard : list string :=
  config.REQUIRED_COLUMNS ++ config.OPTIONAL_COLUMNS.

(** The normalized aliases of a standard column. *)
Definition normalized_aliases (standard_col : string) : list string :=
  _normalize_col_name <$> aliases_of standard_col.

(** Every normalized alias paired with the standard column that lists it. *)
Definition alias_owners : list (string * string) :=
  standard_col ← all_standard;
  (λ a, (a, standard_col)) <$> normalized_aliases standard_col.

(** What the loops keep true of [mapping]: a bound source column is a
    column of the frame and one of the normalized aliases of the
    standard column it is bound to. *)
Definition bound_ok (df_columns : list string) (st : maps) : Prop :=
  ∀ f c, mapping st !! f = Some c →
    f ∈ all_standard ∧ c ∈ normalized_aliases f ∧ c ∈ df_columns.

(** Raw headers of an upload. *)
Definition raw_headers : list string :=
  ["Order Date"; " Sales "; "revenue"; "ID"; "Customer ID"; "Region"].

End mapping_conditions.

(** ** The cleaner seen row by row

    What [clean] does to one row of the de-duplicated table once the
    date parser [p] of the column is fixed, and which rows it keeps. *)

Module row_view.

Import data_cleaning.

Section row_view.

Variable to_numeric : string → option Qc.
Variable str_of_num : Qc → string.
Variable str_of_ts : Timestamp → string.

(** One value under [to_datetime]. *)
Definition to_dt (p : cell → option Timestamp) (v : cell) : cell :=
  if isna v then NaT else match p v with Some t => Ts t | None => NaT end.

Definition row_map_cols (cs : list string) (f : cell → cell) (r : row) : row :=
  foldl (λ (r : row) c, <[c := f (r !!! c)]> r) r cs.

Definition date_step (df : DataFrame) (p : cell → option Timestamp) (r : row) : row :=
  if has_col "date" df then <["date" := to_dt p (r !!! "date")]> r else r.

Definition numeric_step (df : DataFrame) (r : row) : row :=
  row_map_cols (present ["revenue"; "cost"; "marketing_spend"] df)
    (_clean_numeric to_numeric) r.

Definition fill_step (df : DataFrame) (r : row) : row :=
  row_map_cols (present ["cost"; "marketing_spend"] df) fillna0 r.

Definition text_step (df : DataFrame) (r : row) : row :=
  row_map_cols (present config.TEXT_COLUMNS df)
    (normalize_text str_of_num str_of_ts) r.

Definition bucket_step (df : DataFrame) (r : row) : row :=
  if has_col "date" df then <["year_month" := year_month_of (r !!! "date")]> r else r.

(** The cleaned form of a row. *)
Definition row_out (df : DataFrame) (p : cell → option Timestamp) (r : row) : row :=
  bucket_step df (text_step df (fill_step df (numeric_step df (date_step df p r)))).

(** The row has a date after conversion (step 2). *)
Definition has_date (df : DataFrame) (p : cell → option Timestamp) (r : row) : Prop :=
  has_col "date" df = true → isna (to_dt p (r !!! "date")) = false.

(** Not all required fields of the row are missing (step 4). *)
Definition has_required (df : DataFrame) (p : cell → option Timestamp) (r : row) : Prop :=
  present config.REQUIRED_COLUMNS df ≠ [] →
  forallb (λ c, isna (numeric_step df (date_step df p r) !!! c))
          (present config.REQUIRED_COLUMNS df) = false.

Definition row_kept (df : DataFrame) (p : cell → option Timestamp) (r : row) : Prop :=
  has_date df p r ∧ has_required df p r.

Global Instance has_date_dec df p r : Decision (has_date df p r).
Proof. unfold has_date. apply _. Defined.

Global Instance has_required_dec df p r : Decision (has_required df p r).
Proof. unfold has_required. apply _. Defined.

Global Instance row_kept_dec df p r : Decision (row_kept df p r).
Proof. unfold row_kept. apply _. Defined.

(** The rows that enter step 2. *)
Definition deduplicated (df : DataFrame) : list row :=
  if has_col "order_id" df then drop_duplicates "order_id" (rows df) else rows df.

End row_view.

End row_view.

(** Conditions and samples of the date conversion. *)

Module date_conditions.

Import data_cleaning.

(** [nat_ratio > 0.5] for the general parse [converted] of [series]. *)
Definition over_half_NaT (series converted : list cell) : Prop :=
  (Z.max (len series) 1 < 2 * Z.of_nat (count_na converted))%Z.

(** Every value of the column is present and is read by the format. *)
Definition uniformly_formatted (parse : cell → option Timestamp) (series : list cell)
    : Prop :=
  Forall (λ v, isna v = false ∧ is_Some (parse v)) series.

(** A column of day-month-year dates. *)
Definition dmy_dates : list cell :=
  [Str "25-12-2023"; Str "01-02-2024"; Str "13-01-2024"].

(** A mapped table with that date column. *)
Definition dmy_table : DataFrame :=
  mkDF ["order_id"; "date"; "revenue"]
    [ samples.mkrow [("order_id", Str "A1"); ("date", Str "25-12-2023");
                     ("revenue", Str "10")];
      samples.mkrow [("order_id", Str "A2"); ("date", Str "01-02-2024");
                     ("revenue", Str "20")];
      samples.mkrow [("order_id", Str "A3"); ("date", Str "13-01-2024");
                     ("revenue", Str "30")] ].

End date_conditions.

(** Sample tables of the cleaner. *)

Module cleaning_tables.

Import samples.

(** The key under which [drop_duplicates] files a row. *)
Definition order_key (r : row) : cell := dup_key (r !!! "order_id").

Definition order (id date revenue : string) : row :=
  mkrow [("order_id", Str id); ("date", Str date); ("revenue", Str revenue);
         ("customer_id", Str "c1")].

(** Two rows share the order id X and differ in revenue. *)
Definition duplicated_orders : DataFrame :=
  mkDF ["order_id"; "date"; "revenue"; "customer_id"]
    [ order "X" "2024-01-05" "10";
      order "Y" "2024-01-06" "15";
      order "X" "2024-01-07" "20" ].

Definition visit (id : string) (channel : cell) : row :=
  mkrow [("order_id", Str id); ("date", Str "2024-01-05"); ("revenue", Str "10");
         ("customer_id", Str "c1"); ("channel", channel)].

(** Channel values: padded mixed case, the text none, blanks, the text
    null, and a NaN. *)
Definition channels : DataFrame :=
  mkDF ["order_id"; "date"; "revenue"; "customer_id"; "channel"]
    [ visit "A1" (Str " Web ");
      visit "A2" (Str "none");
      visit "A3" (Str "  ");
      visit "A4" (Str "null");
      visit "A5" NaN ].

End cleaning_tables.

(** Conditions of the aggregations. *)

Module aggregation_conditions.

Import conditions.

(** The number a float cell adds to a sum: NaN adds nothing. *)
Definition cell_number (v : cell) : Qc :=
  match v with Num q => q | _ => 0%Qc end.

(** The sum of a float column, missing values skipped. *)
Definition column_total (c : string) (rs : list row) : Qc :=
  Qc_sum (cell_number <$> col c rs).

(** The clean table as the aggregator receives it: not empty, with the
    month bucket, the revenue and the two identifiers as columns, a text
    bucket on every row, and float revenue, cost and spend columns. *)
Record clean_table (df : DataFrame) : Prop := {
  clean_nonempty : rows df ≠ [];
  clean_year_month : has_col "year_month" df = true;
  clean_revenue : has_col "revenue" df = true;
  clean_order_id : has_col "order_id" df = true;
  clean_customer_id : has_col "customer_id" df = true;
  clean_buckets : Forall (λ r : row, is_Str (r !!! "year_month") = true) (rows df);
  clean_revenue_float : float_column "revenue" df;
  clean_cost_float : has_col "cost" df = true → float_column "cost" df;
  clean_spend_float :
    has_col "marketing_spend" df = true → float_column "marketing_spend" df
}.

(** A clean table with the categorical column [segment_col]: the
    segment column (a text on every row), the revenue (float) and the
    two identifiers. *)
Record segment_table (df : DataFrame) (segment_col : string) : Prop := {
  segment_present : has_col segment_col df = true;
  segment_other : segment_col ∉ ["revenue"; "order_id"; "customer_id"];
  segment_revenue : has_col "revenue" df = true;
  segment_order_id : has_col "order_id" df = true;
  segment_customer_id : has_col "customer_id" df = true;
  segment_texts : Forall (λ r : row, is_Str (r !!! segment_col) = true) (rows df);
  segment_revenue_float : float_column "revenue" df
}.

(** What [sort_values(..., ascending=False)] promises with the default
    sort kind: the rows, rearranged so that the revenue never rises. *)
Record sorts_descending (sort : list row → list row) : Prop := {
  sort_permutes : ∀ rs, sort rs ≡ₚ rs;
  sort_descends : ∀ rs, Sorted samples.revenue_ge (sort rs)
}.

Definition sale (id segment : string) (revenue : Z) : row :=
  samples.mkrow [("order_id", Str id); ("customer_id", Str "c1");
                 ("revenue", samples.num revenue); ("channel", Str segment)].

(** Segments a, b, c with revenues 100, 500, 50. *)
Definition segments_abc : DataFrame :=
  mkDF ["order_id"; "customer_id"; "revenue"; "channel"]
    [ sale "A1" "a" 100; sale "A2" "b" 300; sale "A3" "c" 50; sale "A4" "b" 200 ].

(** Segments a and b with the same revenue. *)
Definition segments_tied : DataFrame :=
  mkDF ["order_id"; "customer_id"; "revenue"; "channel"]
    [ sale "A1" "a" 100; sale "A2" "b" 100 ].

End aggregation_conditions.

(** Conditions on column names. *)

Module name_conditions.

(** The text is empty or starts with a character that is not white space. *)
Definition starts_clean (s : string) : Prop :=
  match s with
  | String c _ => pystr.is_space c = false
  | EmptyString => True
  end.

(** What [lower] followed by [replace(" ", "_")] does to one character. *)
Definition normalize_char (c : ascii) : ascii :=
  let c := pystr.lower_ascii c in
  if bool_decide (c = " "%char) then "_"%char else c.

(** How often the name [c] occurs in [l]. *)
Definition occurrences (c : string) (l : list string) : nat :=
  length (filter (λ x, x = c) l).

End name_conditions.

(** Conditions of the alias search. *)

Module alias_conditions.

Import schema_detection mapping_conditions.

(** The first normalized alias of [standard_col], in the order of the
    configuration, that is a column of the frame. *)
Definition first_present (df_columns : list string) (standard_col : string)
    : option string :=
  head (filter (λ a, a ∈ df_columns) (normalized_aliases standard_col)).

(** What the outer loop keeps true once the standard columns [done] have
    been visited. *)
Record mapping_inv (df_columns done : list string) (st : maps) : Prop := {
  inv_done : ∀ g, g ∈ done → mapping st !! g = first_present df_columns g;
  inv_todo : ∀ g, g ∉ done → mapping st !! g = None;
  inv_rename : ∀ a g, rename_map st !! a = Some g ↔ mapping st !! g = Some a ∧ a ≠ g
}.

(** Raw headers in which a standard name and two of its aliases occur. *)
Definition raw_sales : list string :=
  ["Order No"; "Sales"; "Amount"; "DATE"; "User ID"].

End alias_conditions.

(** A mapped table for the cleaning report. *)

Module report_tables.

Import samples.

Definition entry (id date : string) (revenue cost : cell) : row :=
  mkrow [("order_id", Str id); ("date", Str date); ("revenue", revenue);
         ("customer_id", Str "c1"); ("cost", cost)].

(** A repeated order id, a date that does not parse, a revenue with
    currency symbols, a negative revenue and missing costs. *)
Definition messy_orders : DataFrame :=
  mkDF ["order_id"; "date"; "revenue"; "customer_id"; "cost"]
    [ entry "X" "2024-01-05" (Str "$1,200") NaN;
      entry "Y" "not a date" (Str "15") (Str "3");
      entry "X" "2024-01-07" (Str "20") (Str "4");
      entry "Z" "2024-02-01" (num (-5)) (Str "n/a") ].

Definition purchase (id customer : string) (revenue : Z) (ym : string) : row :=
  mkrow [("order_id", Str id); ("customer_id", Str customer);
         ("revenue", num revenue); ("year_month", Str ym)].

(** A customer who buys in both months and one who buys in the second. *)
Definition returning_customer : DataFrame :=
  mkDF ["order_id"; "customer_id"; "revenue"; "year_month"]
    [ purchase "A1" "c1" 100 "2024-01";
      purchase "A2" "c1" 50 "2024-02";
      purchase "A3" "c2" 30 "2024-02" ].

End report_tables.

(** Conditions on the characters of a text. *)

Module text_conditions.

(** The text holds ASCII characters only. *)
Definition is_ascii (s : string) : Prop :=
  Forall (λ c, (nat_of_ascii c < 128)%nat) (String.list_ascii_of_string s).

(** Neither white space nor a dollar sign nor a comma. *)
Definition plain_char (c : ascii) : Prop :=
  pystr.is_space c = false ∧ c ≠ "$"%char ∧ c ≠ ","%char.

Global Instance plain_char_dec c : Decision (plain_char c).
Proof. unfold plain_char. apply _. Defined.

End text_conditions.

(** What the summaries hold for one group. *)

Module summary_conditions.

Import aggregation aggregation_conditions.

(** The number of distinct values of a column, missing ones left out:
    the number inside [pd.nunique]. *)
Definition distinct_values (s : list cell) : nat :=
  length (remove_dups (filter (λ c, isna c = false) s)).

(** The summary row [r'] of the rows [g] of a group: revenue, orders,
    customers and the derived average. *)
Definition summarizes (g : list row) (r' : row) : Prop :=
  r' !!! "total_revenue" = Num (column_total "revenue" g) ∧
  r' !!! "total_orders" = Num (Qc_of_nat (count_notna (col "order_id" g))) ∧
  r' !!! "unique_customers" = pd.nunique (col "customer_id" g) ∧
  avg_order_value (r' !!! "total_revenue") (r' !!! "total_orders")
    = Ok (r' !!! "avg_order_value").

(** The row of the month [k] in the monthly summary of [df]. *)
Definition month_row (df : DataFrame) (k : cell) (r' : row) : Prop :=
  let g := group "year_month" k (rows df) in
  r' !!! "year_month" = k ∧
  summarizes g r' ∧
  (has_col "cost" df = true → r' !!! "total_cost" = Num (column_total "cost" g)) ∧
  (has_col "marketing_spend" df = true →
   r' !!! "total_marketing_spend" = Num (column_total "marketing_spend" g)).

(** The row of the segment [k] in a segment summary of [df]. *)
Definition segment_row_of (df : DataFrame) (segment_col : string) (k : cell) (r' : row)
    : Prop :=
  r' !!! "segment" = k ∧ summarizes (group segment_col k (rows df)) r'.

(** The row of the day [k] in the daily summary of [df]. *)
Definition day_row (df : DataFrame) (k : cell) (r' : row) : Prop :=
  let g := group "date" k (rows df) in
  r' !!! "date" = k ∧
  r' !!! "daily_revenue" = Num (column_total "revenue" g) ∧
  r' !!! "daily_orders" = Num (Qc_of_nat (count_notna (col "order_id" g))).

(** The clean table as [build_daily_summary] receives it: a timestamp
    in [date] on every row, a float revenue and the order id. *)
Record daily_table (df : DataFrame) : Prop := {
  daily_date : has_col "date" df = true;
  daily_revenue : has_col "revenue" df = true;
  daily_order_id : has_col "order_id" df = true;
  daily_dates : Forall (λ r : row, is_Ts (r !!! "date") = true) (rows df);
  daily_revenue_float : conditions.float_column "revenue" df
}.

End summary_conditions.

(** * Properties *)

(** ** Shared facts about the value model *)

Section value_facts.

Lemma Qc_of_Z_0 : Qc_of_Z 0 = 0%Qc.
Proof. apply Qc_is_canon. reflexivity. Qed.

Lemma round2_Qc_0 : builtins.round2_Qc 0 = 0%Qc.
Proof. apply Qc_is_canon. reflexivity. Qed.

Lemma bind_Ok {A B} (m : result A) (k : A → result B) (b : B) :
  bind m k = Ok b → ∃ a, m = Ok a ∧ k a = Ok b.
Proof. destruct m as [a|e]; simpl; [eauto | discriminate]. Qed.

Lemma Ok_inj {A} (a b : A) : Ok a = Ok b → a = b.
Proof. congruence. Qed.

Lemma round2_float (v : cell) :
  is_float v = true → ∃ w, builtins.round2 v = Ok w ∧ is_float w = true.
Proof. destruct v; simpl; try discriminate; eauto. Qed.

Lemma round2_Ok_float (v w : cell) :
  builtins.round2 v = Ok w → is_float v = true ∧ is_float w = true.
Proof. destruct v; simpl; intros H; try discriminate; by simplify_eq. Qed.

Lemma safe_divide_float (n d : cell) :
  is_float (config.safe_divide n d config.default_0) = true.
Proof.
  unfold config.safe_divide.
  destruct (config.none_or_zero d); [done|].
  destruct n, d; simpl; done.
Qed.

Lemma safe_pct_change_float (n o : cell) :
  is_float (config.safe_pct_change n o config.default_0) = true.
Proof.
  unfold config.safe_pct_change.
  destruct (config.none_or_zero o); [done|].
  destruct n, o; simpl; done.
Qed.

Lemma numbers_skipna_float (s : list cell) :
  Forall (λ v, is_float v = true) s → is_Some (numbers_skipna s).
Proof.
  induction 1 as [|v s Hv _ [qs IH]]; simpl; [by eexists|].
  destruct v; simpl in *; try discriminate; rewrite IH; by eexists.
Qed.

Lemma sum_float (s : list cell) :
  Forall (λ v, is_float v = true) s → ∃ q, pd.sum s = Ok (Num q).
Proof.
  intros [qs H]%numbers_skipna_float. unfold pd.sum. rewrite H. eauto.
Qed.

Lemma sum_Ok_Num (s : list cell) (v : cell) :
  pd.sum s = Ok v → ∃ q, v = Num q.
Proof.
  unfold pd.sum. destruct (numbers_skipna s); intros; simplify_eq; eauto.
Qed.

End value_facts.

(** ** kpi_engine.compute_kpis *)

Section kpi_facts.

Import config builtins kpi_engine conditions.

Lemma iloc_back_1 (c : string) (df : DataFrame) (l : list row) (r : row) :
  has_col c df = true → rows df = l ++ [r] → iloc_back 1 c df = Ok (r !!! c).
Proof.
  intros Hc Hr. unfold iloc_back. rewrite Hc, Hr, reverse_snoc. done.
Qed.

Lemma iloc_back_2 (c : string) (df : DataFrame) (l : list row) (p r : row) :
  has_col c df = true → rows df = l ++ [p; r] → iloc_back 2 c df = Ok (p !!! c).
Proof.
  intros Hc Hr. unfold iloc_back.
  rewrite Hc, Hr, (reverse_app l [p; r]). done.
Qed.

Lemma rows_snoc (l : list row) :
  (1 ≤ length l)%nat → ∃ l' r, l = l' ++ [r].
Proof.
  destruct l as [|r l _] using rev_ind; [simpl; lia | eauto].
Qed.

Ltac run_binds H :=
  repeat (let H' := fresh in
          pose proof (bind_Ok _ _ _ H) as (? & ? & H'); clear H; rename H' into H);
  try apply Ok_inj in H.

Lemma latest_month_kpis_inv monthly_df kpis kpis' :
  latest_month_kpis monthly_df kpis = Ok kpis' →
  dom kpis' = {["latest_month_revenue"; "latest_month"]} ∪ dom kpis.
Proof.
  unfold latest_month_kpis. intros H. case_bool_decide; run_binds H; subst kpis';
    rewrite !dom_insert_L; set_solver.
Qed.

Lemma growth_kpis_inv monthly_df kpis kpis' :
  growth_kpis monthly_df kpis = Ok kpis' →
  dom kpis' = {["mom_revenue_growth"]} ∪ dom kpis ∧
  if bool_decide (2 ≤ length (rows monthly_df))%nat then
    ∃ prev curr g,
      iloc_back 2 "total_revenue" monthly_df = Ok prev ∧
      iloc_back 1 "total_revenue" monthly_df = Ok curr ∧
      round2 (safe_pct_change curr prev default_0) = Ok g ∧
      kpis' !! "mom_revenue_growth" = Some g
  else kpis' !! "mom_revenue_growth" = Some PNone.
Proof.
  unfold growth_kpis. intros H. case_bool_decide; run_binds H; subst kpis';
    rewrite !dom_insert_L, lookup_insert_eq; (split; [set_solver|]); eauto 10.
Qed.

Lemma cost_kpis_inv clean_df total_revenue kpis kpis' :
  cost_kpis clean_df total_revenue kpis = Ok kpis' →
  dom kpis' = {["gross_margin"; "total_cost"]} ∪ dom kpis ∧
  kpis' !! "mom_revenue_growth" = kpis !! "mom_revenue_growth".
Proof.
  unfold cost_kpis. intros H. destruct (has_col "cost" clean_df); run_binds H;
    subst kpis'; rewrite !dom_insert_L, !lookup_insert_ne by done;
    (split; [set_solver | done]).
Qed.

Lemma marketing_kpis_inv clean_df total_revenue kpis kpis' :
  marketing_kpis clean_df total_revenue kpis = Ok kpis' →
  dom kpis' = {["roas"; "total_marketing_spend"]} ∪ dom kpis ∧
  kpis' !! "mom_revenue_growth" = kpis !! "mom_revenue_growth".
Proof.
  unfold marketing_kpis. intros H.
  destruct (has_col "marketing_spend" clean_df); run_binds H;
    subst kpis'; rewrite !dom_insert_L, !lookup_insert_ne by done;
    (split; [set_solver | done]).
Qed.

(** The run of [compute_kpis] on non-empty inputs, read off its result. *)
Lemma compute_kpis_inv (clean_df monthly_df : DataFrame) (kpis : gmap string cell) :
  pd.empty clean_df = false → pd.empty monthly_df = false →
  compute_kpis clean_df monthly_df = Ok kpis →
  dom kpis = kpi_keys ∧
  if bool_decide (2 ≤ length (rows monthly_df))%nat then
    ∃ prev curr g,
      iloc_back 2 "total_revenue" monthly_df = Ok prev ∧
      iloc_back 1 "total_revenue" monthly_df = Ok curr ∧
      round2 (safe_pct_change curr prev default_0) = Ok g ∧
      kpis !! "mom_revenue_growth" = Some g
  else kpis !! "mom_revenue_growth" = Some PNone.
Proof.
  intros Hc Hm. unfold compute_kpis. rewrite Hc, Hm. simpl.
  intros H. run_binds H.
  repeat match goal with
  | H : latest_month_kpis _ _ = Ok _ |- _ => apply latest_month_kpis_inv in H
  | H : growth_kpis _ _ = Ok _ |- _ => apply growth_kpis_inv in H as [? ?]
  | H : cost_kpis _ _ _ = Ok _ |- _ => apply cost_kpis_inv in H as [? ?]
  | H : marketing_kpis _ _ _ = Ok _ |- _ => apply marketing_kpis_inv in H as [? ?]
  end.
  subst kpis. split.
  - rewrite !dom_insert_L.
    repeat match goal with H : dom _ = _ |- _ => rewrite H; clear H end.
    rewrite !dom_insert_L, dom_empty_L. unfold kpi_keys. set_solver.
  - rewrite !lookup_insert_ne by done.
    repeat match goal with H : _ !! _ = _ !! _ |- _ => rewrite H; clear H end.
    done.
Qed.

Lemma float_column_last (c : string) (df : DataFrame) (l : list row) (r : row) :
  float_column c df → rows df = l ++ [r] → is_float (r !!! c) = true.
Proof.
  unfold float_column, col. intros Hf Hr. rewrite Hr, fmap_app in Hf.
  apply Forall_app in Hf as [_ Hf]. by inversion Hf.
Qed.

Lemma latest_month_kpis_total monthly_df kpis :
  has_col "year_month" monthly_df = true →
  has_col "total_revenue" monthly_df = true →
  float_column "total_revenue" monthly_df →
  ∃ kpis', latest_month_kpis monthly_df kpis = Ok kpis'.
Proof.
  intros Hym Htot Hf. unfold latest_month_kpis.
  case_bool_decide as Hlen; [|eauto].
  destruct (rows_snoc _ Hlen) as (l & r & Hr).
  rewrite (iloc_back_1 _ _ _ _ Hym Hr), (iloc_back_1 _ _ _ _ Htot Hr). simpl.
  destruct (round2_float _ (float_column_last _ _ _ _ Hf Hr)) as (w & -> & _).
  simpl. eauto.
Qed.

Lemma growth_kpis_total monthly_df kpis :
  has_col "total_revenue" monthly_df = true →
  ∃ kpis', growth_kpis monthly_df kpis = Ok kpis'.
Proof.
  intros Htot. unfold growth_kpis.
  case_bool_decide as Hlen; [|eauto].
  destruct (rows_snoc (rows monthly_df)) as (l & r & Hr); [lia|].
  destruct (rows_snoc l) as (l' & p & ->).
  { rewrite Hr, length_app in Hlen. simpl in Hlen. lia. }
  rewrite <- app_assoc in Hr. simpl in Hr.
  rewrite (iloc_back_2 _ _ _ _ _ Htot Hr). simpl.
  rewrite (iloc_back_1 _ _ (l' ++ [p]) r Htot) by (by rewrite <- app_assoc). simpl.
  destruct (round2_float _ (safe_pct_change_float (r !!! "total_revenue")
                              (p !!! "total_revenue"))) as (w & -> & _).
  simpl. eauto.
Qed.

Lemma cost_kpis_total clean_df q kpis :
  (has_col "cost" clean_df = true → float_column "cost" clean_df) →
  ∃ kpis', cost_kpis clean_df (Num q) kpis = Ok kpis'.
Proof.
  intros Hf. unfold cost_kpis.
  destruct (has_col "cost" clean_df); [|eauto].
  destruct (sum_float _ (Hf eq_refl)) as [c ->]. simpl.
  pose proof (safe_divide_float (Num (q - c)%Qc) (Num q)) as Hd.
  destruct (safe_divide _ _ _); simpl in *; try discriminate; eauto.
Qed.

Lemma marketing_kpis_total clean_df q kpis :
  (has_col "marketing_spend" clean_df = true →
   float_column "marketing_spend" clean_df) →
  ∃ kpis', marketing_kpis clean_df (Num q) kpis = Ok kpis'.
Proof.
  intros Hf. unfold marketing_kpis.
  destruct (has_col "marketing_spend" clean_df); [|eauto].
  destruct (sum_float _ (Hf eq_refl)) as [c ->]. simpl.
  destruct (round2_float _ (safe_divide_float (Num q) (Num (round2_Qc c))))
    as (w & -> & _).
  simpl. eauto.
Qed.

(** [compute_kpis] returns on the inputs the pipeline hands it. *)
Lemma compute_kpis_total (clean_df monthly_df : DataFrame) :
  kpi_ready clean_df monthly_df →
  ∃ kpis, compute_kpis clean_df monthly_df = Ok kpis.
Proof.
  intros [Hrev Hrevf Hcost Hspend Hym Htot Htotf].
  unfold compute_kpis.
  destruct (pd.empty clean_df || pd.empty monthly_df) eqn:He; [eauto|].
  unfold getcol. rewrite Hrev. simpl.
  destruct (sum_float _ Hrevf) as [q ->]. simpl.
  set (tr := Num (round2_Qc q)).
  destruct (round2_float _ (safe_divide_float tr
    (if has_col "order_id" clean_df
     then nunique (col "order_id" (rows clean_df))
     else Num (Qc_of_nat (length (rows clean_df)))))) as (aov & -> & _).
  destruct (round2_float _ (safe_divide_float tr
    (if has_col "customer_id" clean_df
     then nunique (col "customer_id" (rows clean_df))
     else Num 0%Qc))) as (rpc & -> & _).
  simpl.
  match goal with |- context [latest_month_kpis _ ?k] =>
    destruct (latest_month_kpis_total monthly_df k Hym Htot Htotf) as [k1 ->]
  end. simpl.
  destruct (growth_kpis_total monthly_df k1 Htot) as [k2 ->]. simpl.
  subst tr.
  destruct (cost_kpis_total clean_df (round2_Qc q) k2 Hcost) as [k3 ->]. simpl.
  destruct (marketing_kpis_total clean_df (round2_Qc q) k3 Hspend) as [k4 ->]. simpl.
  match goal with |- context [round2 ?v] =>
    destruct (round2_float v) as (opc & -> & _); [apply safe_divide_float|]
  end.
  simpl. eauto.
Qed.

End kpi_facts.

Section kpi_claims.

Import config builtins kpi_engine conditions.

Lemma not_empty (c : string) (df : DataFrame) :
  has_col c df = true → rows df ≠ [] → pd.empty df = false.
Proof.
  unfold has_col, pd.empty. intros Hc Hr.
  apply bool_decide_eq_true in Hc.
  rewrite bool_decide_eq_false_2 by done. simpl.
  apply bool_decide_eq_false_2. intros E. rewrite E in Hc. inversion Hc.
Qed.

Lemma empty_kpis_growth : _empty_kpis !! "mom_revenue_growth" = Some PNone.
Proof. reflexivity. Qed.

(** C6. [compute_kpis] returns on the inputs of the pipeline, and in its
    result [mom_revenue_growth] is [None] when the monthly summary has
    fewer than two rows; otherwise (the clean table being non-empty) it
    is [round(safe_pct_change(curr, prev), 2)] of the [total_revenue] of
    the last and the second-to-last monthly row, which for a non-zero
    previous revenue [p] and a latest revenue [c] is
    (c - p) / p * 100 rounded to two decimals. *)
Theorem C6_mom_revenue_growth (clean_df monthly_df : DataFrame) :
  kpi_ready clean_df monthly_df →
  ∃ kpis, compute_kpis clean_df monthly_df = Ok kpis ∧
    ((length (rows monthly_df) < 2)%nat →
       kpis !! "mom_revenue_growth" = Some PNone) ∧
    (∀ l prev curr,
       pd.empty clean_df = false → rows monthly_df = l ++ [prev; curr] →
       ∃ g, round2 (safe_pct_change (curr !!! "total_revenue")
                      (prev !!! "total_revenue") default_0) = Ok g ∧
            kpis !! "mom_revenue_growth" = Some g) ∧
    (∀ l prev curr p c,
       pd.empty clean_df = false → rows monthly_df = l ++ [prev; curr] →
       prev !!! "total_revenue" = Num p → curr !!! "total_revenue" = Num c →
       p ≠ 0%Qc →
       kpis !! "mom_revenue_growth"
       = Some (Num (round2_Qc ((c - p) / p * Qc_of_Z 100)%Qc))).
Proof.
  intros Hready. destruct (compute_kpis_total _ _ Hready) as [kpis Hk].
  exists kpis. split; [done|].
  assert (∀ l prev curr,
       pd.empty clean_df = false → rows monthly_df = l ++ [prev; curr] →
       ∃ g, round2 (safe_pct_change (curr !!! "total_revenue")
                      (prev !!! "total_revenue") default_0) = Ok g ∧
            kpis !! "mom_revenue_growth" = Some g) as Hgrowth.
  { intros l prev curr Hc Hr.
    assert (pd.empty monthly_df = false) as Hm.
    { apply (not_empty "total_revenue"); [apply Hready|].
      rewrite Hr. by destruct l. }
    destruct (compute_kpis_inv _ _ _ Hc Hm Hk) as [_ Hinv].
    rewrite bool_decide_eq_true_2 in Hinv
      by (rewrite Hr, length_app; simpl; lia).
    destruct Hinv as (p & c & g & Hp & Hcur & Hg & Hlook).
    rewrite (iloc_back_2 _ _ l prev curr) in Hp by (apply Hready || done).
    rewrite (iloc_back_1 _ _ (l ++ [prev]) curr) in Hcur
      by (apply Hready || by rewrite <- app_assoc).
    simplify_eq. eauto. }
  split; [|split; [done|]].
  - intros Hlen.
    destruct (pd.empty clean_df || pd.empty monthly_df) eqn:He.
    + unfold compute_kpis in Hk. rewrite He in Hk. by simplify_eq.
    + apply orb_false_elim in He as [Hc Hm].
      destruct (compute_kpis_inv _ _ _ Hc Hm Hk) as [_ Hinv].
      by rewrite bool_decide_eq_false_2 in Hinv by lia.
  - intros l prev curr p c Hc Hr Hp Hcur Hne.
    destruct (Hgrowth l prev curr Hc Hr) as (g & Hg & ->).
    rewrite Hp, Hcur in Hg. unfold safe_pct_change, none_or_zero in Hg.
    rewrite bool_decide_eq_false_2 in Hg by done. simpl in Hg.
    by simplify_eq.
Qed.

(** C10. With at least two monthly rows and a second-to-last
    [total_revenue] of 0, [compute_kpis] returns and reports
    [mom_revenue_growth = 0.0], the default of [safe_pct_change],
    whatever the latest revenue is. *)
Theorem C10_growth_from_zero_base (clean_df monthly_df : DataFrame)
    (l : list row) (prev curr : row) :
  kpi_ready clean_df monthly_df →
  pd.empty clean_df = false →
  rows monthly_df = l ++ [prev; curr] →
  prev !!! "total_revenue" = Num 0%Qc →
  ∃ kpis, compute_kpis clean_df monthly_df = Ok kpis ∧
          kpis !! "mom_revenue_growth" = Some (Num 0%Qc).
Proof.
  intros Hready Hc Hr Hp.
  destruct (compute_kpis_total _ _ Hready) as [kpis Hk].
  exists kpis. split; [done|].
  assert (pd.empty monthly_df = false) as Hm.
  { apply (not_empty "total_revenue"); [apply Hready|].
    rewrite Hr. by destruct l. }
  destruct (compute_kpis_inv _ _ _ Hc Hm Hk) as [_ Hinv].
  rewrite bool_decide_eq_true_2 in Hinv
    by (rewrite Hr, length_app; simpl; lia).
  destruct Hinv as (p & c & g & Hp' & Hcur & Hg & Hlook).
  rewrite (iloc_back_2 _ _ l prev curr) in Hp' by (apply Hready || done).
  simplify_eq. rewrite Hp in Hg. unfold safe_pct_change, none_or_zero in Hg.
  rewrite bool_decide_eq_true_2 in Hg by done. simpl in Hg.
  rewrite round2_Qc_0 in Hg. by simplify_eq.
Qed.

End kpi_claims.

(** Decidable facts about sample tables are settled by evaluation. *)
Ltac by_eval :=
  unfold conditions.float_column;
  apply (bool_decide_unpack _); vm_compute; exact I.

Section kpi_witnesses.

Import config builtins kpi_engine conditions tables.


Lemma kpi_ready_sample (monthly_df : DataFrame) :
  has_col "year_month" monthly_df = true →
  has_col "total_revenue" monthly_df = true →
  float_column "total_revenue" monthly_df →
  kpi_ready clean_3 monthly_df.
Proof.
  intros. split; try done; try by_eval; intros; by_eval.
Defined.

Lemma C6_mom_revenue_growth_witness :
  kpi_ready clean_3 monthly_1000_1200 ∧
  kpi_ready clean_3 monthly_single ∧
  (∃ kpis, compute_kpis clean_3 monthly_1000_1200 = Ok kpis ∧
           kpis !! "mom_revenue_growth" = Some (samples.num 20)) ∧
  (∃ kpis, compute_kpis clean_3 monthly_single = Ok kpis ∧
           kpis !! "mom_revenue_growth" = Some PNone).
Proof.
  assert (kpi_ready clean_3 monthly_1000_1200) as R2
    by (apply kpi_ready_sample; [reflexivity | reflexivity | by_eval]).
  assert (kpi_ready clean_3 monthly_single) as R1
    by (apply kpi_ready_sample; [reflexivity | reflexivity | by_eval]).
  split; [exact R2|]. split; [exact R1|]. split.
  - destruct (C6_mom_revenue_growth clean_3 monthly_1000_1200 R2)
      as (kpis & Hk & _ & _ & Hnum).
    exists kpis. split; [exact Hk|].
    rewrite (Hnum [] (month "2024-01" 1000) (month "2024-02" 1200)
               (Qc_of_Z 1000) (Qc_of_Z 1200));
      [ | reflexivity | reflexivity | by_eval | by_eval | by_eval ].
    by_eval.
  - destruct (C6_mom_revenue_growth clean_3 monthly_single R1)
      as (kpis & Hk & Hshort & _).
    exists kpis. split; [exact Hk|]. apply Hshort. simpl. lia.
Defined.

Lemma C10_growth_from_zero_base_witness :
  kpi_ready clean_3 monthly_0_500 ∧
  pd.empty clean_3 = false ∧
  month "2024-01" 0 !!! "total_revenue" = Num 0%Qc ∧
  ∃ kpis, compute_kpis clean_3 monthly_0_500 = Ok kpis ∧
          kpis !! "mom_revenue_growth" = Some (Num 0%Qc).
Proof.
  assert (kpi_ready clean_3 monthly_0_500) as R
    by (apply kpi_ready_sample; [reflexivity | reflexivity | by_eval]).
  assert (month "2024-01" 0 !!! "total_revenue" = Num 0%Qc) as Z by by_eval.
  split; [exact R|]. split; [reflexivity|]. split; [exact Z|].
  apply (C10_growth_from_zero_base clean_3 monthly_0_500 []
           (month "2024-01" 0) (month "2024-02" 500) R);
    [reflexivity | reflexivity | exact Z].
Defined.

End kpi_witnesses.

(** ** Empty and incomplete inputs *)

Section empty_inputs.

Import config builtins aggregation kpi_engine conditions tables.

Lemma guard_true (b : bool) (df : DataFrame) :
  pd.empty df = true → negb b || pd.empty df = true.
Proof. intros ->. apply orb_true_r. Qed.

Lemma guard_missing (c : string) (df : DataFrame) :
  has_col c df = false → negb (has_col c df) || pd.empty df = true.
Proof. by intros ->. Qed.



(** C2 (amended). Each aggregation returns the empty frame when its
    input is empty or lacks the column it groups by ([year_month], the
    segment column, [date]).  A non-empty table that has [year_month]
    but lacks [revenue], [order_id] or [customer_id] makes
    [build_monthly_summary] raise [KeyError]. *)
Theorem C2_empty_or_missing_group_column (df : DataFrame) :
  (pd.empty df = true ∨ has_col "year_month" df = false →
     build_monthly_summary df = Ok empty_frame) ∧
  (∀ sort_values_desc segment_col,
     pd.empty df = true ∨ has_col segment_col df = false →
     build_segment_summary sort_values_desc df segment_col = Ok empty_frame) ∧
  (pd.empty df = true ∨ has_col "date" df = false →
     build_daily_summary df = Ok empty_frame) ∧
  (pd.empty df = false → has_col "year_month" df = true →
   has_col "revenue" df = false ∨ has_col "order_id" df = false
     ∨ has_col "customer_id" df = false →
   build_monthly_summary df = Raise KeyError).
Proof.
  repeat split.
  - intros [H|H]; unfold build_monthly_summary;
      [by rewrite guard_true | by rewrite guard_missing].
  - intros sort_values_desc segment_col [H|H]; unfold build_segment_summary;
      [by rewrite guard_true | by rewrite guard_missing].
  - intros [H|H]; unfold build_daily_summary;
      [by rewrite guard_true | by rewrite guard_missing].
  - intros He Hym Hmiss. unfold build_monthly_summary.
    rewrite He, Hym. simpl.
    destruct Hmiss as [-> | [-> | ->]]; simpl; try done;
      destruct (has_col "revenue" df); simpl; try done;
      destruct (has_col "order_id" df); simpl; done.
Qed.

Lemma C2_empty_or_missing_group_column_witness :
  pd.empty clean_no_rows = true ∧
  has_col "segment" clean_3 = false ∧
  build_monthly_summary clean_no_rows = Ok empty_frame ∧
  build_segment_summary samples.stable_sort_desc clean_3 "segment" = Ok empty_frame ∧
  build_daily_summary clean_no_rows = Ok empty_frame.
Proof.
  assert (pd.empty clean_no_rows = true) as E by reflexivity.
  assert (has_col "segment" clean_3 = false) as M by reflexivity.
  destruct (C2_empty_or_missing_group_column clean_no_rows) as (Hm & _ & Hd & _).
  destruct (C2_empty_or_missing_group_column clean_3) as (_ & Hs & _).
  split; [exact E|]. split; [exact M|].
  split; [apply Hm; left; exact E|].
  split; [apply Hs; right; exact M | apply Hd; left; exact E].
Defined.

(** A table with a [year_month] column and a row, and no [revenue],
    [order_id] or [customer_id] column: [build_monthly_summary] raises
    instead of returning an empty result. *)
Lemma C2_counterexample :
  has_col "year_month" only_year_month = true ∧
  has_col "revenue" only_year_month = false ∧
  build_monthly_summary only_year_month = Raise KeyError ∧
  build_monthly_summary only_year_month ≠ Ok empty_frame.
Proof. repeat split; try reflexivity. discriminate. Qed.

End empty_inputs.

(** ** schema_detection.detect_and_map *)

Section mapping_facts.

Import schema_detection mapping_conditions.

(** No normalized alias is listed for two standard columns. *)
Lemma alias_owners_NoDup : NoDup (alias_owners.*1).
Proof. apply (bool_decide_unpack _). vm_compute. exact I. Qed.

Lemma alias_owner_unique (f1 f2 c : string) :
  f1 ∈ all_standard → f2 ∈ all_standard →
  c ∈ normalized_aliases f1 → c ∈ normalized_aliases f2 → f1 = f2.
Proof.
  intros H1 H2 Hc1 Hc2.
  assert (∀ f, f ∈ all_standard → c ∈ normalized_aliases f →
               (list_to_map alias_owners : gmap string string) !! c = Some f) as Hown.
  { intros f Hf Hc. apply elem_of_list_to_map_1; [apply alias_owners_NoDup|].
    unfold alias_owners. apply list_elem_of_bind. exists f. split; [|done].
    apply list_elem_of_fmap. eauto. }
  pose proof (Hown f1 H1 Hc1). pose proof (Hown f2 H2 Hc2). congruence.
Qed.

Lemma scan_aliases_bound_ok df_columns standard_col aliases st :
  standard_col ∈ all_standard →
  (∀ a, a ∈ aliases → a ∈ aliases_of standard_col) →
  bound_ok df_columns st →
  bound_ok df_columns (scan_aliases df_columns standard_col aliases st).
Proof.
  intros Hstd. induction aliases as [|alias rest IH]; intros Hal Hst; [done|].
  simpl. destruct (bool_decide (_ ∈ df_columns) && _) eqn:Hhit.
  - apply andb_true_iff in Hhit as [Hin%bool_decide_eq_true _].
    intros f c. simpl. rewrite lookup_insert. case_decide as Hf.
    + intros [= <-]. subst f. split; [done|]. split; [|done].
      apply list_elem_of_fmap_2, Hal. by left.
    + apply Hst.
  - apply IH; [|done]. intros a Ha. apply Hal. by right.
Qed.

Lemma build_mapping_bound_ok df_columns : bound_ok df_columns (build_mapping df_columns).
Proof.
  unfold build_mapping. fold all_standard.
  assert (∀ l st, (∀ f, f ∈ l → f ∈ all_standard) → bound_ok df_columns st →
            bound_ok df_columns
              (foldl (λ st standard_col,
                        scan_aliases df_columns standard_col (aliases_of standard_col) st)
                     st l)) as Hfold.
  { induction l as [|f l IH]; intros st Hl Hst; [done|]. simpl.
    apply IH; [intros g Hg; apply Hl; by right|].
    apply scan_aliases_bound_ok; [apply Hl; by left | done | done]. }
  apply Hfold; [done|]. intros f c. simpl. by rewrite lookup_empty.
Qed.

Lemma map_img_size_le (m : gmap string string) :
  (size (map_img m : gset string) ≤ size m)%nat.
Proof.
  induction m as [|i x m Hi _ IH] using map_first_key_ind.
  - by rewrite map_img_empty_L, size_empty, map_size_empty.
  - rewrite map_img_insert_notin_L, map_size_insert_None by done.
    destruct (decide (x ∈ (map_img m : gset string))) as [Hx|Hx].
    + assert ({[x]} ∪ (map_img m : gset string) = map_img m) as -> by set_solver. lia.
    + rewrite size_union, size_singleton by set_solver. lia.
Qed.

Lemma detect_and_map_mapping (raw_columns : list string) :
  (detect_and_map raw_columns).1.2
  = mapping (build_mapping (normalized_columns raw_columns)).
Proof. reflexivity. Qed.

(** C3. For every list of raw column names, every binding of [mapping]
    takes a standard column to one column of the normalized,
    de-duplicated frame; a standard column has at most one source
    column, a source column serves at most one standard column, and so
    the number of distinct source columns consumed is at most (in fact
    equal to) the number of standard columns resolved. *)
Theorem C3_no_double_binding (raw_columns : list string) :
  let mapping := (detect_and_map raw_columns).1.2 in
  (∀ f c, mapping !! f = Some c →
     f ∈ all_standard ∧ c ∈ normalized_columns raw_columns) ∧
  (∀ f c1 c2, mapping !! f = Some c1 → mapping !! f = Some c2 → c1 = c2) ∧
  (∀ f1 f2 c, mapping !! f1 = Some c → mapping !! f2 = Some c → f1 = f2) ∧
  (size (map_img mapping : gset string) ≤ size mapping)%nat.
Proof.
  intros m. subst m. rewrite detect_and_map_mapping.
  pose proof (build_mapping_bound_ok (normalized_columns raw_columns)) as Hok.
  split; [|split; [|split]].
  - intros f c H. by destruct (Hok _ _ H) as (? & ? & ?).
  - congruence.
  - intros f1 f2 c H1 H2.
    destruct (Hok _ _ H1) as (? & ? & _), (Hok _ _ H2) as (? & ? & _).
    by apply (alias_owner_unique f1 f2 c).
  - apply map_img_size_le.
Qed.

Lemma C3_no_double_binding_witness :
  let mapping := (detect_and_map raw_headers).1.2 in
  mapping !! "revenue" = Some "revenue" ∧
  mapping !! "date" = Some "order_date" ∧
  (∀ f, mapping !! f = Some "revenue" → f = "revenue") ∧
  (size (map_img mapping : gset string) ≤ size mapping)%nat.
Proof.
  assert ((detect_and_map raw_headers).1.2 !! "revenue" = Some "revenue") as Hrev
    by (vm_compute; reflexivity).
  destruct (C3_no_double_binding raw_headers) as (_ & _ & Hinj & Hsize).
  split; [exact Hrev|]. split; [vm_compute; reflexivity|].
  split; [|exact Hsize].
  intros f Hf. exact (Hinj f "revenue" "revenue" Hf Hrev).
Defined.

End mapping_facts.

(** ** data_cleaning: date conversion *)

Section date_facts.

Import data_cleaning row_view.

Variable parse_auto : list cell → cell → option Timestamp.
Variable parse_fmt : string → cell → option Timestamp.

Lemma to_datetime_to_dt (p : cell → option Timestamp) (series : list cell) :
  to_datetime p series = to_dt p <$> series.
Proof. reflexivity. Qed.

Lemma count_na_notna (s : list cell) : (count_na s + count_notna s = length s)%nat.
Proof.
  unfold count_na, count_notna.
  induction s as [|v s IH]; [done|].
  rewrite !filter_cons. destruct (isna v) eqn:E; repeat case_decide; try done;
    simpl; lia.
Qed.

Lemma count_notna_full (s : list cell) :
  Forall (λ v, isna v = false) s → count_notna s = length s.
Proof.
  unfold count_notna. induction 1 as [|v s Hv _ IH]; [done|].
  rewrite filter_cons. case_decide; [simpl; lia | done].
Qed.

Lemma count_notna_full_inv (s : list cell) :
  count_notna s = length s → Forall (λ v, isna v = false) s.
Proof.
  unfold count_notna. induction s as [|v s IH]; [constructor|].
  rewrite filter_cons. case_decide as Hv; simpl; intros Hlen.
  - constructor; [done|]. apply IH. lia.
  - pose proof (length_filter (λ c, isna c = false) s). lia.
Qed.

Lemma length_to_datetime (p : cell → option Timestamp) (s : list cell) :
  length (to_datetime p s) = length s.
Proof. unfold to_datetime. by rewrite length_fmap. Qed.

(** The loop over the formats ends with a candidate that no candidate
    beats. *)
Lemma try_formats_best (series init : list cell) (fmts : list string) :
  let best := foldl (try_format parse_fmt series) init fmts in
  best ∈ init :: ((λ fmt, to_datetime (parse_fmt fmt) series) <$> fmts) ∧
  (count_notna init ≤ count_notna best)%nat ∧
  ∀ fmt, fmt ∈ fmts →
    (count_notna (to_datetime (parse_fmt fmt) series) ≤ count_notna best)%nat.
Proof.
  revert init. induction fmts as [|fmt fmts IH]; intros init; simpl.
  { split; [by left|]. split; [done|]. intros fmt H. inversion H. }
  destruct (IH (try_format parse_fmt series init fmt)) as (Hin & Hge & Hall).
  assert (count_notna init ≤ count_notna (try_format parse_fmt series init fmt)
          ∧ count_notna (to_datetime (parse_fmt fmt) series)
            ≤ count_notna (try_format parse_fmt series init fmt))%nat as [H1 H2].
  { unfold try_format. case_bool_decide; lia. }
  split; [|split].
  - apply elem_of_cons in Hin as [Hin|Hin]; [|by do 2 right].
    rewrite Hin. unfold try_format. case_bool_decide; [right; by left | by left].
  - lia.
  - intros f [->|Hf]%elem_of_cons; [lia | by apply Hall].
Qed.

(** The converted column is the column under one of the parsers. *)
Lemma convert_dates_parser (series : list cell) :
  ∃ p, (_convert_dates parse_auto parse_fmt series).1 = to_dt p <$> series.
Proof.
  unfold _convert_dates. cbn [fst]. case_bool_decide; [|by eexists].
  destruct (try_formats_best series (to_datetime (parse_auto series) series)
              config.DATE_FORMATS) as ([->|Hin]%elem_of_cons & _).
  - by eexists.
  - apply list_elem_of_fmap in Hin as (fmt & -> & _). by eexists.
Qed.

End date_facts.

(** ** data_cleaning.clean, row by row *)

Section clean_facts.

Import data_cleaning row_view.

Variable parse_auto : list cell → cell → option Timestamp.
Variable parse_fmt : string → cell → option Timestamp.
Variable to_numeric : string → option Qc.
Variable str_of_num : Qc → string.
Variable str_of_ts : Timestamp → string.

Local Abbreviation clean := (clean parse_auto parse_fmt to_numeric str_of_num str_of_ts).
Local Abbreviation row_out := (row_out to_numeric str_of_num str_of_ts).
Local Abbreviation row_kept := (row_kept to_numeric).

Lemma filter_fmap {A B} (f : A → B) (P : B → Prop) `{!∀ x, Decision (P x)}
    (l : list A) :
  filter P (f <$> l) = f <$> filter (λ x, P (f x)) l.
Proof.
  induction l as [|x l IH]; [done|]. csimpl.
  rewrite !filter_cons. case_decide; csimpl; by rewrite IH.
Qed.

Lemma map_cols_rows (cs : list string) (f : cell → cell) (rs : list row) :
  map_cols cs f rs = row_map_cols cs f <$> rs.
Proof.
  unfold map_cols, row_map_cols. revert rs.
  induction cs as [|c cs IH]; intros rs; simpl.
  - by rewrite list_fmap_id.
  - rewrite IH. unfold map_col. by rewrite <- list_fmap_compose.
Qed.

Lemma set_col_rows (c : string) (f : cell → cell) (cols : list string) (rs : list row) :
  rows (set_col c (f <$> col c rs) (mkDF cols rs))
  = (λ r : row, <[c := f (r !!! c)]> r) <$> rs.
Proof.
  unfold set_col, col. cbn [rows].
  rewrite <- list_fmap_compose, zip_with_fmap_r, zip_with_diag. done.
Qed.

Lemma fmap_filter_eq {A B} (f g : A → B) (P Q : A → Prop)
    `{!∀ x, Decision (P x), !∀ x, Decision (Q x)} (l : list A) :
  (∀ x, f x = g x) → (∀ x, P x ↔ Q x) → f <$> filter P l = g <$> filter Q l.
Proof.
  intros Hfg HPQ. rewrite (list_filter_iff P Q) by done.
  apply list_fmap_ext. auto.
Qed.

Lemma fmap_eq_filter {A B} (f g : A → B) (Q : A → Prop)
    `{!∀ x, Decision (Q x)} (l : list A) :
  (∀ x, f x = g x) → (∀ x, Q x) → f <$> l = g <$> filter Q l.
Proof.
  intros Hfg HQ.
  assert (filter Q l = l) as ->.
  { induction l as [|x l IH]; [done|].
    rewrite filter_cons. case_decide as Hx; [by rewrite IH | by destruct Hx]. }
  apply list_fmap_ext. auto.
Qed.

(** The rows of the cleaned table are the cleaned forms of the kept rows
    of the de-duplicated table, in their order. *)
Lemma clean_rows (df : DataFrame) :
  ∃ p, rows (clean df).1 = row_out df p <$> filter (row_kept df p) (deduplicated df)
       ∧ (_convert_dates parse_auto parse_fmt (col "date" (deduplicated df))).1
         = to_dt p <$> col "date" (deduplicated df).
Proof.
  destruct (convert_dates_parser parse_auto parse_fmt (col "date" (deduplicated df)))
    as [p Hp].
  exists p. split; [|done].
  unfold data_cleaning.clean. fold (deduplicated df).
  destruct (_convert_dates parse_auto parse_fmt (col "date" (deduplicated df)))
    as [converted invalid_count] eqn:E.
  cbn [fst] in Hp. subst converted. cbn [fst].
  rewrite !map_cols_rows, set_col_rows.
  unfold dropna_any, dropna_all.
  destruct (has_col "date" df) eqn:Hd; cbn [rows];
    destruct (present config.REQUIRED_COLUMNS df) as [|c0 cs0] eqn:Hreq;
    rewrite ?filter_fmap, <- ?list_fmap_compose, ?list_filter_filter;
    (apply fmap_filter_eq || apply fmap_eq_filter);
    try (intros r; unfold row_view.row_out, bucket_step, text_step, fill_step,
           numeric_step, date_step; by rewrite Hd);
    intros r; unfold row_view.row_kept, has_date, has_required, numeric_step, date_step;
    rewrite Hd, Hreq; cbn [forallb]; unfold notna;
    rewrite ?lookup_total_insert_eq;
    try destruct (isna (to_dt p (r !!! "date"))); simpl; intuition congruence.
Qed.

End clean_facts.

Section row_map_facts.

Import data_cleaning row_view.

Lemma row_map_cols_notin (cs : list string) (f : cell → cell) (r : row) (c : string) :
  c ∉ cs → row_map_cols cs f r !!! c = r !!! c.
Proof.
  unfold row_map_cols. revert r.
  induction cs as [|c' cs IH]; intros r Hc; [done|]. simpl.
  rewrite IH by set_solver. apply lookup_total_insert_ne. set_solver.
Qed.

Lemma row_map_cols_in (cs : list string) (f : cell → cell) (r : row) (c : string) :
  NoDup cs → c ∈ cs → row_map_cols cs f r !!! c = f (r !!! c).
Proof.
  unfold row_map_cols. revert r.
  induction cs as [|c' cs IH]; intros r Hnd Hc; [by inversion Hc|]. simpl.
  apply NoDup_cons in Hnd as [Hc' Hnd].
  apply elem_of_cons in Hc as [->|Hc].
  - fold (row_map_cols cs f (<[c':=f (r !!! c')]> r)).
    rewrite row_map_cols_notin by done. apply lookup_total_insert_eq.
  - rewrite IH by done. rewrite lookup_total_insert_ne; [done|].
    intros ->. done.
Qed.

Lemma elem_of_present (cs : list string) (df : DataFrame) (c : string) :
  c ∈ present cs df ↔ c ∈ cs ∧ has_col c df = true.
Proof. unfold present. rewrite list_elem_of_filter. tauto. Qed.

Lemma NoDup_present (cs : list string) (df : DataFrame) :
  NoDup cs → NoDup (present cs df).
Proof. apply NoDup_filter. Qed.

End row_map_facts.

Section row_out_facts.

Import data_cleaning row_view.

Variable to_numeric : string → option Qc.
Variable str_of_num : Qc → string.
Variable str_of_ts : Timestamp → string.

Local Abbreviation row_out := (row_out to_numeric str_of_num str_of_ts).

Ltac not_listed :=
  rewrite elem_of_present; intros [Hin _];
  repeat (apply elem_of_cons in Hin as [Hin|Hin]; [discriminate|]);
  by apply elem_of_nil in Hin.

Ltac concrete_NoDup :=
  apply NoDup_present; apply (bool_decide_unpack _); vm_compute; exact I.

(** Cleaning leaves [order_id] as it is. *)
Lemma row_out_order_id df p r : row_out df p r !!! "order_id" = r !!! "order_id".
Proof.
  unfold row_view.row_out, bucket_step, text_step, fill_step, numeric_step, date_step.
  destruct (has_col "date" df);
    rewrite ?lookup_total_insert_ne by done;
    rewrite !row_map_cols_notin by not_listed;
    by rewrite ?lookup_total_insert_ne by done.
Qed.

(** [customer_id] likewise. *)
Lemma row_out_customer_id df p r :
  row_out df p r !!! "customer_id" = r !!! "customer_id".
Proof.
  unfold row_view.row_out, bucket_step, text_step, fill_step, numeric_step, date_step.
  destruct (has_col "date" df);
    rewrite ?lookup_total_insert_ne by done;
    rewrite !row_map_cols_notin by not_listed;
    by rewrite ?lookup_total_insert_ne by done.
Qed.

(** The cleaned revenue is [_clean_numeric] of the revenue of the row. *)
Lemma row_out_revenue df p r :
  has_col "revenue" df = true →
  row_out df p r !!! "revenue" = _clean_numeric to_numeric (r !!! "revenue").
Proof.
  intros Hrev.
  unfold row_view.row_out, bucket_step, text_step, fill_step, numeric_step, date_step.
  destruct (has_col "date" df);
    rewrite ?lookup_total_insert_ne by done;
    rewrite !(row_map_cols_notin _ _ _ "revenue") by not_listed;
    (rewrite row_map_cols_in;
       [ | concrete_NoDup | apply elem_of_present; split; [set_solver | done] ]);
    by rewrite ?lookup_total_insert_ne by done.
Qed.

(** A cleaned cost or marketing spend is a number. *)
Lemma row_out_optional_numeric df p r c :
  c ∈ ["cost"; "marketing_spend"] → has_col c df = true →
  row_out df p r !!! c = fillna0 (_clean_numeric to_numeric (r !!! c)).
Proof.
  intros Hc Hhas.
  unfold row_view.row_out, bucket_step, text_step, fill_step, numeric_step, date_step.
  repeat (apply elem_of_cons in Hc as [->|Hc]); [| |by apply elem_of_nil in Hc];
  destruct (has_col "date" df);
    rewrite ?lookup_total_insert_ne by done;
    rewrite !(row_map_cols_notin (present config.TEXT_COLUMNS df)) by not_listed;
    (rewrite row_map_cols_in;
       [ | concrete_NoDup | apply elem_of_present; split; [set_solver | done] ]);
    (rewrite row_map_cols_in;
       [ | concrete_NoDup | apply elem_of_present; split; [set_solver | done] ]);
    by rewrite ?lookup_total_insert_ne by done.
Qed.

(** A cleaned text column holds the normalized text of the row. *)
Lemma row_out_text df p r c :
  c ∈ config.TEXT_COLUMNS → has_col c df = true →
  row_out df p r !!! c = normalize_text str_of_num str_of_ts (r !!! c).
Proof.
  intros Hc Hhas.
  unfold row_view.row_out, bucket_step, text_step, fill_step, numeric_step, date_step.
  unfold config.TEXT_COLUMNS in Hc.
  repeat (apply elem_of_cons in Hc as [->|Hc]); [| | | |by apply elem_of_nil in Hc];
  destruct (has_col "date" df);
    rewrite ?lookup_total_insert_ne by done;
    (rewrite row_map_cols_in;
       [ | concrete_NoDup
         | apply elem_of_present; split; [unfold config.TEXT_COLUMNS; set_solver | done] ]);
    rewrite !row_map_cols_notin by not_listed;
    by rewrite ?lookup_total_insert_ne by done.
Qed.

(** The cleaned date is the converted date, and the month bucket is read
    from it. *)
Lemma row_out_date df p r :
  has_col "date" df = true →
  row_out df p r !!! "date" = to_dt p (r !!! "date") ∧
  row_out df p r !!! "year_month" = year_month_of (to_dt p (r !!! "date")).
Proof.
  intros Hd.
  unfold row_view.row_out, bucket_step, text_step, fill_step, numeric_step, date_step.
  rewrite Hd. rewrite lookup_total_insert_eq, lookup_total_insert_ne by done.
  rewrite !row_map_cols_notin by not_listed.
  by rewrite lookup_total_insert_eq.
Qed.

End row_out_facts.

(** ** Date recovery *)

Section date_claim.

Import data_cleaning row_view date_conditions.

Variable parse_auto : list cell → cell → option Timestamp.
Variable parse_fmt : string → cell → option Timestamp.
Variable to_numeric : string → option Qc.
Variable str_of_num : Qc → string.
Variable str_of_ts : Timestamp → string.

Local Abbreviation clean := (clean parse_auto parse_fmt to_numeric str_of_num str_of_ts).
Local Abbreviation row_out := (row_out to_numeric str_of_num str_of_ts).
Local Abbreviation row_kept := (row_kept to_numeric).
Local Abbreviation _convert_dates := (_convert_dates parse_auto parse_fmt).

Lemma to_dt_notna (p : cell → option Timestamp) (v : cell) :
  isna (to_dt p v) = false → ∃ t, to_dt p v = Ts t.
Proof.
  unfold to_dt. destruct (isna v); [done|]. destruct (p v); [eauto | done].
Qed.

Lemma to_datetime_uniform (p : cell → option Timestamp) (series : list cell) :
  uniformly_formatted p series →
  count_notna (to_datetime p series) = length series.
Proof.
  intros Hu. rewrite <- (length_to_datetime p series).
  apply count_notna_full. unfold to_datetime. apply Forall_fmap.
  eapply Forall_impl; [exact Hu|]. intros v [Hv [t Ht]]. simpl.
  by rewrite Hv, Ht.
Qed.

(** A kept row has a date, so that step 4 never drops it. *)
Lemma row_kept_date (df : DataFrame) (p : cell → option Timestamp) (r : row) :
  has_col "date" df = true →
  row_kept df p r ↔ isna (to_dt p (r !!! "date")) = false.
Proof.
  intros Hd. unfold row_view.row_kept, has_date, has_required. split; [naive_solver|].
  intros Hna. split; [done|]. intros _.
  apply not_true_iff_false. rewrite forallb_forall. intros Hall.
  assert (In "date" (present config.REQUIRED_COLUMNS df)) as Hin.
  { rewrite <- list_elem_of_In, elem_of_present.
    split; [unfold config.REQUIRED_COLUMNS; by left | done]. }
  apply Hall in Hin. unfold numeric_step, date_step in Hin. rewrite Hd in Hin.
  rewrite row_map_cols_notin, lookup_total_insert_eq in Hin; [congruence|].
  rewrite elem_of_present. intros [Hl _].
  repeat (apply elem_of_cons in Hl as [Hl|Hl]; [discriminate|]).
  by apply elem_of_nil in Hl.
Qed.

Lemma length_filter_notna (f : cell → cell) (c : string) (rs : list row) :
  length (filter (λ r : row, isna (f (r !!! c)) = false) rs)
  = count_notna (f <$> col c rs).
Proof.
  unfold count_notna, col. rewrite <- list_fmap_compose, filter_fmap, length_fmap.
  done.
Qed.

(** C9. [_convert_dates] keeps the general parse when at most half of
    its values are NaT.  Otherwise its result is the general parse or
    the parse under one of the configured formats, and no such parse has
    more parsed values.  If moreover the format [%d-%m-%Y] reads every
    value of the column, no value stays unparsed and the count of
    invalid dates is 0.  In [clean], every row that is kept has a
    parsed date, and the rows kept are as many as the parsed values of
    the de-duplicated column. *)
Theorem C9_date_fallback (series : list cell) :
  let general := to_datetime (parse_auto series) series in
  let attempts := (λ fmt, to_datetime (parse_fmt fmt) series) <$> config.DATE_FORMATS in
  let converted := (_convert_dates series).1 in
  (¬ over_half_NaT series general → converted = general) ∧
  (over_half_NaT series general →
     converted ∈ general :: attempts ∧
     ∀ c, c ∈ general :: attempts → (count_notna c ≤ count_notna converted)%nat) ∧
  (over_half_NaT series general →
   uniformly_formatted (parse_fmt "%d-%m-%Y") series →
     count_na converted = 0%nat ∧
     Forall (λ v, ∃ t, v = Ts t) converted ∧
     (_convert_dates series).2 = 0%Z) ∧
  (∀ df, has_col "date" df = true →
     (∀ r, r ∈ rows (clean df).1 → ∃ t, r !!! "date" = Ts t) ∧
     length (rows (clean df).1)
     = count_notna (_convert_dates (col "date" (deduplicated df))).1).
Proof.
  intros general attempts converted.
  assert (over_half_NaT series general →
     converted ∈ general :: attempts ∧
     ∀ c, c ∈ general :: attempts → (count_notna c ≤ count_notna converted)%nat)
    as Hbest.
  { intros Hover. subst converted. unfold data_cleaning._convert_dates. cbn [fst].
    fold general. rewrite bool_decide_eq_true_2 by exact Hover.
    destruct (try_formats_best parse_fmt series general config.DATE_FORMATS)
      as (Hin & Hge & Hall).
    split; [exact Hin|]. intros c [->|Hc]%elem_of_cons; [exact Hge|].
    apply list_elem_of_fmap in Hc as (fmt & -> & Hfmt). by apply Hall. }
  split; [|split; [exact Hbest|split]].
  - intros Hnot. subst converted. unfold data_cleaning._convert_dates. cbn [fst].
    fold general. by rewrite bool_decide_eq_false_2 by exact Hnot.
  - intros Hover Hu. destruct (Hbest Hover) as [Hin Hmax].
    assert (length converted = length series) as Hlen.
    { apply elem_of_cons in Hin as [->|Hin]; [apply length_to_datetime|].
      apply list_elem_of_fmap in Hin as (fmt & -> & _). apply length_to_datetime. }
    assert (count_notna converted = length converted) as Hfull.
    { pose proof (Hmax (to_datetime (parse_fmt "%d-%m-%Y") series)) as Hd.
      rewrite to_datetime_uniform in Hd by done.
      pose proof (count_na_notna converted).
      assert (length series ≤ count_notna converted)%nat; [|lia].
      apply Hd. right. apply list_elem_of_fmap. eexists. split; [done|].
      unfold config.DATE_FORMATS. right. by left. }
    assert (count_na converted = 0%nat) as Hzero
      by (pose proof (count_na_notna converted); lia).
    split; [exact Hzero|]. split.
    + apply count_notna_full_inv in Hfull.
      destruct (convert_dates_parser parse_auto parse_fmt series) as [p Hp].
      fold converted in Hp. rewrite Hp in Hfull |- *.
      apply Forall_fmap. apply Forall_fmap in Hfull.
      eapply Forall_impl; [exact Hfull|]. intros v Hv. by apply to_dt_notna.
    + unfold data_cleaning._convert_dates. cbn [snd].
      change (if bool_decide _ then _ else _) with converted.
      rewrite Hzero. lia.
  - intros df Hd.
    destruct (clean_rows parse_auto parse_fmt to_numeric str_of_num str_of_ts df)
      as (p & Hrows & Hconv).
    rewrite Hrows, Hconv. split.
    + intros r (r0 & -> & Hr0)%list_elem_of_fmap.
      apply list_elem_of_filter in Hr0 as [Hkept _].
      apply row_kept_date in Hkept; [|done].
      destruct (row_out_date to_numeric str_of_num str_of_ts df p r0 Hd) as [-> _].
      by apply to_dt_notna.
    + rewrite length_fmap, <- length_filter_notna. f_equal.
      apply list_filter_iff. intros r. by apply row_kept_date.
Qed.

End date_claim.

Lemma C9_date_fallback_witness :
  let series := date_conditions.dmy_dates in
  let converted :=
    (data_cleaning._convert_dates samples.parse_auto samples.parse_fmt series).1 in
  date_conditions.over_half_NaT series
    (data_cleaning.to_datetime (samples.parse_auto series) series) ∧
  date_conditions.uniformly_formatted (samples.parse_fmt "%d-%m-%Y") series ∧
  count_na converted = 0%nat ∧
  converted = [Ts (mkTs 2023 12 25 0); Ts (mkTs 2024 2 1 0); Ts (mkTs 2024 1 13 0)] ∧
  length (rows (samples.clean date_conditions.dmy_table).1) = 3%nat.
Proof.
  intros series converted.
  assert (date_conditions.over_half_NaT series
            (data_cleaning.to_datetime (samples.parse_auto series) series)) as Hover
    by (unfold date_conditions.over_half_NaT; vm_compute; reflexivity).
  assert (date_conditions.uniformly_formatted (samples.parse_fmt "%d-%m-%Y") series)
    as Hu by (repeat constructor; vm_compute; eauto).
  destruct (C9_date_fallback samples.parse_auto samples.parse_fmt samples.to_numeric
              samples.str_of_num samples.str_of_ts series)
    as (_ & _ & Hdmy & Hclean).
  destruct (Hdmy Hover Hu) as (Hzero & _ & _).
  split; [exact Hover|]. split; [exact Hu|]. split; [exact Hzero|].
  split; [vm_compute; reflexivity|].
  destruct (Hclean date_conditions.dmy_table eq_refl) as [_ Hlen].
  unfold samples.clean. rewrite Hlen. vm_compute. reflexivity.
Defined.

(** ** Duplicate removal *)

Section dedup_facts.

Import cleaning_tables.

Lemma drop_duplicates_from_spec (seen : list cell) (c : string) (rs : list row) :
  let key (r : row) := dup_key (r !!! c) in
  drop_duplicates_from seen c rs `sublist_of` rs ∧
  NoDup (key <$> drop_duplicates_from seen c rs) ∧
  (∀ r, r ∈ drop_duplicates_from seen c rs → key r ∉ seen) ∧
  (∀ r, r ∈ drop_duplicates_from seen c rs ↔
        ∃ l1 l2, rs = l1 ++ r :: l2 ∧ key r ∉ seen ∧ key r ∉ key <$> l1).
Proof.
  intros key. revert seen.
  induction rs as [|r0 rs IH]; intros seen; simpl.
  { split; [constructor|]. split; [constructor|].
    split; [intros r H; by inversion H|].
    intros r. split; [intros H; by inversion H|].
    intros (l1 & l2 & H & _). by destruct l1. }
  fold (key r0).
  destruct (IH seen) as (Hsub & Hnd & Hseen & Hiff).
  destruct (IH (key r0 :: seen)) as (Hsub' & Hnd' & Hseen' & Hiff').
  case_bool_decide as Hk.
  - split; [by apply sublist_cons|]. split; [done|]. split; [done|].
    intros r. rewrite Hiff. split.
    + intros (l1 & l2 & -> & H1 & H2). exists (r0 :: l1), l2.
      split; [done|]. split; [done|]. csimpl. rewrite not_elem_of_cons.
      split; [|done]. intros E. rewrite E in H1. done.
    + intros (l1 & l2 & E & H1 & H2). destruct l1 as [|x l1]; simplify_eq/=.
      * done.
      * apply not_elem_of_cons in H2 as [? ?]. eauto.
  - split; [by apply sublist_skip|]. split; [|split].
    + csimpl. apply NoDup_cons. split; [|done].
      intros (r & E & Hr)%list_elem_of_fmap. apply Hseen' in Hr.
      rewrite <- E in Hr. apply Hr. by left.
    + intros r [->|Hr]%elem_of_cons; [done|].
      apply Hseen' in Hr. by apply not_elem_of_cons in Hr as [_ ?].
    + intros r. rewrite elem_of_cons, Hiff'. split.
      * intros [->|(l1 & l2 & -> & H1 & H2)].
        -- exists [], rs. split; [done|]. split; [done|]. csimpl. apply not_elem_of_nil.
        -- apply not_elem_of_cons in H1 as [H1 H1']. exists (r0 :: l1), l2.
           split; [done|]. split; [done|]. csimpl. by apply not_elem_of_cons.
      * intros (l1 & l2 & E & H1 & H2). destruct l1 as [|x l1]; simplify_eq/=.
        -- by left.
        -- apply not_elem_of_cons in H2 as [? ?]. right. exists l1, l2.
           split; [done|]. split; [|done]. by apply not_elem_of_cons.
Qed.

Lemma drop_duplicates_spec (c : string) (rs : list row) :
  let key (r : row) := dup_key (r !!! c) in
  drop_duplicates c rs `sublist_of` rs ∧
  NoDup (key <$> drop_duplicates c rs) ∧
  (∀ r, r ∈ drop_duplicates c rs ↔
        ∃ l1 l2, rs = l1 ++ r :: l2 ∧ key r ∉ key <$> l1).
Proof.
  intros key. destruct (drop_duplicates_from_spec [] c rs) as (H1 & H2 & _ & H4).
  split; [done|]. split; [done|]. intros r. rewrite (H4 r).
  split; [naive_solver|]. intros (l1 & l2 & ? & ?). exists l1, l2.
  split; [done|]. split; [apply not_elem_of_nil | done].
Qed.

End dedup_facts.

Section cleaning_claims.

Import data_cleaning row_view cleaning_tables.

Variable parse_auto : list cell → cell → option Timestamp.
Variable parse_fmt : string → cell → option Timestamp.
Variable to_numeric : string → option Qc.
Variable str_of_num : Qc → string.
Variable str_of_ts : Timestamp → string.

Local Abbreviation clean := (clean parse_auto parse_fmt to_numeric str_of_num str_of_ts).
Local Abbreviation row_out := (row_out to_numeric str_of_num str_of_ts).



End cleaning_claims.

(** ** Grouped sums *)

Section aggregation_facts.

Import config builtins aggregation conditions aggregation_conditions.

Lemma sum_float_total (s : list cell) :
  Forall (λ v, is_float v = true) s →
  pd.sum s = Ok (Num (Qc_sum (cell_number <$> s))).
Proof.
  intros Hs. unfold pd.sum.
  assert (∃ qs, numbers_skipna s = Some qs
                ∧ Qc_sum qs = Qc_sum (cell_number <$> s))
    as (qs & -> & ->); [|done].
  induction Hs as [|v s Hv _ (qs & IH & IHs)]; [by exists []|].
  destruct v; try discriminate; simpl; rewrite IH; simpl.
  - exists qs. split; [done|]. rewrite IHs. csimpl. by rewrite Qcplus_0_l.
  - exists (q :: qs). split; [done|]. csimpl. by rewrite IHs.
Qed.

Lemma traverse_Ok {A B} (f : A → result B) (P : A → B → Prop) (l : list A) :
  (∀ a, a ∈ l → ∃ b, f a = Ok b ∧ P a b) →
  ∃ bs, traverse f l = Ok bs ∧ Forall2 P l bs.
Proof.
  induction l as [|a l IH]; intros Hf; simpl; [by exists []|].
  destruct (Hf a) as (b & -> & Hb); [by left|].
  destruct IH as (bs & -> & Hbs); [intros a' Ha'; apply Hf; by right|].
  simpl. exists (b :: bs). split; [done|]. by constructor.
Qed.

Lemma Qc_sum_plus {A} (a b : A → Qc) (l : list A) :
  Qc_sum ((λ k, a k + b k)%Qc <$> l) = (Qc_sum (a <$> l) + Qc_sum (b <$> l))%Qc.
Proof.
  induction l as [|k l IH]; csimpl; [by rewrite Qcplus_0_l|].
  rewrite IH. ring.
Qed.

Lemma Qc_sum_zero {A} (l : list A) : Qc_sum ((λ _, 0%Qc) <$> l) = 0%Qc.
Proof. induction l as [|k l IH]; csimpl; [done|]. rewrite IH. ring. Qed.

Lemma Qc_sum_indicator (k0 : cell) (x : Qc) (keys : list cell) :
  NoDup keys → k0 ∈ keys →
  Qc_sum ((λ k, if decide (k0 = k) then x else 0%Qc) <$> keys) = x.
Proof.
  induction 1 as [|k keys Hk Hnd IH]; intros Hin; [by inversion Hin|]. csimpl.
  destruct (decide (k0 = k)) as [->|Hne].
  - rewrite (list_fmap_ext _ (λ _, 0%Qc) keys), Qc_sum_zero; [ring|].
    intros i k' Hk'. case_decide; [|done]. subst k'.
    destruct Hk. by eapply list_elem_of_lookup_2.
  - rewrite IH; [ring|]. apply elem_of_cons in Hin as [?|?]; done.
Qed.

(** Summing group by group gives the sum over all rows, when every row
    belongs to one of the groups. *)
Lemma Qc_sum_groups (c : string) (f : row → Qc) (keys : list cell) (rs : list row) :
  NoDup keys → (∀ r, r ∈ rs → r !!! c ∈ keys) →
  Qc_sum ((λ k, Qc_sum (f <$> group c k rs)) <$> keys) = Qc_sum (f <$> rs).
Proof.
  intros Hnd. unfold group.
  induction rs as [|r rs IH]; intros Hkeys; csimpl.
  { apply Qc_sum_zero. }
  rewrite <- IH by (intros r' Hr'; apply Hkeys; by right).
  rewrite <- (Qc_sum_indicator (r !!! c) (f r) keys Hnd) at 1
    by (apply Hkeys; by left).
  rewrite <- Qc_sum_plus. f_equal. apply list_fmap_ext. intros i k _.
  rewrite filter_cons. destruct (decide (r !!! c = k)); csimpl; [done|ring].
Qed.

Lemma keys_comparable_texts (ks : list cell) :
  Forall (λ k, is_Str k = true) ks → keys_comparable ks = true.
Proof.
  intros H. unfold keys_comparable.
  assert (existsb is_Ts ks = false) as ->; [|done].
  apply not_true_iff_false. rewrite existsb_exists.
  intros (k & Hk%list_elem_of_In & Hts).
  rewrite Forall_forall in H. apply H in Hk. by destruct k.
Qed.

(** The keys of a group-by on a text column: the distinct texts of the
    column, each once. *)
Lemma group_keys_texts (c : string) (rs : list row) :
  Forall (λ r : row, is_Str (r !!! c) = true) rs →
  ∃ keys, group_keys c rs = Ok keys ∧ NoDup keys ∧
          keys ≡ₚ remove_dups (col c rs) ∧
          (∀ r, r ∈ rs → r !!! c ∈ keys).
Proof.
  intros Htexts. unfold group_keys.
  assert (filter (λ k, isna k = false) (col c rs) = col c rs) as ->.
  { unfold col. induction Htexts as [|r rs Hr _ IH]; [done|]. csimpl.
    rewrite filter_cons, IH. case_decide as Hna; [done|].
    destruct Hna. by destruct (r !!! c). }
  rewrite keys_comparable_texts.
  - eexists. split; [done|].
    split; [rewrite merge_sort_Permutation; apply NoDup_remove_dups|].
    split; [apply merge_sort_Permutation|].
    intros r Hr. rewrite merge_sort_Permutation, elem_of_remove_dups.
    unfold col. apply list_elem_of_fmap. eauto.
  - apply Forall_forall. intros k Hk. rewrite elem_of_remove_dups in Hk.
    unfold col in Hk. apply list_elem_of_fmap in Hk as (r & -> & Hr).
    rewrite Forall_forall in Htexts. by apply Htexts.
Qed.

Lemma float_column_group (c key : string) (k : cell) (df : DataFrame) :
  float_column c df →
  Forall (λ v, is_float v = true) (col c (group key k (rows df))).
Proof.
  unfold float_column, col, group. rewrite !Forall_fmap.
  intros H. apply Forall_forall. intros r [_ Hr]%list_elem_of_filter.
  rewrite Forall_forall in H. by apply H.
Qed.

Lemma avg_order_value_Ok (total : Qc) (orders : cell) :
  ∃ aov, avg_order_value (Num total) orders = Ok aov.
Proof.
  unfold avg_order_value.
  destruct (round2_float _ (safe_divide_float (Num total) orders)) as (w & -> & _).
  eauto.
Qed.

End aggregation_facts.

(** ** Conservation of totals *)

Section conservation.

Import config builtins data_cleaning row_view aggregation conditions
  aggregation_conditions.

Variable parse_auto : list cell → cell → option Timestamp.
Variable parse_fmt : string → cell → option Timestamp.
Variable to_numeric : string → option Qc.
Variable str_of_num : Qc → string.
Variable str_of_ts : Timestamp → string.

Local Abbreviation clean := (clean parse_auto parse_fmt to_numeric str_of_num str_of_ts).

Lemma monthly_row_Ok (df : DataFrame) (k : cell) :
  float_column "revenue" df →
  (has_col "cost" df = true → float_column "cost" df) →
  (has_col "marketing_spend" df = true → float_column "marketing_spend" df) →
  ∃ r', monthly_row (has_col "cost" df) (has_col "marketing_spend" df) (rows df) k
          = Ok r' ∧
        r' !!! "total_revenue"
          = Num (column_total "revenue" (group "year_month" k (rows df))).
Proof.
  intros Hrev Hcost Hspend. unfold monthly_row, column_total.
  rewrite (sum_float_total _ (float_column_group "revenue" "year_month" k df Hrev)).
  simpl.
  destruct (avg_order_value_Ok
              (Qc_sum (cell_number <$> col "revenue" (group "year_month" k (rows df))))
              (pd.count (col "order_id" (group "year_month" k (rows df)))))
    as [aov Haov].
  destruct (has_col "cost" df) eqn:Hc; destruct (has_col "marketing_spend" df) eqn:Hs;
    rewrite ?(sum_float_total _ (float_column_group "cost" "year_month" k df (Hcost eq_refl)));
    rewrite ?(sum_float_total _
                (float_column_group "marketing_spend" "year_month" k df (Hspend eq_refl)));
    simpl; rewrite Haov; simpl; eexists; (split; [done|]);
    by rewrite !lookup_total_insert_ne, lookup_total_insert_eq by done.
Qed.

Lemma monthly_agg_columns (df : DataFrame) :
  has_col "revenue" df = true → has_col "order_id" df = true →
  has_col "customer_id" df = true →
  agg_columns_exist "year_month"
    (["revenue"; "order_id"; "customer_id"]
       ++ (if has_col "cost" df then ["cost"] else [])
       ++ (if has_col "marketing_spend" df then ["marketing_spend"] else []))
    df = true.
Proof.
  intros H1 H2 H3. unfold agg_columns_exist.
  destruct (has_col "cost" df) eqn:Hc; destruct (has_col "marketing_spend" df) eqn:Hs;
    cbn [app forallb]; rewrite ?H1, ?H2, ?H3, ?Hc, ?Hs; vm_compute; reflexivity.
Qed.

Lemma monthly_conservation (df : DataFrame) :
  clean_table df →
  ∃ monthly, build_monthly_summary df = Ok monthly ∧
    pd.sum (col "total_revenue" (rows monthly))
      = Ok (Num (column_total "revenue" (rows df))) ∧
    pd.sum (col "revenue" (rows df))
      = Ok (Num (column_total "revenue" (rows df))).
Proof.
  intros [Hne Hym Hrev Hoid Hcid Hbuckets Hrevf Hcostf Hspendf].
  unfold build_monthly_summary.
  rewrite Hym, (not_empty "year_month" df Hym Hne). cbn [negb orb].
  rewrite monthly_agg_columns by done. cbn [negb].
  destruct (group_keys_texts "year_month" (rows df) Hbuckets)
    as (keys & -> & Hnd & Hperm & Hall).
  cbn [bind].
  destruct (traverse_Ok
    (monthly_row (has_col "cost" df) (has_col "marketing_spend" df) (rows df))
    (λ k r', r' !!! "total_revenue"
             = Num (column_total "revenue" (group "year_month" k (rows df))))
    keys) as (monthly & -> & Hrows).
  { intros k _. by apply monthly_row_Ok. }
  cbn [bind].
  eexists. split; [done|].
  cbn [rows]. split; [|by apply sum_float_total].
  assert (col "total_revenue" monthly
          = (λ k, Num (column_total "revenue" (group "year_month" k (rows df))))
              <$> keys) as ->.
  { unfold col. clear -Hrows. induction Hrows as [|k r' ks rs' H _ IH]; [done|].
    csimpl. by rewrite H, IH. }
  rewrite sum_float_total by (apply Forall_fmap, Forall_forall; done).
  rewrite <- list_fmap_compose. do 2 f_equal.
  transitivity (Qc_sum (cell_number ∘ (λ r : row, r !!! "revenue") <$> rows df));
    [|unfold column_total, col; by rewrite <- list_fmap_compose].
  rewrite <- (Qc_sum_groups "year_month" _ keys (rows df) Hnd Hall).
  f_equal. apply list_fmap_ext. intros i k _. simpl.
  unfold column_total, col. by rewrite <- list_fmap_compose.
Qed.

Lemma clean_columns (df : DataFrame) :
  columns (clean df).1
  = if has_col "date" df
    then (if has_col "year_month" df then columns df else columns df ++ ["year_month"])
    else columns df.
Proof.
  unfold data_cleaning.clean.
  destruct (_convert_dates parse_auto parse_fmt _) as [converted invalid].
  cbn [fst]. by destruct (has_col "date" df).
Qed.

Lemma clean_has_col (df : DataFrame) (c : string) :
  has_col c df = true → has_col c (clean df).1 = true.
Proof.
  unfold has_col at 1 2. rewrite clean_columns. intros H%bool_decide_eq_true.
  apply bool_decide_eq_true.
  destruct (has_col "date" df); [|done].
  destruct (has_col "year_month" df); [done|].
  apply elem_of_app. by left.
Qed.

Lemma clean_has_col_inv (df : DataFrame) (c : string) :
  c ≠ "year_month" → has_col c (clean df).1 = true → has_col c df = true.
Proof.
  unfold has_col at 1 2. rewrite clean_columns. intros Hc H%bool_decide_eq_true.
  apply bool_decide_eq_true.
  destruct (has_col "date" df); [|done].
  destruct (has_col "year_month" df); [done|].
  apply elem_of_app in H as [H|H]; [done|].
  apply list_elem_of_singleton in H. done.
Qed.

Lemma clean_has_year_month (df : DataFrame) :
  has_col "date" df = true → has_col "year_month" (clean df).1 = true.
Proof.
  intros Hd. unfold has_col at 1. rewrite clean_columns, Hd.
  apply bool_decide_eq_true. unfold has_col. case_bool_decide; [done|].
  apply elem_of_app. right. by left.
Qed.

Lemma clean_numeric_float (v : cell) : is_float (_clean_numeric to_numeric v) = true.
Proof.
  destruct v; simpl; try done. case_bool_decide; [done|].
  by destruct (to_numeric _).
Qed.

(** What [clean] hands over is a clean table. *)
Lemma clean_is_clean_table (mapped : DataFrame) :
  Forall (λ c, has_col c mapped = true) REQUIRED_COLUMNS →
  rows (clean mapped).1 ≠ [] →
  clean_table (clean mapped).1.
Proof.
  intros Hreq Hne.
  unfold REQUIRED_COLUMNS in Hreq.
  apply Forall_cons in Hreq as [Hd Hreq]. apply Forall_cons in Hreq as [Ho Hreq].
  apply Forall_cons in Hreq as [Hc Hreq]. apply Forall_cons in Hreq as [Hr _].
  destruct (clean_rows parse_auto parse_fmt to_numeric str_of_num str_of_ts mapped)
    as (p & Hrows & _).
  split; try by apply clean_has_col.
  - done.
  - by apply clean_has_year_month.
  - rewrite Hrows. apply Forall_fmap, Forall_forall. intros r _. simpl.
    destruct (row_out_date to_numeric str_of_num str_of_ts mapped p r Hd) as [_ ->].
    unfold year_month_of. by destruct (to_dt p (r !!! "date")).
  - unfold float_column, col. rewrite Hrows.
    apply Forall_fmap, Forall_fmap, Forall_forall. intros r _. simpl.
    rewrite row_out_revenue by done. apply clean_numeric_float.
  - intros H%clean_has_col_inv; [|done].
    unfold float_column, col. rewrite Hrows.
    apply Forall_fmap, Forall_fmap, Forall_forall. intros r _. simpl.
    rewrite row_out_optional_numeric; [|by left|done].
    pose proof (clean_numeric_float (r !!! "cost")).
    by destruct (_clean_numeric to_numeric (r !!! "cost")).
  - intros H%clean_has_col_inv; [|done].
    unfold float_column, col. rewrite Hrows.
    apply Forall_fmap, Forall_fmap, Forall_forall. intros r _. simpl.
    rewrite row_out_optional_numeric; [|right; by left|done].
    pose proof (clean_numeric_float (r !!! "marketing_spend")).
    by destruct (_clean_numeric to_numeric (r !!! "marketing_spend")).
Qed.

(** A text column of the result of [clean] is a segment column. *)
Lemma clean_is_segment_table (mapped : DataFrame) (c : string) :
  Forall (λ c, has_col c mapped = true) REQUIRED_COLUMNS →
  c ∈ TEXT_COLUMNS → has_col c mapped = true →
  segment_table (clean mapped).1 c.
Proof.
  intros Hreq Hc Hhas.
  unfold REQUIRED_COLUMNS in Hreq.
  apply Forall_cons in Hreq as [Hd Hreq]. apply Forall_cons in Hreq as [Ho Hreq].
  apply Forall_cons in Hreq as [Hcu Hreq]. apply Forall_cons in Hreq as [Hr _].
  destruct (clean_rows parse_auto parse_fmt to_numeric str_of_num str_of_ts mapped)
    as (p & Hrows & _).
  split; try by apply clean_has_col.
  - unfold TEXT_COLUMNS in Hc.
    repeat (apply elem_of_cons in Hc as [->|Hc]);
      [| | | |by apply elem_of_nil in Hc];
      intros H; repeat (apply elem_of_cons in H as [H|H]; [discriminate|]);
      by apply elem_of_nil in H.
  - rewrite Hrows. apply Forall_fmap, Forall_forall. intros r _. simpl.
    by rewrite row_out_text.
  - unfold float_column, col. rewrite Hrows.
    apply Forall_fmap, Forall_fmap, Forall_forall. intros r _. simpl.
    rewrite row_out_revenue by done. apply clean_numeric_float.
Qed.

(** C1. For every clean table (not empty, every row with its month
    bucket), [build_monthly_summary] returns, and the sum of
    [total_revenue] over the monthly summary is the sum of the revenue
    column of the clean table, a NaN revenue adding nothing on either
    side; the equality is exact in the arithmetic of the model.  The
    non-empty result of [clean] on a mapped table with the four required
    columns is such a clean table. *)
Theorem C1_conservation_of_totals :
  (∀ df, clean_table df →
     ∃ monthly, build_monthly_summary df = Ok monthly ∧
       pd.sum (col "total_revenue" (rows monthly))
         = Ok (Num (column_total "revenue" (rows df))) ∧
       pd.sum (col "revenue" (rows df))
         = Ok (Num (column_total "revenue" (rows df)))) ∧
  (∀ mapped,
     Forall (λ c, has_col c mapped = true) REQUIRED_COLUMNS →
     rows (clean mapped).1 ≠ [] →
     clean_table (clean mapped).1).
Proof.
  split; [apply monthly_conservation | apply clean_is_clean_table].
Qed.

End conservation.

(** ** Segment ordering *)

Section segment_facts.

Import config builtins aggregation conditions aggregation_conditions samples.

Global Instance revenue_ge_trans : Transitive revenue_ge.
Proof. intros a b c Hab Hbc. unfold revenue_ge in *. by etrans. Qed.

Global Instance revenue_ge_total : Total revenue_ge.
Proof.
  intros a b. unfold revenue_ge.
  destruct (Qclt_le_dec (total_revenue_of a) (total_revenue_of b)) as [H|H];
    [right; by apply Qclt_le_weak | by left].
Qed.

Global Instance revenue_le_total : Total revenue_le.
Proof. intros a b. destruct (revenue_ge_total a b); [by right | by left]. Qed.

Lemma stable_sort_desc_ok : sorts_descending stable_sort_desc.
Proof.
  split; intros rs; unfold stable_sort_desc;
    [apply merge_sort_Permutation | apply Sorted_merge_sort, _].
Qed.

Lemma reversing_sort_desc_ok : sorts_descending reversing_sort_desc.
Proof.
  split; intros rs; unfold reversing_sort_desc.
  - by rewrite reverse_Permutation, merge_sort_Permutation.
  - apply (Sorted_reverse revenue_le). apply Sorted_merge_sort, _.
Qed.

Lemma NoDup_fmap_eq {A B} (f : A → B) (l : list A) (x y : A) :
  NoDup (f <$> l) → x ∈ l → y ∈ l → f x = f y → x = y.
Proof.
  induction l as [|a l IH]; csimpl; intros Hnd Hx Hy Hf; [by inversion Hx|].
  apply NoDup_cons in Hnd as [Ha Hnd].
  apply elem_of_cons in Hx as [->|Hx]; apply elem_of_cons in Hy as [->|Hy]; auto.
  - destruct Ha. rewrite Hf. by apply list_elem_of_fmap_2.
  - destruct Ha. rewrite <- Hf. by apply list_elem_of_fmap_2.
Qed.

(** Without ties there is one descending arrangement. *)
Lemma descending_unique (l1 l2 : list row) :
  NoDup (total_revenue_of <$> l2) → l1 ≡ₚ l2 →
  Sorted revenue_ge l1 → Sorted revenue_ge l2 → l1 = l2.
Proof.
  intros Hnd Hperm H1 H2. apply (Sorted_unique_strong revenue_ge); try done.
  intros x1 x2 Hx1 Hx2 Hge Hle. rewrite Hperm in Hx1.
  apply (NoDup_fmap_eq total_revenue_of l2); try done.
  unfold revenue_ge in *. by apply Qcle_antisym.
Qed.

Lemma segment_row_Ok (df : DataFrame) (segment_col : string) (k : cell) :
  float_column "revenue" df →
  ∃ r', segment_row segment_col (rows df) k = Ok r' ∧
        r' !!! "segment" = k ∧
        r' !!! "total_revenue"
          = Num (column_total "revenue" (group segment_col k (rows df))).
Proof.
  intros Hrev. unfold segment_row, column_total.
  rewrite (sum_float_total _ (float_column_group "revenue" segment_col k df Hrev)).
  simpl.
  destruct (avg_order_value_Ok
              (Qc_sum (cell_number <$> col "revenue" (group segment_col k (rows df))))
              (pd.count (col "order_id" (group segment_col k (rows df)))))
    as [aov ->].
  simpl. eexists. split; [done|].
  by rewrite !lookup_total_insert_ne, !lookup_total_insert_eq by done.
Qed.

Lemma segment_agg_columns (df : DataFrame) (segment_col : string) :
  segment_table df segment_col →
  agg_columns_exist segment_col ["revenue"; "order_id"; "customer_id"] df = true.
Proof.
  intros [_ Hother H1 H2 H3 _ _]. unfold agg_columns_exist. cbn [forallb].
  rewrite H1, H2, H3. cbn [andb].
  assert ("revenue" ≠ segment_col ∧ "order_id" ≠ segment_col
          ∧ "customer_id" ≠ segment_col) as (N1 & N2 & N3).
  { repeat split; intros <-; apply Hother.
    - by left.
    - right. by left.
    - right. right. by left. }
  by rewrite !bool_decide_eq_true_2 by done.
Qed.

(** The summary before sorting: one row per key, in key order. *)
Lemma segment_rows (df : DataFrame) (segment_col : string) :
  segment_table df segment_col → rows df ≠ [] →
  ∃ keys unsorted,
    NoDup keys ∧ keys ≡ₚ remove_dups (col segment_col (rows df)) ∧
    Forall2 (λ k (r' : row),
               r' !!! "segment" = k ∧
               r' !!! "total_revenue"
               = Num (column_total "revenue" (group segment_col k (rows df))))
            keys unsorted ∧
    ∀ sort, build_segment_summary sort df segment_col
            = Ok (mkDF ["segment"; "total_revenue"; "total_orders";
                        "unique_customers"; "avg_order_value"]
                       (sort unsorted)).
Proof.
  intros Hseg Hne. pose proof (segment_agg_columns df segment_col Hseg) as Hagg.
  destruct Hseg as [Hcol Hother H1 H2 H3 Htexts Hrevf].
  destruct (group_keys_texts segment_col (rows df) Htexts)
    as (keys & Hkeys & Hnd & Hperm & Hall).
  destruct (traverse_Ok (segment_row segment_col (rows df))
    (λ k (r' : row),
       r' !!! "segment" = k ∧
       r' !!! "total_revenue"
       = Num (column_total "revenue" (group segment_col k (rows df))))
    keys) as (unsorted & Htrav & Hrows).
  { intros k _. by apply segment_row_Ok. }
  exists keys, unsorted. repeat split; try done.
  intros sort. unfold build_segment_summary.
  rewrite Hcol, (not_empty segment_col df Hcol Hne). cbn [negb orb].
  rewrite Hagg, Hkeys. cbn [negb bind]. by rewrite Htrav.
Qed.


End segment_facts.



(** ** The claims on sample tables *)

Lemma C1_conservation_of_totals_witness :
  aggregation_conditions.clean_table tables.clean_3 ∧
  Forall (λ c, has_col c cleaning_tables.duplicated_orders = true)
         config.REQUIRED_COLUMNS ∧
  rows (samples.clean cleaning_tables.duplicated_orders).1 ≠ [] ∧
  (∃ monthly,
     aggregation.build_monthly_summary tables.clean_3 = Ok monthly ∧
     pd.sum (col "total_revenue" (rows monthly)) = Ok (samples.num 2200) ∧
     pd.sum (col "revenue" (rows tables.clean_3)) = Ok (samples.num 2200)) ∧
  aggregation_conditions.clean_table
    (samples.clean cleaning_tables.duplicated_orders).1.
Proof.
  assert (aggregation_conditions.clean_table tables.clean_3) as Hclean
    by (split; intros; by_eval).
  assert (Forall (λ c, has_col c cleaning_tables.duplicated_orders = true)
                 config.REQUIRED_COLUMNS) as Hreq by by_eval.
  assert (rows (samples.clean cleaning_tables.duplicated_orders).1 ≠ []) as Hne
    by by_eval.
  destruct (C1_conservation_of_totals samples.parse_auto samples.parse_fmt
              samples.to_numeric samples.str_of_num samples.str_of_ts)
    as [Hsum Hout].
  split; [exact Hclean|]. split; [exact Hreq|]. split; [exact Hne|].
  split; [|exact (Hout cleaning_tables.duplicated_orders Hreq Hne)].
  destruct (Hsum tables.clean_3 Hclean) as (monthly & Hm & Ht & Hr).
  exists monthly. split; [exact Hm|].
  rewrite Ht, Hr. split; by_eval.
Defined.




(** * Further properties of the code *)

From Stdlib Require Import Lqa.

(** ** The safe arithmetic helpers of [config.py] *)

Section safe_math.

Import config.

Lemma Qc_this_mult (x y : Qc) : (this (x * y)%Qc == this x * this y)%Q.
Proof. simpl. apply Qred_correct. Qed.

Lemma Qc_this_minus (x y : Qc) : (this (x - y)%Qc == this x - this y)%Q.
Proof.
  unfold Qcminus, Qcplus, Qcopp. simpl.
  rewrite !Qred_correct. reflexivity.
Qed.

Lemma Qc_of_Z_this (z : Z) : (this (Qc_of_Z z) == inject_Z z)%Q.
Proof. reflexivity. Qed.

Lemma Qc_sign_of_product (p a b : Qc) :
  (p * b = a)%Qc →
  ((0 < b)%Qc → ((0 < p)%Qc ↔ (0 < a)%Qc)) ∧
  ((b < 0)%Qc → ((0 < p)%Qc ↔ (a < 0)%Qc)).
Proof.
  intros <-. unfold Qclt.
  pose proof (Qc_this_mult p b) as E.
  change (this 0%Qc) with 0%Q.
  split; intros Hb; rewrite E; split; intros H; nra.
Qed.

Lemma Qc_lt_minus (x y : Qc) : (0 < x - y)%Qc ↔ (y < x)%Qc.
Proof.
  unfold Qclt. rewrite Qc_this_minus. change (this 0%Qc) with 0%Q.
  split; intros H; lra.
Qed.

Lemma Qc_minus_lt (x y : Qc) : (x - y < 0)%Qc ↔ (x < y)%Qc.
Proof.
  unfold Qclt. rewrite Qc_this_minus. change (this 0%Qc) with 0%Q.
  split; intros H; lra.
Qed.

Lemma Qc_lt_mult_100 (x : Qc) : (0 < x * Qc_of_Z 100)%Qc ↔ (0 < x)%Qc.
Proof.
  unfold Qclt. rewrite Qc_this_mult, Qc_of_Z_this. change (this 0%Qc) with 0%Q.
  change (inject_Z 100) with 100%Q. split; intros H; lra.
Qed.

Lemma Qc_mult_100_lt (x : Qc) : (x * Qc_of_Z 100 < 0)%Qc ↔ (x < 0)%Qc.
Proof.
  unfold Qclt. rewrite Qc_this_mult, Qc_of_Z_this. change (this 0%Qc) with 0%Q.
  change (inject_Z 100) with 100%Q. split; intros H; lra.
Qed.



(** X2. For a number [new_val] over a non-zero number [old_val],
    [safe_pct_change] returns the percentage [p] with
    [p * old_val = (new_val - old_val) * 100].  Over a positive base the
    change is positive exactly when the value rose; over a negative base
    the sign is reversed: the change is positive exactly when the value
    fell. *)
Theorem safe_pct_change_sign (new_val old_val : Qc) (default : cell) :
  old_val ≠ 0%Qc →
  ∃ p, safe_pct_change (Num new_val) (Num old_val) default = Num p ∧
    (p * old_val = (new_val - old_val) * Qc_of_Z 100)%Qc ∧
    ((0 < old_val)%Qc → ((0 < p)%Qc ↔ (old_val < new_val)%Qc)) ∧
    ((old_val < 0)%Qc → ((0 < p)%Qc ↔ (new_val < old_val)%Qc)).
Proof.
  intros Hold.
  exists ((new_val - old_val) / old_val * Qc_of_Z 100)%Qc.
  assert (E : ((new_val - old_val) / old_val * Qc_of_Z 100 * old_val
               = (new_val - old_val) * Qc_of_Z 100)%Qc) by (field; exact Hold).
  split; [|split; [exact E|]].
  - unfold safe_pct_change, none_or_zero. by rewrite bool_decide_eq_false_2.
  - destruct (Qc_sign_of_product _ _ _ E) as [Hpos Hneg]. split.
    + intros H. rewrite (Hpos H), Qc_lt_mult_100. apply Qc_lt_minus.
    + intros H. rewrite (Hneg H), Qc_mult_100_lt. apply Qc_minus_lt.
Qed.

Lemma safe_pct_change_sign_witness :
  ∃ p, safe_pct_change (Num (Qc_of_Z (-50))) (Num (Qc_of_Z (-100))) default_0 = Num p ∧
    (p * Qc_of_Z (-100) = (Qc_of_Z (-50) - Qc_of_Z (-100)) * Qc_of_Z 100)%Qc ∧
    ((0 < Qc_of_Z (-100))%Qc → ((0 < p)%Qc ↔ (Qc_of_Z (-100) < Qc_of_Z (-50))%Qc)) ∧
    ((Qc_of_Z (-100) < 0)%Qc → ((0 < p)%Qc ↔ (Qc_of_Z (-50) < Qc_of_Z (-100))%Qc)).
Proof.
  apply (safe_pct_change_sign (Qc_of_Z (-50)) (Qc_of_Z (-100)) default_0).
  discriminate.
Defined.

End safe_math.

(** ** Column names: [_normalize_col_name] and [_deduplicate_columns] *)

Section column_names.

Import pystr schema_detection name_conditions.

Lemma append_cons (c : ascii) (s t : string) : String c s +:+ t = String c (s +:+ t).
Proof. reflexivity. Qed.

Lemma rev_app_rev_app (s a b : string) :
  String.rev_app (String.rev_app s a) b = String.rev_app a (s +:+ b).
Proof.
  revert a b. induction s as [|c s IH]; intros a b; [done|].
  simpl. by rewrite IH, append_cons.
Qed.

Lemma append_nil_r (s : string) : s +:+ "" = s.
Proof. induction s as [|c s IH]; [done|]. by rewrite append_cons, IH. Qed.

Lemma rev_involutive (s : string) : String.rev (String.rev s) = s.
Proof. unfold String.rev. rewrite rev_app_rev_app. apply append_nil_r. Qed.

Lemma rev_app_append (s t a : string) :
  String.rev_app (s +:+ t) a = String.rev_app t (String.rev_app s a).
Proof.
  revert a. induction s as [|c s IH]; intros a; [done|].
  rewrite append_cons. simpl. by rewrite IH.
Qed.

Lemma rev_app_spec (s a : string) : String.rev_app s a = String.rev s +:+ a.
Proof.
  unfold String.rev. revert a. induction s as [|c s IH]; intros a; [done|].
  simpl. rewrite IH, (IH (String c "")).
  generalize (String.rev_app s ""). intros u.
  induction u as [|d u IHu]; [done|]. by rewrite !append_cons, IHu.
Qed.

Lemma lstrip_starts_clean (s : string) : starts_clean (lstrip s).
Proof.
  induction s as [|c s IH]; [done|]. simpl.
  destruct (is_space c) eqn:E; [done|]. exact E.
Qed.

Lemma lstrip_id (s : string) : starts_clean s → lstrip s = s.
Proof. destruct s as [|c s]; [done|]. simpl. by intros ->. Qed.

Lemma lstrip_snoc (x : string) (c : ascii) :
  is_space c = false → ∃ y, lstrip (x +:+ String c "") = y +:+ String c "".
Proof.
  intros Hc. induction x as [|d x IH].
  - simpl. rewrite Hc. by exists "".
  - rewrite append_cons. simpl.
    destruct (is_space d); [exact IH|]. by exists (String d x).
Qed.

Lemma strip_starts_clean (s : string) : starts_clean (strip s).
Proof.
  unfold strip. pose proof (lstrip_starts_clean s) as H.
  destruct (lstrip s) as [|c t]; [done|]. simpl in H.
  unfold String.rev at 2. simpl. rewrite rev_app_spec.
  destruct (lstrip_snoc (String.rev t) c H) as [y ->].
  unfold String.rev. rewrite rev_app_append. simpl. exact H.
Qed.

Lemma strip_ends_clean (s : string) : starts_clean (String.rev (strip s)).
Proof. unfold strip. rewrite rev_involutive. apply lstrip_starts_clean. Qed.

Lemma strip_id (s : string) :
  starts_clean s → starts_clean (String.rev s) → strip s = s.
Proof.
  intros H1 H2. unfold strip.
  by rewrite (lstrip_id s H1), (lstrip_id _ H2), rev_involutive.
Qed.

Lemma map_chars_starts_clean (f : ascii → ascii) (s : string) :
  (∀ c, is_space c = false → is_space (f c) = false) →
  starts_clean s → starts_clean (map_chars f s).
Proof. intros Hf. destruct s as [|c s]; [done|]. simpl. apply Hf. Qed.

Lemma map_chars_rev_app (f : ascii → ascii) (s a : string) :
  String.rev_app (map_chars f s) (map_chars f a) = map_chars f (String.rev_app s a).
Proof.
  revert a. induction s as [|c s IH]; intros a; [done|]. simpl.
  by rewrite <- IH.
Qed.

Lemma map_chars_rev (f : ascii → ascii) (s : string) :
  String.rev (map_chars f s) = map_chars f (String.rev s).
Proof. unfold String.rev. by rewrite <- map_chars_rev_app. Qed.

Lemma map_chars_compose (f g : ascii → ascii) (s : string) :
  map_chars f (map_chars g s) = map_chars (λ c, f (g c)) s.
Proof. induction s as [|c s IH]; [done|]. simpl. by rewrite IH. Qed.

Lemma map_chars_ext (f g : ascii → ascii) (s : string) :
  (∀ c, f c = g c) → map_chars f s = map_chars g s.
Proof. intros H. induction s as [|c s IH]; [done|]. simpl. by rewrite H, IH. Qed.

Lemma list_ascii_map_chars (f : ascii → ascii) (s : string) :
  String.list_ascii_of_string (map_chars f s) = f <$> String.list_ascii_of_string s.
Proof. induction s as [|c s IH]; [done|]. simpl. by rewrite IH. Qed.

Lemma normalize_char_facts (c : ascii) :
  (is_space c = false → is_space (normalize_char c) = false) ∧
  normalize_char (normalize_char c) = normalize_char c ∧
  normalize_char c ≠ " "%char ∧
  ¬ (65 ≤ nat_of_ascii (normalize_char c) ≤ 90)%nat.
Proof.
  destruct c as [[] [] [] [] [] [] [] []];
    (split; [vm_compute; done | split; [vm_compute; done | split;
       [vm_compute; discriminate | vm_compute; lia]]]).
Qed.

Lemma normalize_col_name_chars (name : string) :
  _normalize_col_name name = map_chars normalize_char (strip name).
Proof.
  unfold _normalize_col_name, spaces_to_underscores, lower.
  by rewrite map_chars_compose.
Qed.

Lemma strip_normalized (name : string) :
  strip (map_chars normalize_char (strip name))
  = map_chars normalize_char (strip name).
Proof.
  apply strip_id.
  - apply map_chars_starts_clean; [apply normalize_char_facts|].
    apply strip_starts_clean.
  - rewrite map_chars_rev.
    apply map_chars_starts_clean; [apply normalize_char_facts|].
    apply strip_ends_clean.
Qed.

(** Normalizing a normalized name changes nothing. *)
Lemma normalize_col_name_fixed (name : string) :
  _normalize_col_name (_normalize_col_name name) = _normalize_col_name name.
Proof.
  rewrite !normalize_col_name_chars.
  rewrite strip_normalized, map_chars_compose. apply map_chars_ext.
  intros c. apply normalize_char_facts.
Qed.

(** X3. [_normalize_col_name] is idempotent, and a normalized name has
    no white space at either end, no space and no ASCII capital. *)
Theorem normalize_col_name_idempotent (name : string) :
  let n := _normalize_col_name name in
  _normalize_col_name n = n ∧
  strip n = n ∧
  ∀ c, c ∈ String.list_ascii_of_string n →
       c ≠ " "%char ∧ ¬ (65 ≤ nat_of_ascii c ≤ 90)%nat.
Proof.
  simpl. split; [apply normalize_col_name_fixed|].
  rewrite !normalize_col_name_chars. split; [apply strip_normalized|].
  intros c. rewrite list_ascii_map_chars.
  intros (c' & -> & _)%list_elem_of_fmap. split; apply normalize_char_facts.
Qed.

Lemma normalize_col_name_idempotent_witness :
  let n := _normalize_col_name " Order Date " in
  n = "order_date" ∧
  _normalize_col_name n = n ∧
  strip n = n ∧
  ∀ c, c ∈ String.list_ascii_of_string n →
       c ≠ " "%char ∧ ¬ (65 ≤ nat_of_ascii c ≤ 90)%nat.
Proof.
  split; [reflexivity|].
  apply (normalize_col_name_idempotent " Order Date ").
Defined.

Lemma length_deduplicate_columns_from (seen : gmap string nat) (columns : list string) :
  length (_deduplicate_columns_from seen columns) = length columns.
Proof.
  revert seen. induction columns as [|c cols IH]; intros seen; [done|].
  simpl. destruct (seen !! c); simpl; by rewrite IH.
Qed.

Lemma filter_none {A} (P : A → Prop) `{!∀ x, Decision (P x)} (l : list A) :
  (∀ x, x ∈ l → ¬ P x) → filter P l = [].
Proof.
  intros Hno. destruct (filter P l) as [|x l'] eqn:E; [done|].
  assert (Hx : x ∈ filter P l) by (rewrite E; left).
  apply list_elem_of_filter in Hx as [HP Hx]. by destruct (Hno x Hx).
Qed.

Lemma occurrences_snoc (c d : string) (l : list string) :
  occurrences c (l ++ [d])
  = (occurrences c l + (if decide (d = c) then 1 else 0))%nat.
Proof.
  unfold occurrences. rewrite filter_app, length_app. f_equal.
  rewrite filter_cons, filter_nil. by destruct (decide (d = c)).
Qed.

Lemma deduplicate_columns_from_lookup (seen : gmap string nat)
    (pre columns : list string) (i : nat) (c : string) :
  (∀ d, seen !! d = match occurrences d pre with 0 => None | S n => Some n end) →
  columns !! i = Some c →
  _deduplicate_columns_from seen columns !! i
  = Some (match occurrences c (pre ++ take i columns) with
          | 0 => c
          | S n => c +:+ "_" +:+ of_nat (S n)
          end).
Proof.
  revert seen pre i. induction columns as [|col cols IH]; intros seen pre i Hseen Hi;
    [done|].
  destruct i as [|i].
  - simpl in Hi. injection Hi as ->. rewrite take_0, app_nil_r. simpl.
    rewrite (Hseen c). by destruct (occurrences c pre).
  - simpl in Hi.
    assert (Hpre : pre ++ take (S i) (col :: cols) = (pre ++ [col]) ++ take i cols)
      by (by rewrite <- app_assoc).
    rewrite Hpre. simpl.
    assert (Hnext : ∀ n, seen !! col = n →
              ∀ d, <[col := match n with Some n => S n | None => 0 end]> seen !! d
                   = match occurrences d (pre ++ [col]) with
                     | 0 => None | S n => Some n
                     end).
    { intros n Hn d. rewrite occurrences_snoc. destruct (decide (col = d)) as [->|Hne].
      - rewrite lookup_insert_eq. rewrite Hseen in Hn. subst n.
        rewrite Nat.add_1_r. by destruct (occurrences d pre).
      - rewrite lookup_insert_ne by done. by rewrite Hseen, Nat.add_0_r. }
    destruct (seen !! col) as [n|] eqn:E; simpl.
    + apply IH; [|done]. exact (Hnext (Some n) eq_refl).
    + apply IH; [|done]. exact (Hnext None eq_refl).
Qed.

Lemma deduplicate_columns_lookup (columns : list string) (i : nat) (c : string) :
  columns !! i = Some c →
  _deduplicate_columns columns !! i
  = Some (match occurrences c (take i columns) with
          | 0 => c
          | S n => c +:+ "_" +:+ of_nat (S n)
          end).
Proof.
  intros Hi. apply (deduplicate_columns_from_lookup ∅ [] columns i c); [|done].
  intros d. by rewrite lookup_empty.
Qed.

(** Names that differ from each other are left as they are. *)
Lemma deduplicate_columns_distinct (columns : list string) :
  NoDup columns → _deduplicate_columns columns = columns.
Proof.
  intros Hnd. apply list_eq. intros i.
  destruct (columns !! i) as [c|] eqn:Hi.
  - rewrite (deduplicate_columns_lookup columns i c Hi).
    assert (Hocc : occurrences c (take i columns) = 0%nat).
    { unfold occurrences. apply length_zero_iff_nil.
      apply filter_none. intros x Hx ->.
      rewrite <- (take_drop i columns) in Hnd.
      apply NoDup_app in Hnd as (_ & Hnd & _).
      apply (Hnd c Hx). apply list_elem_of_lookup. exists 0%nat.
      by rewrite lookup_drop, Nat.add_0_r. }
    by rewrite Hocc.
  - apply lookup_ge_None. apply lookup_ge_None in Hi.
    unfold _deduplicate_columns. by rewrite length_deduplicate_columns_from.
Qed.

(** X4. [_deduplicate_columns] returns as many names as it is given;
    the name at a position is kept when it did not occur before, and
    gets the suffix [_k] when it occurred [k] times before; a list
    without repeats comes back unchanged. *)
Theorem deduplicate_columns_spec (columns : list string) :
  length (_deduplicate_columns columns) = length columns ∧
  (∀ i c, columns !! i = Some c →
     _deduplicate_columns columns !! i
     = Some (match occurrences c (take i columns) with
             | 0 => c
             | S n => c +:+ "_" +:+ of_nat (S n)
             end)) ∧
  (NoDup columns → _deduplicate_columns columns = columns).
Proof.
  split; [apply length_deduplicate_columns_from|].
  split; [apply deduplicate_columns_lookup | apply deduplicate_columns_distinct].
Qed.

Lemma deduplicate_columns_spec_witness :
  _deduplicate_columns ["id"; "date"; "id"; "id"] = ["id"; "date"; "id_1"; "id_2"] ∧
  length (_deduplicate_columns ["id"; "date"; "id"; "id"]) = 4%nat ∧
  NoDup ["id"; "date"] ∧
  _deduplicate_columns ["id"; "date"] = ["id"; "date"].
Proof.
  assert (Hnd : NoDup ["id"; "date"])
    by (apply (bool_decide_unpack _); vm_compute; exact I).
  refine (conj _ (conj _ (conj Hnd _))).
  - reflexivity.
  - apply (deduplicate_columns_spec ["id"; "date"; "id"; "id"]).
  - apply (deduplicate_columns_spec ["id"; "date"]). exact Hnd.
Defined.

End column_names.

(** ** The alias search of [detect_and_map] *)

Section alias_search.

Import schema_detection mapping_conditions alias_conditions.

Lemma first_present_alias (df_columns : list string) (f a : string) :
  first_present df_columns f = Some a → a ∈ normalized_aliases f ∧ a ∈ df_columns.
Proof.
  unfold first_present. intros H.
  assert (Ha : a ∈ filter (λ a, a ∈ df_columns) (normalized_aliases f)).
  { destruct (filter _ _) as [|x l]; [done|]. simpl in H. injection H as ->. left. }
  apply list_elem_of_filter in Ha. tauto.
Qed.

Lemma first_present_None (df_columns : list string) (f : string) :
  first_present df_columns f = None ↔
  ∀ a, a ∈ normalized_aliases f → a ∉ df_columns.
Proof.
  unfold first_present. split.
  - intros H a Ha Hin.
    assert (Hf : a ∈ filter (λ a, a ∈ df_columns) (normalized_aliases f))
      by (apply list_elem_of_filter; done).
    destruct (filter _ _); [by apply elem_of_nil in Hf | done].
  - intros H. rewrite filter_none; [done|]. exact H.
Qed.

(** Every standard column is the first of its own aliases. *)
Lemma standard_first_alias (f : string) :
  f ∈ all_standard → ∃ rest, normalized_aliases f = f :: rest.
Proof.
  intros Hf.
  assert (H : Forall (λ f, head (normalized_aliases f) = Some f) all_standard)
    by (apply (bool_decide_unpack _); vm_compute; exact I).
  rewrite Forall_forall in H. specialize (H f Hf).
  destruct (normalized_aliases f) as [|x rest]; [done|].
  simpl in H. injection H as ->. by exists rest.
Qed.

Lemma first_present_self (df_columns : list string) (f : string) :
  f ∈ all_standard → f ∈ df_columns → first_present df_columns f = Some f.
Proof.
  intros Hf Hin. destruct (standard_first_alias f Hf) as [rest E].
  unfold first_present. rewrite E, filter_cons. by rewrite decide_True.
Qed.

Lemma scan_aliases_first (df_columns : list string) (f : string)
    (aliases : list string) (st : maps) :
  (∀ a, a ∈ aliases → rename_map st !! _normalize_col_name a = None) →
  scan_aliases df_columns f aliases st
  = match head (filter (λ a, a ∈ df_columns) (_normalize_col_name <$> aliases)) with
    | Some a =>
        mkMaps (<[f := a]> (mapping st))
               (if bool_decide (a ≠ f) then <[a := f]> (rename_map st)
                else rename_map st)
    | None => st
    end.
Proof.
  induction aliases as [|alias rest IH]; intros Hfree; [done|].
  simpl. rewrite filter_cons.
  rewrite (Hfree alias) by left.
  rewrite (bool_decide_eq_true_2 (None = None)) by done.
  rewrite andb_true_r.
  destruct (decide (_normalize_col_name alias ∈ df_columns)) as [Hin|Hin].
  - by rewrite bool_decide_eq_true_2.
  - rewrite bool_decide_eq_false_2 by done. apply IH.
    intros a Ha. apply Hfree. by right.
Qed.

Lemma scan_aliases_inv (df_columns done : list string) (f : string) (st : maps) :
  f ∈ all_standard → f ∉ done → (∀ g, g ∈ done → g ∈ all_standard) →
  mapping_inv df_columns done st →
  mapping_inv df_columns (done ++ [f])
    (scan_aliases df_columns f (aliases_of f) st).
Proof.
  intros Hf Hnd Hdone [Hd Ht Hr].
  assert (Hfree : ∀ a, a ∈ aliases_of f →
                       rename_map st !! _normalize_col_name a = None).
  { intros a Ha. destruct (rename_map st !! _) as [g|] eqn:E; [|done]. exfalso.
    apply Hr in E as [Hm Hne].
    destruct (decide (g ∈ done)) as [Hg|Hg]; [|by rewrite (Ht g Hg) in Hm].
    rewrite (Hd g Hg) in Hm. apply first_present_alias in Hm as [Hag _].
    assert (g = f) as ->; [|done].
    apply (alias_owner_unique g f (_normalize_col_name a)); auto.
    by apply list_elem_of_fmap_2. }
  rewrite scan_aliases_first by done.
  change (head (filter (λ a, a ∈ df_columns) (_normalize_col_name <$> aliases_of f)))
    with (first_present df_columns f).
  destruct (first_present df_columns f) as [a|] eqn:Efp.
  - pose proof (first_present_alias _ _ _ Efp) as [Haf Hacols].
    assert (Hra : rename_map st !! a = None).
    { apply list_elem_of_fmap in Haf as (alias & -> & Halias). by apply Hfree. }
    assert (Hother : ∀ g, g ≠ f → mapping st !! g ≠ Some a).
    { intros g Hgf Hm. destruct (decide (a = g)) as [->|Hag].
      - destruct (decide (g ∈ done)) as [Hg|Hg]; [|by rewrite (Ht g Hg) in Hm].
        destruct (standard_first_alias g (Hdone g Hg)) as [rest Erest].
        apply Hgf. apply (alias_owner_unique g f g); auto.
        rewrite Erest. left.
      - assert (rename_map st !! a = Some g) by (by apply Hr). congruence. }
    constructor; simpl.
    + intros g [Hg| ->%list_elem_of_singleton]%elem_of_app.
      * rewrite lookup_insert_ne by (intros ->; done). by apply Hd.
      * by rewrite lookup_insert_eq.
    + intros g Hg. rewrite lookup_insert_ne.
      * apply Ht. intros Hin. apply Hg. apply elem_of_app. by left.
      * intros ->. apply Hg. apply elem_of_app. right. left.
    + intros a' g. destruct (decide (g = f)) as [->|Hgf].
      * rewrite lookup_insert_eq. case_bool_decide as Haf'.
        -- destruct (decide (a' = a)) as [->|Hne].
           ++ rewrite lookup_insert_eq. by split.
           ++ rewrite lookup_insert_ne by done. rewrite Hr, (Ht f Hnd).
              split; [by intros [? _] | by intros [[= ->] _]].
        -- subst a. rewrite Hr, (Ht f Hnd).
           split; [by intros [? _] | by intros [[= ->] ?]].
      * rewrite (lookup_insert_ne (mapping st)) by done. case_bool_decide as Haf'.
        -- destruct (decide (a' = a)) as [->|Hne].
           ++ rewrite lookup_insert_eq.
              split; [by intros [= ->] | intros [Hm _]; by destruct (Hother g Hgf)].
           ++ rewrite lookup_insert_ne by done. apply Hr.
        -- apply Hr.
  - constructor.
    + intros g [Hg| ->%list_elem_of_singleton]%elem_of_app; [by apply Hd|].
      by rewrite (Ht f Hnd).
    + intros g Hg. apply Ht. intros Hin. apply Hg. apply elem_of_app. by left.
    + exact Hr.
Qed.

Lemma foldl_scan_aliases_inv (df_columns todo done : list string) (st : maps) :
  NoDup (done ++ todo) → (∀ g, g ∈ done ++ todo → g ∈ all_standard) →
  mapping_inv df_columns done st →
  mapping_inv df_columns (done ++ todo)
    (foldl (λ st standard_col,
              scan_aliases df_columns standard_col (aliases_of standard_col) st)
           st todo).
Proof.
  revert done st. induction todo as [|f todo IH]; intros done st Hnd Hstd Hinv.
  - by rewrite app_nil_r.
  - cbn [foldl]. replace (done ++ f :: todo) with ((done ++ [f]) ++ todo)
      by (by rewrite <- app_assoc).
    apply IH.
    + by rewrite <- app_assoc.
    + intros g Hg. apply Hstd. by rewrite <- app_assoc in Hg.
    + apply scan_aliases_inv; [| |intros g Hg|done].
      * apply Hstd. apply elem_of_app. right. left.
      * apply NoDup_app in Hnd as (_ & Hdis & _). intros Hin.
        apply (Hdis f Hin). left.
      * apply Hstd. apply elem_of_app. by left.
Qed.

Lemma build_mapping_inv (df_columns : list string) :
  mapping_inv df_columns all_standard (build_mapping df_columns).
Proof.
  assert (Hnd : NoDup ([] ++ all_standard))
    by (apply (bool_decide_unpack _); vm_compute; exact I).
  assert (Hstd : ∀ g, g ∈ [] ++ all_standard → g ∈ all_standard) by (intros g Hg; exact Hg).
  assert (Hinit : mapping_inv df_columns [] (mkMaps ∅ ∅)).
  { constructor; simpl.
    - intros g Hg. by apply elem_of_nil in Hg.
    - intros g _. apply lookup_empty.
    - intros a g. rewrite !lookup_empty. split; [done | by intros [? _]]. }
  exact (foldl_scan_aliases_inv df_columns all_standard [] (mkMaps ∅ ∅) Hnd Hstd Hinit).
Qed.

Lemma mapping_inv_bound (df_columns : list string) (st : maps) (f c : string) :
  mapping_inv df_columns all_standard st → mapping st !! f = Some c →
  f ∈ all_standard ∧ c ∈ normalized_aliases f ∧ c ∈ df_columns.
Proof.
  intros [Hd Ht _] Hm.
  destruct (decide (f ∈ all_standard)) as [Hf|Hf]; [|by rewrite (Ht f Hf) in Hm].
  rewrite (Hd f Hf) in Hm. apply first_present_alias in Hm. tauto.
Qed.

Lemma mapping_inv_injective (df_columns : list string) (st : maps) (f1 f2 c : string) :
  mapping_inv df_columns all_standard st →
  mapping st !! f1 = Some c → mapping st !! f2 = Some c → f1 = f2.
Proof.
  intros Hinv H1 H2.
  destruct (mapping_inv_bound _ _ _ _ Hinv H1) as (? & ? & _).
  destruct (mapping_inv_bound _ _ _ _ Hinv H2) as (? & ? & _).
  by apply (alias_owner_unique f1 f2 c).
Qed.

(** The label that step 4 gives to a column. *)
Lemma renamed_label (df_columns : list string) (st : maps) (c : string) :
  mapping_inv df_columns all_standard st →
  (∀ f, mapping st !! f = Some c → default c (rename_map st !! c) = f) ∧
  ((∀ f, mapping st !! f ≠ Some c) → default c (rename_map st !! c) = c).
Proof.
  intros Hinv. split.
  - intros f Hm. destruct (decide (c = f)) as [->|Hne].
    + destruct (rename_map st !! f) as [g|] eqn:E; [|done]. simpl.
      apply (inv_rename _ _ _ Hinv) in E as [Hg _].
      by apply (mapping_inv_injective df_columns st g f f).
    + assert (E : rename_map st !! c = Some f) by (by apply (inv_rename _ _ _ Hinv)).
      by rewrite E.
  - intros Hno. destruct (rename_map st !! c) as [g|] eqn:E; [|done].
    apply (inv_rename _ _ _ Hinv) in E as [Hg _]. by destruct (Hno g).
Qed.

(** A column is the source of some standard name or of none. *)
Lemma bound_or_free (st : maps) (c : string) :
  (∃ f, mapping st !! f = Some c) ∨ (∀ f, mapping st !! f ≠ Some c).
Proof.
  destruct (decide (c ∈ (map_to_list (mapping st)).*2)) as [Hc|Hc].
  - left. apply list_elem_of_fmap in Hc as ([f c'] & -> & Hfc).
    exists f. by apply elem_of_map_to_list in Hfc.
  - right. intros f Hf. apply Hc. apply list_elem_of_fmap.
    exists (f, c). split; [done|]. by apply elem_of_map_to_list.
Qed.

(** Step 4 gives different labels to different columns. *)
Lemma renamed_distinct (df_columns : list string) (st : maps) :
  mapping_inv df_columns all_standard st → NoDup df_columns →
  NoDup ((λ c, default c (rename_map st !! c)) <$> df_columns).
Proof.
  intros Hinv. apply NoDup_fmap_2_strong. intros x y Hx Hy Hxy.
  destruct (renamed_label df_columns st x Hinv) as [Hx1 Hx2].
  destruct (renamed_label df_columns st y Hinv) as [Hy1 Hy2].
  assert (Hself : ∀ u v f, u ∈ df_columns → mapping st !! f = Some v →
            default v (rename_map st !! v) = u →
            (∀ g, mapping st !! g ≠ Some u) → False).
  { intros u v f Hu Hm Hdef Hno.
    destruct (renamed_label df_columns st v Hinv) as [Hv _].
    rewrite (Hv f Hm) in Hdef. subst u.
    destruct (mapping_inv_bound _ _ _ _ Hinv Hm) as (Hf & _ & _).
    pose proof (inv_done _ _ _ Hinv f Hf) as Hd.
    rewrite (first_present_self df_columns f Hf Hu) in Hd.
    by apply (Hno f). }
  destruct (bound_or_free st x) as [[f Hf]|Hnx],
           (bound_or_free st y) as [[g Hg]|Hny].
  - rewrite (Hx1 f Hf), (Hy1 g Hg) in Hxy. subst g. congruence.
  - exfalso. apply (Hself y x f Hy Hf); [|done]. by rewrite Hxy, (Hy2 Hny).
  - exfalso. apply (Hself x y g Hx Hg); [|done]. by rewrite <- Hxy, (Hx2 Hnx).
  - by rewrite (Hx2 Hnx), (Hy2 Hny) in Hxy.
Qed.

(** X5. Alias priority: [detect_and_map] binds a standard column to the
    first of its aliases, in the order of [COLUMN_ALIASES], that is a
    column of the normalized frame, and to nothing when none is; names
    outside the standard schema are never bound; a standard name that is
    itself a column is bound to itself. *)
Theorem detect_and_map_first_alias (raw_columns : list string) (f : string) :
  let df_columns := normalized_columns raw_columns in
  let mapping := (detect_and_map raw_columns).1.2 in
  (f ∈ all_standard → mapping !! f = first_present df_columns f) ∧
  (f ∉ all_standard → mapping !! f = None) ∧
  (f ∈ all_standard → f ∈ df_columns → mapping !! f = Some f).
Proof.
  cbv zeta. rewrite detect_and_map_mapping.
  pose proof (build_mapping_inv (normalized_columns raw_columns)) as [Hd Ht _].
  split; [apply Hd|]. split; [apply Ht|].
  intros Hf Hin. rewrite (Hd f Hf). by apply first_present_self.
Qed.

Lemma detect_and_map_first_alias_witness :
  let mapping := (detect_and_map raw_sales).1.2 in
  "revenue" ∈ all_standard ∧
  "sales" ∈ normalized_columns raw_sales ∧
  "amount" ∈ normalized_columns raw_sales ∧
  mapping !! "revenue" = Some "sales" ∧
  "date" ∈ normalized_columns raw_sales ∧
  mapping !! "date" = Some "date" ∧
  mapping !! "sales" = None.
Proof.
  cbv zeta.
  assert (Hrev : "revenue" ∈ all_standard)
    by (apply (bool_decide_unpack _); vm_compute; exact I).
  assert (Hdate : "date" ∈ all_standard)
    by (apply (bool_decide_unpack _); vm_compute; exact I).
  assert (Hin : "date" ∈ normalized_columns raw_sales)
    by (apply (bool_decide_unpack _); vm_compute; exact I).
  refine (conj Hrev (conj _ (conj _ (conj _ (conj Hin (conj _ _)))))).
  - apply (bool_decide_unpack _). vm_compute. exact I.
  - apply (bool_decide_unpack _). vm_compute. exact I.
  - destruct (detect_and_map_first_alias raw_sales "revenue") as (H & _ & _).
    exact (H Hrev).
  - destruct (detect_and_map_first_alias raw_sales "date") as (_ & _ & H).
    exact (H Hdate Hin).
  - destruct (detect_and_map_first_alias raw_sales "sales") as (_ & H & _).
    apply H. apply (bool_decide_unpack _). vm_compute. exact I.
Defined.

(** X6. [missing_required] lists, in the order of [REQUIRED_COLUMNS],
    exactly the required columns none of whose aliases is a column of
    the normalized frame; it is empty exactly when every required
    column has an alias among the columns. *)
Theorem missing_required_spec (raw_columns : list string) :
  let df_columns := normalized_columns raw_columns in
  let missing_required := (detect_and_map raw_columns).2 in
  (∀ f, f ∈ missing_required ↔
        f ∈ config.REQUIRED_COLUMNS ∧
        ∀ a, a ∈ normalized_aliases f → a ∉ df_columns) ∧
  missing_required `sublist_of` config.REQUIRED_COLUMNS ∧
  (missing_required = [] ↔
   ∀ f, f ∈ config.REQUIRED_COLUMNS →
        ∃ a, a ∈ normalized_aliases f ∧ a ∈ df_columns).
Proof.
  cbv zeta.
  pose proof (build_mapping_inv (normalized_columns raw_columns)) as [Hd _ _].
  assert (Hreq : ∀ f, f ∈ config.REQUIRED_COLUMNS → f ∈ all_standard).
  { intros f Hf. apply elem_of_app. by left. }
  assert (Hspec : ∀ f, f ∈ (detect_and_map raw_columns).2 ↔
        f ∈ config.REQUIRED_COLUMNS ∧
        ∀ a, a ∈ normalized_aliases f → a ∉ normalized_columns raw_columns).
  { intros f.
    change ((detect_and_map raw_columns).2)
      with (filter (λ c, mapping (build_mapping (normalized_columns raw_columns)) !! c
                         = None) config.REQUIRED_COLUMNS).
    rewrite list_elem_of_filter.
    split.
    - intros [Hnone Hf]. split; [done|]. apply first_present_None.
      by rewrite <- (Hd f (Hreq f Hf)).
    - intros [Hf Hnone]. split; [|done]. rewrite (Hd f (Hreq f Hf)).
      by apply first_present_None. }
  split; [exact Hspec|]. split; [apply sublist_filter|]. split.
  - intros Hnil f Hf.
    destruct (first_present (normalized_columns raw_columns) f) as [a|] eqn:E.
    + exists a. by apply first_present_alias.
    + exfalso. assert (Hin : f ∈ (detect_and_map raw_columns).2).
      { apply Hspec. split; [done|]. by apply first_present_None. }
      rewrite Hnil in Hin. by apply elem_of_nil in Hin.
  - intros Hall. apply elem_of_nil_inv. intros f Hin.
    apply Hspec in Hin as [Hf Hnone].
    destruct (Hall f Hf) as (a & Ha & Hin). by apply (Hnone a).
Qed.

Lemma missing_required_spec_witness :
  (detect_and_map raw_sales).2 = [] ∧
  (detect_and_map ["Sales"; "Region"]).2 = ["date"; "order_id"; "customer_id"] ∧
  ∀ f, f ∈ config.REQUIRED_COLUMNS →
       ∃ a, a ∈ normalized_aliases f ∧ a ∈ normalized_columns raw_sales.
Proof.
  assert (H : (detect_and_map raw_sales).2 = []) by reflexivity.
  split; [exact H|]. split; [reflexivity|].
  apply (missing_required_spec raw_sales). exact H.
Defined.

(** X7. Step 4 renames in place: the frame keeps its number of
    columns; the column that a standard name is bound to carries that
    standard name afterwards, and a column that nothing is bound to keeps
    its label; so every bound standard name is a column of the mapped
    frame, all four required names are when [missing_required] is empty,
    and distinct labels stay distinct. *)
Theorem detect_and_map_renamed (raw_columns : list string) :
  let df_columns := normalized_columns raw_columns in
  let renamed := (detect_and_map raw_columns).1.1 in
  let mapping := (detect_and_map raw_columns).1.2 in
  length renamed = length raw_columns ∧
  (∀ i c f, df_columns !! i = Some c → mapping !! f = Some c →
            renamed !! i = Some f) ∧
  (∀ i c, df_columns !! i = Some c → (∀ f, mapping !! f ≠ Some c) →
          renamed !! i = Some c) ∧
  (∀ f c, mapping !! f = Some c → f ∈ renamed) ∧
  ((detect_and_map raw_columns).2 = [] →
   ∀ f, f ∈ config.REQUIRED_COLUMNS → f ∈ renamed) ∧
  (NoDup df_columns → NoDup renamed).
Proof.
  cbv zeta. rewrite detect_and_map_mapping.
  set (df_columns := normalized_columns raw_columns).
  set (st := build_mapping df_columns).
  pose proof (build_mapping_inv df_columns) as Hinv. fold st in Hinv.
  change ((detect_and_map raw_columns).1.1)
    with ((λ c, default c (rename_map st !! c)) <$> df_columns).
  change ((detect_and_map raw_columns).2)
    with (filter (λ c, mapping st !! c = None) config.REQUIRED_COLUMNS).
  assert (Hbound : ∀ i c f, df_columns !! i = Some c → mapping st !! f = Some c →
            ((λ c, default c (rename_map st !! c)) <$> df_columns) !! i = Some f).
  { intros i c f Hi Hm. rewrite list_lookup_fmap, Hi.
    change (Some (default c (rename_map st !! c)) = Some f). f_equal.
    by apply (renamed_label df_columns st c Hinv). }
  assert (Hin : ∀ f c, mapping st !! f = Some c →
            f ∈ (λ c, default c (rename_map st !! c)) <$> df_columns).
  { intros f c Hm.
    destruct (mapping_inv_bound _ _ _ _ Hinv Hm) as (_ & _ & Hc).
    apply list_elem_of_lookup in Hc as [i Hi].
    apply list_elem_of_lookup. exists i. by apply (Hbound i c f). }
  split; [|split; [exact Hbound|split; [|split; [exact Hin|split]]]].
  - rewrite length_fmap. unfold df_columns, normalized_columns, _deduplicate_columns.
    by rewrite length_deduplicate_columns_from, length_fmap.
  - intros i c Hi Hno. rewrite list_lookup_fmap, Hi.
    change (Some (default c (rename_map st !! c)) = Some c). f_equal.
    by apply (renamed_label df_columns st c Hinv).
  - intros Hnil f Hf.
    destruct (mapping st !! f) as [c|] eqn:E; [by apply (Hin f c)|].
    assert (Hmiss : f ∈ filter (λ c, mapping st !! c = None) config.REQUIRED_COLUMNS)
      by (apply list_elem_of_filter; split; assumption).
    rewrite Hnil in Hmiss. by apply elem_of_nil in Hmiss.
  - by apply renamed_distinct.
Qed.

Lemma detect_and_map_renamed_witness :
  (detect_and_map raw_sales).1.1
    = ["order_id"; "revenue"; "amount"; "date"; "customer_id"] ∧
  (detect_and_map raw_sales).2 = [] ∧
  (∀ f, f ∈ config.REQUIRED_COLUMNS → f ∈ (detect_and_map raw_sales).1.1) ∧
  NoDup (normalized_columns raw_sales) ∧
  NoDup (detect_and_map raw_sales).1.1.
Proof.
  assert (Hnil : (detect_and_map raw_sales).2 = []) by reflexivity.
  assert (Hnd : NoDup (normalized_columns raw_sales))
    by (apply (bool_decide_unpack _); vm_compute; exact I).
  refine (conj _ (conj Hnil (conj _ (conj Hnd _)))).
  - reflexivity.
  - apply (detect_and_map_renamed raw_sales). exact Hnil.
  - apply (detect_and_map_renamed raw_sales). exact Hnd.
Defined.

End alias_search.

(** ** The cleaning report *)

Section cleaning_report.

Import data_cleaning row_view.

Variable parse_auto : list cell → cell → option Timestamp.
Variable parse_fmt : string → cell → option Timestamp.
Variable to_numeric : string → option Qc.
Variable str_of_num : Qc → string.
Variable str_of_ts : Timestamp → string.

Local Abbreviation clean := (clean parse_auto parse_fmt to_numeric str_of_num str_of_ts).
Local Abbreviation _convert_dates := (_convert_dates parse_auto parse_fmt).

Lemma convert_dates_invalid (series : list cell) :
  (_convert_dates series).2
  = Z.max 0 (Z.of_nat (count_na (_convert_dates series).1)
             - Z.of_nat (count_na series)).
Proof. reflexivity. Qed.

Lemma isna_to_dt (p : cell → option Timestamp) (v : cell) :
  isna v = true → to_dt p v = NaT.
Proof. unfold to_dt. by intros ->. Qed.

Lemma count_na_to_dt (p : cell → option Timestamp) (series : list cell) :
  (count_na series ≤ count_na (to_dt p <$> series))%nat.
Proof.
  unfold count_na. induction series as [|v s IH]; [done|].
  rewrite fmap_cons, !filter_cons.
  destruct (decide (isna v = true)) as [Hv|Hv].
  - rewrite (isna_to_dt p v Hv). rewrite decide_True by done. simpl. lia.
  - destruct (decide (isna (to_dt p v) = true)); simpl; lia.
Qed.

Lemma length_map_cols (cs : list string) (f : cell → cell) (rs : list row) :
  length (map_cols cs f rs) = length rs.
Proof. by rewrite map_cols_rows, length_fmap. Qed.

Lemma length_dropna_date (p : cell → option Timestamp) (rs : list row) :
  (length (dropna_any ["date"]
             ((λ r : row, <["date" := to_dt p (r !!! "date")]> r) <$> rs))
   + count_na (to_dt p <$> col "date" rs) = length rs)%nat.
Proof.
  unfold dropna_any. rewrite filter_fmap, length_fmap.
  pose proof (count_na_notna (to_dt p <$> col "date" rs)) as Hsum.
  rewrite length_fmap in Hsum. unfold col at 3 in Hsum. rewrite length_fmap in Hsum.
  rewrite <- (length_filter_notna (to_dt p) "date" rs) in Hsum.
  assert (Hf : filter (λ r : row, forallb (λ c, notna (<["date" := to_dt p (r !!! "date")]> r !!! c))
                         ["date"] = true) rs
               = filter (λ r : row, isna (to_dt p (r !!! "date")) = false) rs).
  { apply list_filter_iff. intros r. cbn [forallb].
    rewrite lookup_total_insert_eq. unfold notna.
    destruct (isna (to_dt p (r !!! "date"))); simpl; intuition congruence. }
  rewrite Hf. lia.
Qed.

(** X8. [_convert_dates] returns a column of the length of its input
    in which every value is a timestamp or NaT and a missing input is
    NaT; [invalid_count] is the number of NaT values that the conversion
    adds to the missing ones, so the clamp at zero never applies. *)
Theorem convert_dates_invalid_count (series : list cell) :
  let converted := (_convert_dates series).1 in
  let invalid_count := (_convert_dates series).2 in
  length converted = length series ∧
  Forall2 (λ v w, (isna v = true → w = NaT) ∧ (w = NaT ∨ ∃ t, w = Ts t))
          series converted ∧
  (Z.of_nat (count_na converted) = Z.of_nat (count_na series) + invalid_count)%Z ∧
  (0 ≤ invalid_count)%Z.
Proof.
  cbv zeta. rewrite convert_dates_invalid.
  destruct (convert_dates_parser parse_auto parse_fmt series) as [p ->].
  pose proof (count_na_to_dt p series) as Hle.
  split; [by rewrite length_fmap|]. split; [|lia].
  apply Forall2_fmap_r, Forall_Forall2_diag, Forall_forall. intros v _. split.
  - apply isna_to_dt.
  - unfold to_dt. destruct (isna v); [by left|].
    destruct (p v) as [t|]; [right; by exists t | by left].
Qed.

Lemma length_deduplicated (df : DataFrame) :
  (length (deduplicated df) ≤ length (rows df))%nat.
Proof.
  unfold deduplicated. destruct (has_col "order_id" df); [|done].
  apply sublist_length. apply (drop_duplicates_spec "order_id" (rows df)).
Qed.

(** X9. The counters of the cleaning report add up: the rows that
    remain are the original rows less the duplicates removed and the
    null rows dropped.  No counter is negative, the rows with an invalid
    date are among the null rows dropped, and at most four text columns
    are normalized. *)
Theorem clean_report_accounting (df : DataFrame) :
  let out := (clean df).1 in
  let report := (clean df).2 in
  original_rows report = len (rows df) ∧
  final_rows report = len (rows out) ∧
  (final_rows report
   = original_rows report - duplicates_removed report - null_rows_dropped report)%Z ∧
  (0 ≤ final_rows report ≤ original_rows report)%Z ∧
  (0 ≤ duplicates_removed report)%Z ∧
  (0 ≤ invalid_dates report ≤ null_rows_dropped report)%Z ∧
  (0 ≤ invalid_revenue report)%Z ∧
  (0 ≤ negative_revenue report)%Z ∧
  (0 ≤ text_normalized report ≤ 4)%Z.
Proof.
  cbv zeta. unfold data_cleaning.clean. fold (deduplicated df).
  pose proof (convert_dates_invalid (col "date" (deduplicated df))) as Hinv.
  destruct (convert_dates_parser parse_auto parse_fmt (col "date" (deduplicated df)))
    as [p Hp].
  destruct (_convert_dates (col "date" (deduplicated df)))
    as [converted invalid_count] eqn:E.
  cbn [fst snd] in Hp, Hinv. subst converted.
  pose proof (count_na_to_dt p (col "date" (deduplicated df))) as Hna.
  pose proof (length_dropna_date p (deduplicated df)) as Hdate.
  pose proof (length_deduplicated df) as Hdedup.
  assert (Htext : (length (present config.TEXT_COLUMNS df) ≤ 4)%nat)
    by apply (length_filter _ config.TEXT_COLUMNS).
  cbn [fst snd original_rows duplicates_removed null_rows_dropped invalid_dates
       invalid_revenue negative_revenue text_normalized final_rows].
  rewrite set_col_rows.
  set (D := deduplicated df) in *.
  set (R2 := if has_col "date" df
             then dropna_any ["date"]
                    ((λ r : row, <["date" := to_dt p (r !!! "date")]> r) <$> D)
             else D).
  set (R3 := map_cols (present ["revenue"; "cost"; "marketing_spend"] df)
               (_clean_numeric to_numeric) R2).
  set (R4 := match present config.REQUIRED_COLUMNS df with
             | [] => R3
             | _ :: _ => dropna_all (present config.REQUIRED_COLUMNS df) R3
             end).
  set (R6 := map_cols (present config.TEXT_COLUMNS df)
               (normalize_text str_of_num str_of_ts)
               (map_cols (present ["cost"; "marketing_spend"] df) fillna0 R4)).
  assert (H3 : length R3 = length R2) by apply length_map_cols.
  assert (H4 : (length R4 ≤ length R3)%nat).
  { unfold R4. destruct (present config.REQUIRED_COLUMNS df); [done|].
    apply length_filter. }
  assert (H6 : length R6 = length R4) by (unfold R6; by rewrite !length_map_cols).
  assert (Hdup : (if has_col "order_id" df then len (rows df) - len D else 0)%Z
                 = (len (rows df) - len D)%Z).
  { unfold D, deduplicated. destruct (has_col "order_id" df); [done|]. lia. }
  rewrite Hdup. unfold len in *.
  assert (Hrev : ∀ n : nat, (0 ≤ (if has_col "revenue" df then Z.of_nat n else 0))%Z)
    by (intros n; destruct (has_col "revenue" df); lia).
  pose proof (Hrev (count_na (col "revenue" R3))).
  pose proof (Hrev (count_negative (col "revenue" R3))).
  unfold R2 in H3.
  destruct (has_col "date" df); cbn [rows]; rewrite ?length_fmap; lia.
Qed.

End cleaning_report.

(** ** Numeric columns of the cleaned table *)

Section cleaned_numbers.

Import data_cleaning row_view.

Variable parse_auto : list cell → cell → option Timestamp.
Variable parse_fmt : string → cell → option Timestamp.
Variable to_numeric : string → option Qc.
Variable str_of_num : Qc → string.
Variable str_of_ts : Timestamp → string.

Local Abbreviation clean := (clean parse_auto parse_fmt to_numeric str_of_num str_of_ts).
Local Abbreviation row_out := (row_out to_numeric str_of_num str_of_ts).
Local Abbreviation row_kept := (row_kept to_numeric).
Local Abbreviation numeric_step := (numeric_step to_numeric).
Local Abbreviation has_required := (has_required to_numeric).

Ltac present_NoDup :=
  apply NoDup_present; apply (bool_decide_unpack _); vm_compute; exact I.


Lemma stage3_revenue (df : DataFrame) (p : cell → option Timestamp) (r : row) :
  has_col "revenue" df = true →
  numeric_step df (date_step df p r) !!! "revenue"
  = _clean_numeric to_numeric (r !!! "revenue").
Proof.
  intros Hrev. unfold row_view.numeric_step, date_step.
  rewrite row_map_cols_in;
    [ | present_NoDup | apply elem_of_present; split; [left | done] ].
  destruct (has_col "date" df); [|done].
  by rewrite lookup_total_insert_ne.
Qed.

(** The rows after step 3. *)
Lemma clean_stage3 (df : DataFrame) (p : cell → option Timestamp) :
  map_cols (present ["revenue"; "cost"; "marketing_spend"] df)
    (_clean_numeric to_numeric)
    (if has_col "date" df
     then dropna_any ["date"]
            ((λ r : row, <["date" := to_dt p (r !!! "date")]> r) <$> deduplicated df)
     else deduplicated df)
  = (λ r, numeric_step df (date_step df p r))
      <$> filter (has_date df p) (deduplicated df).
Proof.
  rewrite map_cols_rows. unfold dropna_any.
  destruct (has_col "date" df) eqn:Hd.
  - rewrite filter_fmap, <- list_fmap_compose. apply fmap_filter_eq.
    + intros r. unfold row_view.numeric_step, date_step. by rewrite Hd.
    + intros r. unfold has_date. rewrite Hd. cbn [forallb].
      rewrite lookup_total_insert_eq. unfold notna.
      destruct (isna (to_dt p (r !!! "date"))); simpl; intuition congruence.
  - apply fmap_eq_filter.
    + intros r. unfold row_view.numeric_step, date_step. by rewrite Hd.
    + intros r. unfold has_date. by rewrite Hd.
Qed.

Lemma length_filter_fmap_sub {A} (f : A → cell) (Q : cell → Prop)
    `{!∀ v, Decision (Q v)} (P : A → Prop) `{!∀ x, Decision (P x)} (l : list A) :
  (∀ x, x ∈ l → Q (f x) → P x) →
  length (filter Q (f <$> l)) = length (filter Q (f <$> filter P l)).
Proof.
  intros Hsub. induction l as [|x l IH]; [done|].
  rewrite fmap_cons, (filter_cons P), filter_cons.
  assert (IH' : length (filter Q (f <$> l)) = length (filter Q (f <$> filter P l))).
  { apply IH. intros y Hy. apply Hsub. by right. }
  destruct (decide (P x)) as [HP|HP].
  - rewrite fmap_cons, filter_cons. destruct (decide (Q (f x))); simpl; by rewrite IH'.
  - destruct (decide (Q (f x))) as [HQ|HQ]; [|done].
    destruct HP. apply Hsub; [left | done].
Qed.

Lemma filter_sublist {A} (P : A → Prop) `{!∀ x, Decision (P x)} (l1 l2 : list A) :
  l1 `sublist_of` l2 → filter P l1 `sublist_of` filter P l2.
Proof.
  induction 1 as [|x l1 l2 _ IH|x l1 l2 _ IH]; [done| |].
  - rewrite !filter_cons. destruct (decide (P x)); [by apply sublist_skip | done].
  - rewrite filter_cons. destruct (decide (P x)); [by apply sublist_cons | done].
Qed.

(** A row that step 4 drops has no revenue. *)
Lemma dropped_no_revenue (df : DataFrame) (p : cell → option Timestamp) (r : row) :
  has_col "revenue" df = true → ¬ has_required df p r →
  isna (_clean_numeric to_numeric (r !!! "revenue")) = true.
Proof.
  intros Hrev Hdrop. unfold row_view.has_required in Hdrop.
  rewrite <- (stage3_revenue df p r Hrev).
  destruct (forallb _ _) eqn:E; [|by destruct Hdrop].
  rewrite forallb_forall in E. apply E.
  rewrite <- list_elem_of_In, elem_of_present. split; [|done].
  unfold config.REQUIRED_COLUMNS. do 3 right. left.
Qed.

Lemma clean_report_revenue (df : DataFrame) (p : cell → option Timestamp) :
  (_convert_dates parse_auto parse_fmt (col "date" (deduplicated df))).1
    = to_dt p <$> col "date" (deduplicated df) →
  let revenue :=
    (λ r : row, _clean_numeric to_numeric (r !!! "revenue"))
      <$> filter (has_date df p) (deduplicated df) in
  has_col "revenue" df = true →
  invalid_revenue (clean df).2 = Z.of_nat (count_na revenue) ∧
  negative_revenue (clean df).2 = Z.of_nat (count_negative revenue).
Proof.
  intros Hp revenue Hrev. unfold data_cleaning.clean. fold (deduplicated df).
  destruct (_convert_dates parse_auto parse_fmt (col "date" (deduplicated df)))
    as [converted invalid_count] eqn:E.
  cbn [fst] in Hp. subst converted.
  cbn [snd invalid_revenue negative_revenue].
  rewrite set_col_rows, clean_stage3, Hrev.
  assert (Hcol : col "revenue"
            ((λ r, numeric_step df (date_step df p r))
               <$> filter (has_date df p) (deduplicated df)) = revenue).
  { unfold col, revenue. rewrite <- list_fmap_compose. apply list_fmap_ext.
    intros i r _. by apply stage3_revenue. }
  by rewrite Hcol.
Qed.

(** X11. Negative revenue is kept and counted: [negative_revenue] is
    the number of rows of the cleaned table whose revenue is negative.
    [invalid_revenue] is at least the number of cleaned rows without a
    revenue, and equals it when the table has a [date] column. *)
Theorem clean_negative_revenue_kept (df : DataFrame) :
  has_col "revenue" df = true →
  let out := rows (clean df).1 in
  let report := (clean df).2 in
  negative_revenue report = Z.of_nat (count_negative (col "revenue" out)) ∧
  (Z.of_nat (count_na (col "revenue" out)) ≤ invalid_revenue report)%Z ∧
  (has_col "date" df = true →
   invalid_revenue report = Z.of_nat (count_na (col "revenue" out))).
Proof.
  intros Hrev. cbv zeta.
  destruct (clean_rows parse_auto parse_fmt to_numeric str_of_num str_of_ts df)
    as (p & Hrows & Hconv).
  destruct (clean_report_revenue df p Hconv Hrev) as [Hinv Hneg].
  rewrite Hinv, Hneg.
  set (g := λ r : row, _clean_numeric to_numeric (r !!! "revenue")).
  assert (Hout : col "revenue" (rows (clean df).1)
                 = g <$> filter (has_required df p) (filter (has_date df p) (deduplicated df))).
  { unfold col. rewrite Hrows, <- list_fmap_compose, list_filter_filter.
    apply fmap_filter_eq.
    - intros r. by apply row_out_revenue.
    - intros r. unfold row_view.row_kept. tauto. }
  rewrite Hout. split; [|split].
  - f_equal. unfold count_negative.
    apply (length_filter_fmap_sub g _ (has_required df p)).
    intros r _ Hnegative.
    destruct (decide (has_required df p r)) as [|Hdrop]; [done|].
    pose proof (dropped_no_revenue df p r Hrev Hdrop) as Hna.
    unfold g in Hnegative. by destruct (_clean_numeric to_numeric (r !!! "revenue")).
  - apply inj_le. unfold count_na. apply sublist_length, filter_sublist.
    apply fmap_sublist, sublist_filter.
  - intros Hd. do 3 f_equal.
    rewrite list_filter_filter. apply list_filter_iff. intros r.
    pose proof (row_kept_date to_numeric df p r Hd) as Hk.
    unfold row_view.row_kept, has_date in *. rewrite Hd in *.
    split; [|tauto]. intros Hna. pose proof (Hna eq_refl) as Hna'.
    apply Hk in Hna'. tauto.
Qed.

End cleaned_numbers.

Lemma clean_report_accounting_witness :
  let report := (samples.clean report_tables.messy_orders).2 in
  data_cleaning.original_rows report = 4%Z ∧
  data_cleaning.duplicates_removed report = 1%Z ∧
  data_cleaning.null_rows_dropped report = 1%Z ∧
  data_cleaning.invalid_dates report = 1%Z ∧
  data_cleaning.final_rows report = 2%Z ∧
  (data_cleaning.final_rows report
   = data_cleaning.original_rows report - data_cleaning.duplicates_removed report
     - data_cleaning.null_rows_dropped report)%Z.
Proof.
  cbv zeta. repeat (split; [vm_compute; reflexivity|]).
  apply (clean_report_accounting samples.parse_auto samples.parse_fmt
           samples.to_numeric samples.str_of_num samples.str_of_ts
           report_tables.messy_orders).
Defined.


Lemma clean_negative_revenue_kept_witness :
  let out := rows (samples.clean report_tables.messy_orders).1 in
  let report := (samples.clean report_tables.messy_orders).2 in
  has_col "revenue" report_tables.messy_orders = true ∧
  col "revenue" out = [samples.num 1200; samples.num (-5)] ∧
  data_cleaning.negative_revenue report = 1%Z ∧
  data_cleaning.negative_revenue report
    = Z.of_nat (data_cleaning.count_negative (col "revenue" out)).
Proof.
  cbv zeta.
  assert (Hrev : has_col "revenue" report_tables.messy_orders = true) by reflexivity.
  refine (conj Hrev (conj _ (conj _ _))).
  - by_eval.
  - vm_compute. reflexivity.
  - apply (clean_negative_revenue_kept samples.parse_auto samples.parse_fmt
             samples.to_numeric samples.str_of_num samples.str_of_ts
             report_tables.messy_orders Hrev).
Defined.

(** ** Stripping currency symbols *)

Section strip_symbols_facts.

Import pystr data_cleaning text_conditions.

Lemma length_substring_le (n m : nat) (s : string) :
  (String.length (String.substring n m s) ≤ m)%nat.
Proof.
  revert n m. induction s as [|c s IH]; intros n m.
  - destruct n, m; simpl; lia.
  - destruct n as [|n].
    + destruct m as [|m]; simpl; [lia|]. specialize (IH 0%nat m). lia.
    + simpl. apply IH.
Qed.

Lemma substring_all (s : string) : String.substring 0 (String.length s) s = s.
Proof. induction s as [|c s IH]; [done|]. simpl. by rewrite IH. Qed.

Lemma prefix_first (a c : ascii) (r s : string) :
  String.prefix (String a r) (String c s) = true → a = c.
Proof. simpl. by destruct (ascii_dec a c). Qed.

Lemma leading_symbol_in (s sym : string) :
  leading_symbol s = Some sym →
  sym ∈ config.CURRENCY_SYMBOLS ∧ (1 ≤ String.length sym)%nat.
Proof.
  unfold leading_symbol. intros H.
  assert (Hin : sym ∈ filter (λ sym, String.prefix sym s = true) config.CURRENCY_SYMBOLS).
  { destruct (filter _ _) as [|x l]; [done|]. simpl in H. injection H as ->. left. }
  apply list_elem_of_filter in Hin as [_ Hin]. split; [done|].
  assert (Hlen : Forall (λ sym, (1 ≤ String.length sym)%nat) config.CURRENCY_SYMBOLS)
    by (apply (bool_decide_unpack _); vm_compute; exact I).
  rewrite Forall_forall in Hlen. by apply Hlen.
Qed.

Lemma leading_symbol_None (c : ascii) (s : string) :
  leading_symbol (String c s) = None → c ≠ "$"%char ∧ c ≠ ","%char.
Proof.
  unfold leading_symbol. intros H.
  assert (Hnil : filter (λ sym, String.prefix sym (String c s) = true)
                   config.CURRENCY_SYMBOLS = [])
    by (by destruct (filter _ _)).
  split; intros ->.
  - apply (filter_nil_not_elem_of _ _ "$" Hnil); [simpl; by destruct s|].
    unfold config.CURRENCY_SYMBOLS. right. left.
  - apply (filter_nil_not_elem_of _ _ "," Hnil); [simpl; by destruct s|].
    unfold config.CURRENCY_SYMBOLS. do 5 right. left.
Qed.

Lemma strip_symbols_fuel_plain (fuel : nat) (s : string) (c : ascii) :
  (String.length s ≤ fuel)%nat →
  c ∈ String.list_ascii_of_string (strip_symbols_fuel fuel s) → plain_char c.
Proof.
  revert s. induction fuel as [|fuel IH]; intros s Hlen Hc.
  - destruct s; [by apply elem_of_nil in Hc | simpl in Hlen; lia].
  - destruct s as [|d s]; [by apply elem_of_nil in Hc|].
    cbn [strip_symbols_fuel] in Hc.
    destruct (leading_symbol (String d s)) as [sym|] eqn:E.
    + apply leading_symbol_in in E as [_ Hsym].
      apply IH in Hc; [done|].
      pose proof (length_substring_le (String.length sym)
                    (String.length (String d s) - String.length sym) (String d s)).
      simpl in *. lia.
    + apply leading_symbol_None in E as [Hd1 Hd2].
      simpl in Hlen.
      destruct (is_space d) eqn:Hsp.
      * apply IH in Hc; [done | lia].
      * simpl in Hc. apply elem_of_cons in Hc as [->|Hc]; [done|].
        apply IH in Hc; [done | lia].
Qed.

Lemma leading_symbol_ascii (c : ascii) (s : string) :
  (nat_of_ascii c < 128)%nat →
  leading_symbol (String c s)
  = if decide (c = "$"%char) then Some "$"
    else if decide (c = ","%char) then Some "," else None.
Proof.
  intros Hc. unfold leading_symbol.
  destruct (decide (c = "$"%char)) as [->|H1];
    [|destruct (decide (c = ","%char)) as [->|H2]].
  - unfold config.CURRENCY_SYMBOLS.
    rewrite filter_cons, decide_False by (simpl; discriminate).
    rewrite filter_cons, decide_True by (simpl; by destruct s). done.
  - unfold config.CURRENCY_SYMBOLS.
    do 5 (rewrite filter_cons, decide_False by (simpl; discriminate)).
    rewrite filter_cons, decide_True by (simpl; by destruct s). done.
  - rewrite filter_none; [done|]. intros sym Hsym Hp.
    unfold config.CURRENCY_SYMBOLS in Hsym.
    repeat (apply elem_of_cons in Hsym as [->|Hsym]);
      [..|by apply elem_of_nil in Hsym];
      apply prefix_first in Hp; subst c; try done;
      vm_compute in Hc; lia.
Qed.

Lemma substring_tail (c : ascii) (s : string) :
  String.substring 1 (String.length (String c s) - 1) (String c s) = s.
Proof. simpl. rewrite Nat.sub_0_r. apply substring_all. Qed.

Lemma strip_symbols_fuel_ascii (fuel : nat) (s : string) :
  (String.length s ≤ fuel)%nat → is_ascii s →
  String.list_ascii_of_string (strip_symbols_fuel fuel s)
  = filter plain_char (String.list_ascii_of_string s).
Proof.
  revert s. induction fuel as [|fuel IH]; intros s Hlen Hs.
  - destruct s; [done | simpl in Hlen; lia].
  - destruct s as [|d s]; [done|].
    unfold is_ascii in Hs. cbn [String.list_ascii_of_string] in Hs.
    apply Forall_cons in Hs as [Hd Hs]. simpl in Hlen.
    cbn [strip_symbols_fuel String.list_ascii_of_string].
    rewrite filter_cons, (leading_symbol_ascii d s Hd).
    destruct (decide (d = "$"%char)) as [->|H1];
      [|destruct (decide (d = ","%char)) as [->|H2]].
    + change (String.length "$") with 1%nat. rewrite substring_tail.
      rewrite decide_False by (unfold plain_char; tauto).
      apply IH; [lia | done].
    + change (String.length ",") with 1%nat. rewrite substring_tail.
      rewrite decide_False by (unfold plain_char; tauto).
      apply IH; [lia | done].
    + destruct (is_space d) eqn:Hsp.
      * rewrite decide_False by (unfold plain_char; rewrite Hsp; intros [? _]; done).
        apply IH; [lia | done].
      * rewrite decide_True by (unfold plain_char; by rewrite Hsp).
        cbn [String.list_ascii_of_string]. f_equal. apply IH; [lia | done].
Qed.

(** X12. The text that [_clean_numeric] hands to [pd.to_numeric] holds
    no white space, no dollar sign and no comma; on an ASCII text,
    stripping deletes exactly these characters and keeps the others in
    their order. *)
Theorem strip_symbols_plain (s : string) :
  (∀ c, c ∈ String.list_ascii_of_string (strip_symbols s) → plain_char c) ∧
  (is_ascii s →
   String.list_ascii_of_string (strip_symbols s)
   = filter plain_char (String.list_ascii_of_string s)).
Proof.
  split.
  - intros c. by apply strip_symbols_fuel_plain.
  - by apply strip_symbols_fuel_ascii.
Qed.

Lemma strip_symbols_plain_witness :
  is_ascii " $1,200.50 " ∧
  strip_symbols " $1,200.50 " = "1200.50" ∧
  String.list_ascii_of_string (strip_symbols " $1,200.50 ")
  = filter plain_char (String.list_ascii_of_string " $1,200.50 ").
Proof.
  assert (Hs : is_ascii " $1,200.50 ")
    by (apply (bool_decide_unpack _); vm_compute; exact I).
  refine (conj Hs (conj _ _)).
  - reflexivity.
  - apply (strip_symbols_plain " $1,200.50 "). exact Hs.
Defined.

End strip_symbols_facts.

(** ** Group keys and their order *)

Section group_key_facts.

Import config builtins aggregation conditions aggregation_conditions.

Lemma Ts_leb_total (a b : Timestamp) : Ts_leb a b = true ∨ Ts_leb b a = true.
Proof.
  destruct a as [y1 m1 d1 n1], b as [y2 m2 d2 n2]. unfold Ts_leb. simpl.
  rewrite (N.compare_antisym y1 y2), (N.compare_antisym m1 m2),
    (N.compare_antisym d1 d2).
  destruct (y1 ?= y2)%N; simpl; auto.
  destruct (m1 ?= m2)%N; simpl; auto.
  destruct (d1 ?= d2)%N; simpl; auto.
  destruct (N.leb_spec n1 n2); [by left|]. right. apply N.leb_le. lia.
Qed.

Global Instance key_le_total : Total key_le.
Proof.
  intros a b. unfold key_le, key_leb.
  destruct a, b; simpl; try (by left); try (by right).
  - destruct (Qclt_le_dec q q0) as [H|H].
    + left. apply bool_decide_eq_true. by apply Qclt_le_weak.
    + right. by apply bool_decide_eq_true.
  - destruct (total String.le s s0); [left | right]; by apply bool_decide_eq_true.
  - apply Ts_leb_total.
Qed.

Lemma sorted_texts (ss : list string) :
  Sorted key_le (Str <$> ss) → StronglySorted key_le (Str <$> ss).
Proof.
  intros H.
  assert (Hs : Sorted String.le ss).
  { induction ss as [|s ss IH]; [constructor|].
    rewrite fmap_cons in H. apply Sorted_inv in H as [H1 H2].
    constructor; [by apply IH|].
    destruct ss as [|t ss]; [constructor|]. constructor.
    apply HdRel_inv in H2. unfold key_le, key_leb in H2.
    by apply bool_decide_eq_true in H2. }
  apply Sorted_StronglySorted in Hs; [|apply _]. clear H.
  induction Hs as [|s ss _ IH Hall]; [constructor|].
  rewrite fmap_cons. constructor; [done|].
  apply Forall_fmap. eapply Forall_impl; [exact Hall|].
  intros t Ht. unfold key_le, key_leb. by apply bool_decide_eq_true.
Qed.

Lemma texts_of_cells (ks : list cell) :
  Forall (λ k, is_Str k = true) ks → ∃ ss, ks = Str <$> ss.
Proof.
  induction 1 as [|k ks Hk _ [ss ->]]; [by exists []|].
  destruct k; try done. by exists (s :: ss).
Qed.

(** The keys of a group-by on a column without missing values whose
    values can be compared: its distinct values in ascending order. *)
Lemma group_keys_present (c : string) (rs : list row) :
  Forall (λ r : row, isna (r !!! c) = false) rs →
  keys_comparable (remove_dups (col c rs)) = true →
  group_keys c rs = Ok (merge_sort key_le (remove_dups (col c rs))).
Proof.
  intros Hpresent. unfold group_keys.
  assert (filter (λ k, isna k = false) (col c rs) = col c rs) as ->.
  { unfold col. induction Hpresent as [|r rs Hr _ IH]; [done|]. csimpl.
    rewrite filter_cons, IH. rewrite decide_True by exact Hr. done. }
  by intros ->.
Qed.

Lemma keys_comparable_no_numbers (ks : list cell) :
  Forall (λ k, is_Num k = false) ks → keys_comparable ks = true.
Proof.
  intros H. unfold keys_comparable.
  assert (existsb is_Num ks = false) as ->; [|by rewrite andb_false_r].
  apply not_true_iff_false. rewrite existsb_exists.
  intros (k & Hk%list_elem_of_In & Hnum).
  rewrite Forall_forall in H. apply H in Hk. congruence.
Qed.

Lemma Qc_of_nat_S (n : nat) : Qc_of_nat (S n) = (1 + Qc_of_nat n)%Qc.
Proof.
  unfold Qc_of_nat. apply Qc_is_canon. simpl.
  rewrite Qred_correct. unfold Qeq. simpl. lia.
Qed.

(** Counting the present values of a column, as a sum over its rows. *)
Lemma count_as_sum (c : string) (rs : list row) :
  Qc_of_nat (count_notna (col c rs))
  = Qc_sum ((λ r : row, if isna (r !!! c) then 0%Qc else 1%Qc) <$> rs).
Proof.
  unfold count_notna, col. induction rs as [|r rs IH].
  - apply Qc_is_canon. reflexivity.
  - rewrite !fmap_cons, filter_cons. cbn [Qc_sum foldr].
    fold (Qc_sum ((λ r : row, if isna (r !!! c) then 0%Qc else 1%Qc) <$> rs)).
    rewrite <- IH. destruct (isna (r !!! c)) eqn:E.
    + rewrite decide_False by done. ring.
    + rewrite decide_True by done. cbn [length]. apply Qc_of_nat_S.
Qed.

Lemma Qc_sum_Permutation (l1 l2 : list Qc) : l1 ≡ₚ l2 → Qc_sum l1 = Qc_sum l2.
Proof.
  induction 1 as [|x l1 l2 _ IH|x y l|l1 l2 l3 _ IH1 _ IH2]; simpl.
  - done.
  - by rewrite IH.
  - ring.
  - by rewrite IH1.
Qed.

End group_key_facts.

(** ** The monthly summary *)

Section monthly_summary.

Import config builtins aggregation conditions aggregation_conditions summary_conditions.

Lemma monthly_row_fields (df : DataFrame) (k : cell) :
  float_column "revenue" df →
  (has_col "cost" df = true → float_column "cost" df) →
  (has_col "marketing_spend" df = true → float_column "marketing_spend" df) →
  ∃ r', monthly_row (has_col "cost" df) (has_col "marketing_spend" df) (rows df) k
          = Ok r' ∧ month_row df k r'.
Proof.
  intros Hrev Hcost Hspend. unfold monthly_row, month_row, summarizes, column_total.
  rewrite (sum_float_total _ (float_column_group "revenue" "year_month" k df Hrev)).
  cbn [bind].
  destruct (avg_order_value_Ok
              (Qc_sum (cell_number <$> col "revenue" (group "year_month" k (rows df))))
              (pd.count (col "order_id" (group "year_month" k (rows df)))))
    as [aov Haov].
  destruct (has_col "cost" df) eqn:Hc; destruct (has_col "marketing_spend" df) eqn:Hs;
    rewrite ?(sum_float_total _ (float_column_group "cost" "year_month" k df (Hcost eq_refl)));
    rewrite ?(sum_float_total _
                (float_column_group "marketing_spend" "year_month" k df (Hspend eq_refl)));
    cbn [bind]; rewrite Haov; cbn [bind]; eexists; (split; [reflexivity|]);
    unfold pd.count in *;
    repeat split; try discriminate;
    intros; rewrite ?lookup_total_insert_eq;
    repeat (rewrite lookup_total_insert_ne by discriminate;
            rewrite ?lookup_total_insert_eq);
    try reflexivity; exact Haov.
Qed.

Lemma col_of_rows {A} (P : A → row → Prop) (c : string) (f : A → cell)
    (keys : list A) (rs : list row) :
  Forall2 P keys rs → (∀ k r, P k r → r !!! c = f k) → col c rs = f <$> keys.
Proof.
  intros Hrows Hf. unfold col.
  induction Hrows as [|k r ks rs' H _ IH]; [done|].
  csimpl. by rewrite (Hf k r H), IH.
Qed.

(** The monthly summary of a clean table has one row for every
    distinct month, in ascending order. *)
Lemma monthly_rows (df : DataFrame) :
  clean_table df →
  ∃ monthly,
    build_monthly_summary df
      = Ok (mkDF (["year_month"; "total_revenue"; "total_orders"; "unique_customers"]
                    ++ (if has_col "cost" df then ["total_cost"] else [])
                    ++ (if has_col "marketing_spend" df
                        then ["total_marketing_spend"] else [])
                    ++ ["avg_order_value"])
                 monthly) ∧
    Forall2 (month_row df)
      (merge_sort key_le (remove_dups (col "year_month" (rows df)))) monthly.
Proof.
  intros [Hne Hym Hrev Hoid Hcid Hbuckets Hrevf Hcostf Hspendf].
  unfold build_monthly_summary.
  rewrite Hym, (not_empty "year_month" df Hym Hne). cbn [negb orb].
  rewrite monthly_agg_columns by done. cbn [negb].
  rewrite group_keys_present.
  - cbn [bind].
    destruct (traverse_Ok
      (monthly_row (has_col "cost" df) (has_col "marketing_spend" df) (rows df))
      (month_row df)
      (merge_sort key_le (remove_dups (col "year_month" (rows df)))))
      as (monthly & -> & Hrows).
    { intros k _. by apply monthly_row_fields. }
    cbn [bind]. by exists monthly.
  - eapply Forall_impl; [exact Hbuckets|]. intros r Hr. simpl in *.
    destruct (r !!! "year_month"); done.
  - apply keys_comparable_texts, Forall_forall. intros k Hk.
    rewrite elem_of_remove_dups in Hk. unfold col in Hk.
    apply list_elem_of_fmap in Hk as (r & -> & Hr).
    rewrite Forall_forall in Hbuckets. by apply Hbuckets.
Qed.

Lemma month_keys (df : DataFrame) :
  clean_table df →
  let keys := merge_sort key_le (remove_dups (col "year_month" (rows df))) in
  NoDup keys ∧ keys ≡ₚ remove_dups (col "year_month" (rows df)) ∧
  StronglySorted key_le keys ∧ (∀ r, r ∈ rows df → r !!! "year_month" ∈ keys) ∧
  keys ≠ [].
Proof.
  intros Hclean keys.
  assert (Hperm : keys ≡ₚ remove_dups (col "year_month" (rows df)))
    by apply merge_sort_Permutation.
  assert (Hin : ∀ r, r ∈ rows df → r !!! "year_month" ∈ keys).
  { intros r Hr. rewrite Hperm, elem_of_remove_dups.
    unfold col. apply list_elem_of_fmap. eauto. }
  split; [rewrite Hperm; apply NoDup_remove_dups|]. split; [done|].
  split; [|split; [done|]].
  - destruct (texts_of_cells keys) as [ss Hss].
    + apply Forall_forall. intros k Hk. rewrite Hperm, elem_of_remove_dups in Hk.
      unfold col in Hk. apply list_elem_of_fmap in Hk as (r & -> & Hr).
      pose proof (clean_buckets df Hclean) as Hb. rewrite Forall_forall in Hb.
      by apply Hb.
    + rewrite Hss. apply sorted_texts. rewrite <- Hss.
      apply Sorted_merge_sort. apply _.
  - pose proof (clean_nonempty df Hclean) as Hne.
    destruct (rows df) as [|r rs] eqn:E; [done|].
    intros Hnil. specialize (Hin r (list_elem_of_here _ _)).
    rewrite Hnil in Hin. by apply elem_of_nil in Hin.
Qed.

(** X13. The monthly summary of a clean table has exactly one row for
    each distinct month of the table, in ascending order of the month
    label, and at least one row. *)
Theorem monthly_months_ascending (df : DataFrame) :
  clean_table df →
  ∃ monthly, build_monthly_summary df = Ok monthly ∧
    col "year_month" (rows monthly) ≡ₚ remove_dups (col "year_month" (rows df)) ∧
    NoDup (col "year_month" (rows monthly)) ∧
    StronglySorted key_le (col "year_month" (rows monthly)) ∧
    rows monthly ≠ [] ∧
    has_col "year_month" monthly = true ∧
    has_col "total_revenue" monthly = true.
Proof.
  intros Hclean.
  destruct (monthly_rows df Hclean) as (monthly & Hbuild & Hrows).
  destruct (month_keys df Hclean) as (Hnd & Hperm & Hsorted & _ & Hne).
  eexists. split; [exact Hbuild|]. cbn [rows].
  rewrite (col_of_rows (month_row df) "year_month" id _ _ Hrows)
    by (by intros k r [H _]).
  rewrite list_fmap_id. repeat split; try done.
  intros ->. apply Forall2_nil_inv_r in Hrows. done.
Qed.

(** The group totals of a measure add up to its total over the table. *)
Lemma sum_over_groups (c : string) (f : row → Qc) (keys : list cell) (rs : list row) :
  NoDup keys → (∀ r, r ∈ rs → r !!! c ∈ keys) →
  pd.sum ((λ k, Num (Qc_sum (f <$> group c k rs))) <$> keys)
  = Ok (Num (Qc_sum (f <$> rs))).
Proof.
  intros Hnd Hall.
  rewrite sum_float_total by (apply Forall_fmap, Forall_forall; done).
  rewrite <- list_fmap_compose. do 2 f_equal.
  by rewrite <- (Qc_sum_groups c f keys rs Hnd Hall).
Qed.

Lemma column_total_as_sum (c : string) (rs : list row) :
  column_total c rs = Qc_sum ((λ r : row, cell_number (r !!! c)) <$> rs).
Proof. unfold column_total, col. by rewrite <- list_fmap_compose. Qed.

Lemma sum_group_totals (key c : string) (keys : list cell) (rs : list row) :
  NoDup keys → (∀ r, r ∈ rs → r !!! key ∈ keys) →
  pd.sum ((λ k, Num (column_total c (group key k rs))) <$> keys)
  = Ok (Num (column_total c rs)).
Proof.
  intros Hnd Hall. rewrite column_total_as_sum.
  rewrite <- (sum_over_groups key _ keys rs Hnd Hall). f_equal.
  apply list_fmap_ext. intros i k _. by rewrite column_total_as_sum.
Qed.

Lemma sum_group_counts (key c : string) (keys : list cell) (rs : list row) :
  NoDup keys → (∀ r, r ∈ rs → r !!! key ∈ keys) →
  pd.sum ((λ k, Num (Qc_of_nat (count_notna (col c (group key k rs))))) <$> keys)
  = Ok (Num (Qc_of_nat (count_notna (col c rs)))).
Proof.
  intros Hnd Hall. rewrite count_as_sum.
  rewrite <- (sum_over_groups key _ keys rs Hnd Hall). f_equal.
  apply list_fmap_ext. intros i k _. by rewrite count_as_sum.
Qed.

(** X14. The monthly summary accounts for every order, cost and
    marketing spend of a clean table: the monthly order counts add up
    to the number of rows with an order id, and the monthly costs and
    marketing spends add up to the totals of their columns. *)
Theorem monthly_orders_and_costs_conserved (df : DataFrame) :
  clean_table df →
  ∃ monthly, build_monthly_summary df = Ok monthly ∧
    pd.sum (col "total_orders" (rows monthly))
      = Ok (Num (Qc_of_nat (count_notna (col "order_id" (rows df))))) ∧
    (has_col "cost" df = true →
     pd.sum (col "total_cost" (rows monthly))
       = Ok (Num (column_total "cost" (rows df)))) ∧
    (has_col "marketing_spend" df = true →
     pd.sum (col "total_marketing_spend" (rows monthly))
       = Ok (Num (column_total "marketing_spend" (rows df)))).
Proof.
  intros Hclean.
  destruct (monthly_rows df Hclean) as (monthly & Hbuild & Hrows).
  destruct (month_keys df Hclean) as (Hnd & _ & _ & Hall & _).
  eexists. split; [exact Hbuild|]. cbn [rows]. split; [|split].
  - rewrite (col_of_rows (month_row df) "total_orders"
               (λ k, Num (Qc_of_nat (count_notna
                            (col "order_id" (group "year_month" k (rows df))))))
               _ _ Hrows)
      by (intros k r (_ & (_ & H & _) & _); exact H).
    by apply sum_group_counts.
  - intros Hcost.
    rewrite (col_of_rows (month_row df) "total_cost"
               (λ k, Num (column_total "cost" (group "year_month" k (rows df))))
               _ _ Hrows)
      by (intros k r (_ & _ & H & _); exact (H Hcost)).
    by apply sum_group_totals.
  - intros Hspend.
    rewrite (col_of_rows (month_row df) "total_marketing_spend"
               (λ k, Num (column_total "marketing_spend"
                            (group "year_month" k (rows df))))
               _ _ Hrows)
      by (intros k r (_ & _ & _ & H); exact (H Hspend)).
    by apply sum_group_totals.
Qed.

End monthly_summary.

(** ** The daily and the segment summaries *)

Section daily_and_segments.

Import config builtins data_cleaning row_view aggregation conditions
  aggregation_conditions summary_conditions.

Lemma Ts_leb_trans (a b c : Timestamp) :
  Ts_leb a b = true → Ts_leb b c = true → Ts_leb a c = true.
Proof.
  destruct a as [y1 m1 d1 n1], b as [y2 m2 d2 n2], c as [y3 m3 d3 n3].
  unfold Ts_leb. simpl.
  destruct (N.compare_spec y1 y2), (N.compare_spec y2 y3); try done;
    destruct (N.compare_spec y1 y3); try done; try lia;
  destruct (N.compare_spec m1 m2), (N.compare_spec m2 m3); try done;
    destruct (N.compare_spec m1 m3); try done; try lia;
  destruct (N.compare_spec d1 d2), (N.compare_spec d2 d3); try done;
    destruct (N.compare_spec d1 d3); try done; try lia.
  rewrite !N.leb_le. lia.
Qed.

Lemma sorted_timestamps (ks : list cell) :
  Forall (λ k, is_Ts k = true) ks → Sorted key_le ks → StronglySorted key_le ks.
Proof.
  intros Hts Hs. induction Hs as [|k ks Hs IH Hd]; [constructor|].
  apply Forall_cons in Hts as [Hk Hts]. specialize (IH Hts).
  constructor; [done|].
  destruct Hd as [|k' ks' Hkk']; [constructor|].
  apply StronglySorted_inv in IH as [_ Hall].
  apply Forall_cons in Hts as [Hk' Hts].
  constructor; [done|].
  rewrite Forall_forall in Hall, Hts. apply Forall_forall. intros x Hin.
  pose proof (Hall x Hin) as Hx. pose proof (Hts x Hin) as Hxts.
  destruct k, k', x; try done.
  unfold key_le, key_leb in *. by apply (Ts_leb_trans _ t0).
Qed.

Lemma daily_row_fields (df : DataFrame) (k : cell) :
  float_column "revenue" df →
  ∃ r', daily_row (rows df) k = Ok r' ∧ day_row df k r'.
Proof.
  intros Hrev. unfold daily_row, day_row, column_total.
  rewrite (sum_float_total _ (float_column_group "revenue" "date" k df Hrev)).
  cbn [bind]. eexists. split; [reflexivity|]. unfold pd.count.
  repeat split;
    repeat (rewrite lookup_total_insert_ne by discriminate);
    by rewrite lookup_total_insert_eq.
Qed.

Lemma daily_rows (df : DataFrame) :
  daily_table df → rows df ≠ [] →
  ∃ daily,
    build_daily_summary df = Ok (mkDF ["date"; "daily_revenue"; "daily_orders"] daily) ∧
    Forall2 (day_row df) (merge_sort key_le (remove_dups (col "date" (rows df)))) daily.
Proof.
  intros [Hd Hrev Hoid Hdates Hrevf] Hne.
  unfold build_daily_summary.
  rewrite Hd, (not_empty "date" df Hd Hne). cbn [negb orb].
  assert (agg_columns_exist "date" ["revenue"; "order_id"] df = true) as ->.
  { unfold agg_columns_exist. cbn [forallb]. rewrite Hrev, Hoid. reflexivity. }
  cbn [negb]. rewrite group_keys_present.
  - cbn [bind].
    destruct (traverse_Ok (daily_row (rows df)) (day_row df)
                (merge_sort key_le (remove_dups (col "date" (rows df)))))
      as (daily & -> & Hrows).
    { intros k _. by apply daily_row_fields. }
    cbn [bind]. by exists daily.
  - eapply Forall_impl; [exact Hdates|]. intros r Hr. simpl in *.
    destruct (r !!! "date"); done.
  - apply keys_comparable_no_numbers, Forall_forall. intros k Hk.
    rewrite elem_of_remove_dups in Hk. unfold col in Hk.
    apply list_elem_of_fmap in Hk as (r & -> & Hr).
    rewrite Forall_forall in Hdates. specialize (Hdates r Hr). simpl in Hdates.
    destruct (r !!! "date"); done.
Qed.

Lemma segment_row_fields (df : DataFrame) (segment_col : string) (k : cell) :
  float_column "revenue" df →
  ∃ r', segment_row segment_col (rows df) k = Ok r' ∧ segment_row_of df segment_col k r'.
Proof.
  intros Hrev. unfold segment_row, segment_row_of, summarizes, column_total.
  rewrite (sum_float_total _ (float_column_group "revenue" segment_col k df Hrev)).
  cbn [bind].
  destruct (avg_order_value_Ok
              (Qc_sum (cell_number <$> col "revenue" (group segment_col k (rows df))))
              (pd.count (col "order_id" (group segment_col k (rows df)))))
    as [aov Haov].
  rewrite Haov. cbn [bind]. eexists. split; [reflexivity|]. unfold pd.count in *.
  repeat split;
    repeat (rewrite lookup_total_insert_ne by discriminate);
    rewrite ?lookup_total_insert_eq; try reflexivity.
  repeat (rewrite lookup_total_insert_ne by discriminate).
  rewrite lookup_total_insert_eq. exact Haov.
Qed.

Lemma segment_rows_full (df : DataFrame) (segment_col : string) :
  segment_table df segment_col → rows df ≠ [] →
  ∃ keys unsorted,
    NoDup keys ∧ (∀ r, r ∈ rows df → r !!! segment_col ∈ keys) ∧
    Forall2 (segment_row_of df segment_col) keys unsorted ∧
    ∀ sort, build_segment_summary sort df segment_col
            = Ok (mkDF ["segment"; "total_revenue"; "total_orders";
                        "unique_customers"; "avg_order_value"]
                       (sort unsorted)).
Proof.
  intros Hseg Hne. pose proof (segment_agg_columns df segment_col Hseg) as Hagg.
  destruct Hseg as [Hcol Hother H1 H2 H3 Htexts Hrevf].
  destruct (group_keys_texts segment_col (rows df) Htexts)
    as (keys & Hkeys & Hnd & Hperm & Hall).
  destruct (traverse_Ok (segment_row segment_col (rows df))
              (segment_row_of df segment_col) keys) as (unsorted & Htrav & Hrows).
  { intros k _. by apply segment_row_fields. }
  exists keys, unsorted. repeat split; try done.
  intros sort. unfold build_segment_summary.
  rewrite Hcol, (not_empty segment_col df Hcol Hne). cbn [negb orb].
  rewrite Hagg, Hkeys. cbn [negb bind]. by rewrite Htrav.
Qed.

Lemma sum_Permutation (s1 s2 : list cell) : s1 ≡ₚ s2 → pd.sum s1 = pd.sum s2.
Proof.
  intros Hperm. unfold pd.sum.
  assert (H : ∀ s1 s2, s1 ≡ₚ s2 →
            match numbers_skipna s1, numbers_skipna s2 with
            | Some q1, Some q2 => q1 ≡ₚ q2
            | None, None => True
            | _, _ => False
            end).
  { clear. induction 1 as [|x l1 l2 _ IH|x y l|l1 l2 l3 _ IH1 _ IH2].
    - simpl. constructor.
    - destruct x; simpl;
        destruct (numbers_skipna l1), (numbers_skipna l2); simpl; try done.
      by constructor.
    - destruct x, y; simpl; destruct (numbers_skipna l); simpl; try done.
      apply perm_swap.
    - destruct (numbers_skipna l1), (numbers_skipna l2), (numbers_skipna l3);
        try done. by etrans. }
  specialize (H s1 s2 Hperm).
  destruct (numbers_skipna s1), (numbers_skipna s2); try done.
  by rewrite (Qc_sum_Permutation _ _ H).
Qed.

Lemma descending_head (top : row) (rest : list row) (r : row) :
  Sorted samples.revenue_ge (top :: rest) → r ∈ top :: rest →
  (total_revenue_of r ≤ total_revenue_of top)%Qc.
Proof.
  intros Hs Hr. apply Sorted_StronglySorted in Hs; [|apply _].
  apply StronglySorted_inv in Hs as [_ Hall].
  apply elem_of_cons in Hr as [->|Hr]; [apply Qcle_refl|].
  rewrite Forall_forall in Hall. by apply Hall.
Qed.

Lemma descending_last (init : list row) (bottom r : row) :
  Sorted samples.revenue_ge (init ++ [bottom]) → r ∈ init ++ [bottom] →
  (total_revenue_of bottom ≤ total_revenue_of r)%Qc.
Proof.
  intros Hs Hr. apply Sorted_StronglySorted in Hs; [|apply _].
  induction init as [|x init IH].
  - apply list_elem_of_singleton in Hr as ->. apply Qcle_refl.
  - simpl in Hs. apply StronglySorted_inv in Hs as [Hs Hall].
    apply elem_of_cons in Hr as [->|Hr]; [|by apply IH].
    rewrite Forall_forall in Hall. apply (Hall bottom).
    apply elem_of_app. right. left.
Qed.

(** X15. The segment summary accounts for the whole table whatever
    order the sort leaves ties in: the segment revenues add up to the
    revenue of the table and the segment order counts to the number of
    rows with an order id.  Its first row, which the segment analysis
    reports as the top segment, has the largest revenue, and its last
    row the smallest. *)
Theorem segment_summary_conserved (sort : list row → list row) (df : DataFrame)
    (segment_col : string) :
  sorts_descending sort → segment_table df segment_col →
  ∃ segment, build_segment_summary sort df segment_col = Ok segment ∧
    pd.sum (col "total_revenue" (rows segment))
      = Ok (Num (column_total "revenue" (rows df))) ∧
    pd.sum (col "total_orders" (rows segment))
      = Ok (Num (Qc_of_nat (count_notna (col "order_id" (rows df))))) ∧
    (∀ top rest r, rows segment = top :: rest → r ∈ rows segment →
       (total_revenue_of r ≤ total_revenue_of top)%Qc) ∧
    (∀ init bottom r, rows segment = init ++ [bottom] → r ∈ rows segment →
       (total_revenue_of bottom ≤ total_revenue_of r)%Qc).
Proof.
  intros [Hperm Hsorted] Hseg.
  destruct (decide (rows df = [])) as [Hnil|Hne].
  { exists empty_frame. split.
    - unfold build_segment_summary, pd.empty. by rewrite Hnil, orb_true_r.
    - rewrite Hnil. cbn [rows empty_frame col fmap list_fmap].
      unfold column_total, count_notna. cbn.
      rewrite Qc_of_Z_0 at 1.
      repeat split; try done; intros; by destruct init. }
  destruct (segment_rows_full df segment_col Hseg Hne)
    as (keys & unsorted & Hnd & Hall & Hrows & Hbuild).
  eexists. split; [apply Hbuild|]. cbn [rows].
  split; [|split; [|split]].
  - rewrite (sum_Permutation (col "total_revenue" (sort unsorted))
               (col "total_revenue" unsorted))
      by (unfold col; by rewrite Hperm).
    rewrite (col_of_rows (segment_row_of df segment_col) "total_revenue"
               (λ k, Num (column_total "revenue" (group segment_col k (rows df))))
               _ _ Hrows)
      by (intros k r (_ & H & _); exact H).
    by apply sum_group_totals.
  - rewrite (sum_Permutation (col "total_orders" (sort unsorted))
               (col "total_orders" unsorted))
      by (unfold col; by rewrite Hperm).
    rewrite (col_of_rows (segment_row_of df segment_col) "total_orders"
               (λ k, Num (Qc_of_nat (count_notna
                            (col "order_id" (group segment_col k (rows df))))))
               _ _ Hrows)
      by (intros k r (_ & _ & H & _); exact H).
    by apply sum_group_counts.
  - intros top rest r Heq Hr. rewrite Heq in Hr.
    apply (descending_head top rest r); [|done]. rewrite <- Heq. apply Hsorted.
  - intros init bottom r Heq Hr. rewrite Heq in Hr.
    apply (descending_last init bottom r); [|done]. rewrite <- Heq. apply Hsorted.
Qed.

Variable parse_auto : list cell → cell → option Timestamp.
Variable parse_fmt : string → cell → option Timestamp.
Variable to_numeric : string → option Qc.
Variable str_of_num : Qc → string.
Variable str_of_ts : Timestamp → string.

Local Abbreviation clean := (clean parse_auto parse_fmt to_numeric str_of_num str_of_ts).

(** The cleaner hands a daily table to [build_daily_summary]. *)
Lemma clean_is_daily_table (mapped : DataFrame) :
  Forall (λ c, has_col c mapped = true) REQUIRED_COLUMNS →
  daily_table (clean mapped).1.
Proof.
  intros Hreq. rewrite Forall_forall in Hreq.
  assert (Hd : has_col "date" mapped = true) by (apply Hreq; set_solver).
  assert (Hrev : has_col "revenue" mapped = true) by (apply Hreq; set_solver).
  assert (Hoid : has_col "order_id" mapped = true) by (apply Hreq; set_solver).
  destruct (clean_rows parse_auto parse_fmt to_numeric str_of_num str_of_ts mapped)
    as (p & Hrows & _).
  constructor; try (by apply clean_has_col).
  - rewrite Hrows. apply Forall_fmap, Forall_forall.
    intros r [Hkept _]%list_elem_of_filter. simpl.
    destruct (row_out_date to_numeric str_of_num str_of_ts mapped p r Hd) as [-> _].
    apply (row_kept_date to_numeric mapped p r Hd) in Hkept.
    by destruct (to_dt_notna p _ Hkept) as [t ->].
  - unfold float_column, col. rewrite Hrows, <- list_fmap_compose.
    apply Forall_fmap, Forall_forall. intros r _. simpl.
    rewrite (row_out_revenue to_numeric str_of_num str_of_ts mapped p r Hrev).
    apply clean_numeric_float.
Qed.

(** X16. The daily summary of a cleaned table has one row for each
    distinct date, in ascending order; the daily revenues add up to the
    revenue of the table and the daily order counts to the number of
    rows with an order id.  The output of [clean] on a mapped table
    with the four required columns is such a table. *)
Theorem daily_summary_conserved :
  (∀ df, daily_table df → rows df ≠ [] →
     ∃ daily, build_daily_summary df = Ok daily ∧
       col "date" (rows daily) ≡ₚ remove_dups (col "date" (rows df)) ∧
       NoDup (col "date" (rows daily)) ∧
       StronglySorted key_le (col "date" (rows daily)) ∧
       pd.sum (col "daily_revenue" (rows daily))
         = Ok (Num (column_total "revenue" (rows df))) ∧
       pd.sum (col "daily_orders" (rows daily))
         = Ok (Num (Qc_of_nat (count_notna (col "order_id" (rows df)))))) ∧
  (∀ mapped, Forall (λ c, has_col c mapped = true) REQUIRED_COLUMNS →
     daily_table (clean mapped).1).
Proof.
  split; [|apply clean_is_daily_table].
  intros df Hdaily Hne.
  destruct (daily_rows df Hdaily Hne) as (daily & Hbuild & Hrows).
  set (keys := merge_sort key_le (remove_dups (col "date" (rows df)))) in *.
  assert (Hperm : keys ≡ₚ remove_dups (col "date" (rows df)))
    by apply merge_sort_Permutation.
  assert (Hnd : NoDup keys) by (rewrite Hperm; apply NoDup_remove_dups).
  assert (Hall : ∀ r, r ∈ rows df → r !!! "date" ∈ keys).
  { intros r Hr. rewrite Hperm, elem_of_remove_dups.
    unfold col. apply list_elem_of_fmap. eauto. }
  eexists. split; [exact Hbuild|]. cbn [rows].
  rewrite (col_of_rows (day_row df) "date" id _ _ Hrows) by (by intros k r [H _]).
  rewrite (col_of_rows (day_row df) "daily_revenue"
             (λ k, Num (column_total "revenue" (group "date" k (rows df)))) _ _ Hrows)
    by (intros k r (_ & H & _); exact H).
  rewrite (col_of_rows (day_row df) "daily_orders"
             (λ k, Num (Qc_of_nat (count_notna (col "order_id" (group "date" k (rows df))))))
             _ _ Hrows)
    by (intros k r (_ & _ & H); exact H).
  rewrite list_fmap_id.
  split; [done|]. split; [done|]. split; [|split].
  - apply sorted_timestamps; [|apply Sorted_merge_sort; apply _].
    apply Forall_forall. intros k Hk. rewrite Hperm, elem_of_remove_dups in Hk.
    unfold col in Hk. apply list_elem_of_fmap in Hk as (r & -> & Hr).
    pose proof (daily_dates df Hdaily) as Hts. rewrite Forall_forall in Hts.
    by apply Hts.
  - by apply sum_group_totals.
  - by apply sum_group_counts.
Qed.

End daily_and_segments.

(** ** The summaries on sample tables *)

Lemma monthly_months_ascending_witness :
  let df := (samples.clean report_tables.messy_orders).1 in
  aggregation_conditions.clean_table df ∧
  ∃ monthly, aggregation.build_monthly_summary df = Ok monthly ∧
    col "year_month" (rows monthly) = [Str "2024-01"; Str "2024-02"] ∧
    StronglySorted key_le (col "year_month" (rows monthly)).
Proof.
  cbv zeta.
  assert (Hclean : aggregation_conditions.clean_table
                     (samples.clean report_tables.messy_orders).1)
    by (split; intros; by_eval).
  split; [exact Hclean|].
  destruct (monthly_months_ascending _ Hclean)
    as (monthly & Hbuild & _ & _ & Hsorted & _).
  exists monthly. split; [exact Hbuild|]. split; [|exact Hsorted].
  assert (Heq : Ok monthly = aggregation.build_monthly_summary
                               (samples.clean report_tables.messy_orders).1)
    by (symmetry; exact Hbuild).
  vm_compute in Heq. apply Ok_inj in Heq. subst monthly. by_eval.
Defined.

Lemma monthly_orders_and_costs_conserved_witness :
  let df := (samples.clean report_tables.messy_orders).1 in
  aggregation_conditions.clean_table df ∧
  has_col "cost" df = true ∧
  ∃ monthly, aggregation.build_monthly_summary df = Ok monthly ∧
    pd.sum (col "total_orders" (rows monthly)) = Ok (samples.num 2) ∧
    pd.sum (col "total_cost" (rows monthly))
      = Ok (Num (aggregation_conditions.column_total "cost" (rows df))).
Proof.
  cbv zeta.
  assert (Hclean : aggregation_conditions.clean_table
                     (samples.clean report_tables.messy_orders).1)
    by (split; intros; by_eval).
  assert (Hcost : has_col "cost" (samples.clean report_tables.messy_orders).1 = true)
    by by_eval.
  split; [exact Hclean|]. split; [exact Hcost|].
  destruct (monthly_orders_and_costs_conserved _ Hclean)
    as (monthly & Hbuild & Horders & Hcosts & _).
  exists monthly. split; [exact Hbuild|]. split; [|exact (Hcosts Hcost)].
  rewrite Horders. by_eval.
Defined.

Lemma daily_summary_conserved_witness :
  let df := (samples.clean report_tables.messy_orders).1 in
  Forall (λ c, has_col c report_tables.messy_orders = true) config.REQUIRED_COLUMNS ∧
  summary_conditions.daily_table df ∧
  rows df ≠ [] ∧
  ∃ daily, aggregation.build_daily_summary df = Ok daily ∧
    col "date" (rows daily) = [Ts (mkTs 2024 1 5 0); Ts (mkTs 2024 2 1 0)] ∧
    pd.sum (col "daily_revenue" (rows daily)) = Ok (samples.num 1195) ∧
    pd.sum (col "daily_orders" (rows daily)) = Ok (samples.num 2).
Proof.
  cbv zeta.
  assert (Hreq : Forall (λ c, has_col c report_tables.messy_orders = true)
                        config.REQUIRED_COLUMNS) by by_eval.
  assert (Hne : rows (samples.clean report_tables.messy_orders).1 ≠ []) by by_eval.
  destruct (daily_summary_conserved samples.parse_auto samples.parse_fmt
              samples.to_numeric samples.str_of_num samples.str_of_ts)
    as [Hsum Hout].
  pose proof (Hout report_tables.messy_orders Hreq) as Hdaily.
  split; [exact Hreq|]. split; [exact Hdaily|]. split; [exact Hne|].
  destruct (Hsum _ Hdaily Hne) as (daily & Hbuild & _ & _ & _ & Hrev & Horders).
  exists daily. split; [exact Hbuild|].
  rewrite Hrev, Horders.
  assert (Heq : Ok daily = aggregation.build_daily_summary
                             (samples.clean report_tables.messy_orders).1)
    by (symmetry; exact Hbuild).
  vm_compute in Heq. apply Ok_inj in Heq. subst daily.
  split; [by_eval|]. split; by_eval.
Defined.

Lemma segment_summary_conserved_witness :
  aggregation_conditions.sorts_descending samples.stable_sort_desc ∧
  aggregation_conditions.segment_table aggregation_conditions.segments_abc "channel" ∧
  ∃ segment,
    aggregation.build_segment_summary samples.stable_sort_desc
      aggregation_conditions.segments_abc "channel" = Ok segment ∧
    pd.sum (col "total_revenue" (rows segment)) = Ok (samples.num 650) ∧
    pd.sum (col "total_orders" (rows segment)) = Ok (samples.num 4).
Proof.
  assert (Hseg : aggregation_conditions.segment_table
                   aggregation_conditions.segments_abc "channel")
    by (split; by_eval).
  split; [exact stable_sort_desc_ok|]. split; [exact Hseg|].
  destruct (segment_summary_conserved samples.stable_sort_desc
              aggregation_conditions.segments_abc "channel"
              stable_sort_desc_ok Hseg)
    as (segment & Hbuild & Hrev & Horders & _).
  exists segment. split; [exact Hbuild|]. rewrite Hrev, Horders. split; by_eval.
Defined.

(** ** Rounding and the average order value *)

Section rounding.

Import config builtins aggregation aggregation_conditions summary_conditions.

Lemma round_half_even_close (x : Q) :
  let z := round_half_even x in
  (2 * (z * QDen x) - 2 * Qnum x ≤ QDen x ∧
   2 * Qnum x - 2 * (z * QDen x) ≤ QDen x)%Z.
Proof.
  unfold round_half_even. set (n := Qnum x). set (d := Z.pos (Qden x)).
  assert (Hd : (0 < d)%Z) by (unfold d; lia).
  pose proof (Z.div_mod n d ltac:(lia)) as Hdiv.
  pose proof (Z.mod_pos_bound n d Hd) as Hmod.
  set (f := (n / d)%Z) in *. set (r := (n mod d)%Z) in *.
  assert (Hfd : (f * d = n - r)%Z) by lia.
  destruct (Z.compare_spec (2 * r) d) as [H|H|H].
  - destruct (Z.even f); lia.
  - lia.
  - lia.
Qed.

Lemma round2_Qc_close (q : Qc) :
  (round2_Qc q - q ≤ Q2Qc (1 # 200))%Qc ∧ (q - round2_Qc q ≤ Q2Qc (1 # 200))%Qc.
Proof.
  unfold Qcle. rewrite !Qc_this_minus.
  assert (Hr : (this (round2_Qc q) == (round_half_even (this q * 100) # 100))%Q)
    by (unfold round2_Qc; simpl; apply Qred_correct).
  assert (Hc : (this (Q2Qc (1 # 200)) == (1 # 200))%Q) by (simpl; apply Qred_correct).
  rewrite Hr, Hc.
  pose proof (round_half_even_close (this q * 100)) as Hclose.
  cbv zeta in Hclose.
  set (z := round_half_even (this q * 100)) in *.
  destruct (this q) as [a b]. simpl in Hclose.
  rewrite Pos.mul_1_r in Hclose.
  unfold Qle, Qminus, Qplus, Qopp. simpl. lia.
Qed.

Lemma Qc_of_nat_0 (n : nat) : Qc_of_nat n = 0%Qc → n = 0%nat.
Proof.
  unfold Qc_of_nat. intros H. apply (f_equal this) in H. simpl in H.
  injection H as H. lia.
Qed.

Lemma avg_order_value_close (total : Qc) (n : nat) :
  ∃ aov, avg_order_value (Num total) (Num (Qc_of_nat n)) = Ok (Num aov) ∧
    (n = 0%nat → aov = 0%Qc) ∧
    (n ≠ 0%nat →
     (aov - total / Qc_of_nat n ≤ Q2Qc (1 # 200))%Qc ∧
     (total / Qc_of_nat n - aov ≤ Q2Qc (1 # 200))%Qc).
Proof.
  unfold avg_order_value, safe_divide, none_or_zero.
  destruct (decide (n = 0%nat)) as [->|Hn].
  - exists 0%Qc. split; [|by split].
    rewrite bool_decide_eq_true_2 by (apply Qc_is_canon; reflexivity).
    unfold default_0, round2. by rewrite round2_Qc_0.
  - rewrite bool_decide_eq_false_2 by (intros H; by apply Qc_of_nat_0 in H).
    cbn [py_div round2]. eexists. split; [reflexivity|]. split; [done|].
    intros _. apply round2_Qc_close.
Qed.

(** X17. In the monthly summary of a clean table, the average order
    value of a month is its revenue divided by its number of orders,
    rounded to two decimals: it lies within 0.005 of the quotient, and
    it is 0 for a month in which no row has an order id. *)
Theorem monthly_avg_order_value (df : DataFrame) :
  clean_table df →
  ∃ monthly, build_monthly_summary df = Ok monthly ∧
    ∀ r', r' ∈ rows monthly →
      ∃ (revenue : Qc) (orders : nat) (aov : Qc),
        r' !!! "total_revenue" = Num revenue ∧
        r' !!! "total_orders" = Num (Qc_of_nat orders) ∧
        r' !!! "avg_order_value" = Num aov ∧
        (orders = 0%nat → aov = 0%Qc) ∧
        (orders ≠ 0%nat →
         (aov - revenue / Qc_of_nat orders ≤ Q2Qc (1 # 200))%Qc ∧
         (revenue / Qc_of_nat orders - aov ≤ Q2Qc (1 # 200))%Qc).
Proof.
  intros Hclean.
  destruct (monthly_rows df Hclean) as (monthly & Hbuild & Hrows).
  eexists. split; [exact Hbuild|]. cbn [rows]. intros r' Hr'.
  apply list_elem_of_lookup in Hr' as [i Hi].
  destruct (Forall2_lookup_r _ _ _ _ _ Hrows Hi) as (k & _ & Hrow).
  destruct Hrow as (_ & (Hrev & Hord & _ & Havg) & _).
  rewrite Hrev, Hord in Havg.
  destruct (avg_order_value_close
              (column_total "revenue" (group "year_month" k (rows df)))
              (count_notna (col "order_id" (group "year_month" k (rows df)))))
    as (aov & Haov & Hzero & Hclose).
  rewrite Haov in Havg. apply Ok_inj in Havg.
  exists (column_total "revenue" (group "year_month" k (rows df))),
         (count_notna (col "order_id" (group "year_month" k (rows df)))), aov.
  split; [exact Hrev|]. split; [exact Hord|]. split; [by rewrite <- Havg|].
  split; [exact Hzero | exact Hclose].
Qed.

End rounding.

Lemma monthly_avg_order_value_witness :
  let df := (samples.clean report_tables.messy_orders).1 in
  aggregation_conditions.clean_table df ∧
  ∃ monthly, aggregation.build_monthly_summary df = Ok monthly ∧
    col "avg_order_value" (rows monthly) = [samples.num 1200; samples.num (-5)] ∧
    ∀ r', r' ∈ rows monthly →
      ∃ (revenue : Qc) (orders : nat) (aov : Qc),
        r' !!! "total_revenue" = Num revenue ∧
        r' !!! "total_orders" = Num (Qc_of_nat orders) ∧
        r' !!! "avg_order_value" = Num aov ∧
        (orders = 0%nat → aov = 0%Qc) ∧
        (orders ≠ 0%nat →
         (aov - revenue / Qc_of_nat orders ≤ Q2Qc (1 # 200))%Qc ∧
         (revenue / Qc_of_nat orders - aov ≤ Q2Qc (1 # 200))%Qc).
Proof.
  cbv zeta.
  assert (Hclean : aggregation_conditions.clean_table
                     (samples.clean report_tables.messy_orders).1)
    by (split; intros; by_eval).
  split; [exact Hclean|].
  destruct (monthly_avg_order_value _ Hclean) as (monthly & Hbuild & Havg).
  exists monthly. split; [exact Hbuild|]. split; [|exact Havg].
  assert (Heq : Ok monthly = aggregation.build_monthly_summary
                               (samples.clean report_tables.messy_orders).1)
    by (symmetry; exact Hbuild).
  vm_compute in Heq. apply Ok_inj in Heq. subst monthly. by_eval.
Defined.


(** ** The values of the KPI dict *)

Section kpi_values.

Import config builtins aggregation kpi_engine conditions aggregation_conditions
  summary_conditions.

Ltac step_binds H :=
  repeat (let H' := fresh in
          pose proof (bind_Ok _ _ _ H) as (? & ? & H'); clear H; rename H' into H);
  try apply Ok_inj in H.

Lemma latest_month_kpis_spec monthly_df kpis kpis' :
  latest_month_kpis monthly_df kpis = Ok kpis' →
  (∀ key, key ≠ "latest_month" → key ≠ "latest_month_revenue" →
          kpis' !! key = kpis !! key) ∧
  (∀ l r, rows monthly_df = l ++ [r] →
     kpis' !! "latest_month" = Some (r !!! "year_month") ∧
     ∃ v, round2 (r !!! "total_revenue") = Ok v ∧
          kpis' !! "latest_month_revenue" = Some v).
Proof.
  unfold latest_month_kpis. intros H. case_bool_decide as Hlen.
  - step_binds H. subst kpis'. split.
    + intros key Hkey1 Hkey2. by rewrite !lookup_insert_ne by done.
    + intros l r Hr.
      assert (Hym : has_col "year_month" monthly_df = true).
      { unfold iloc_back in *. by destruct (has_col "year_month" monthly_df). }
      assert (Htot : has_col "total_revenue" monthly_df = true).
      { unfold iloc_back in *. by destruct (has_col "total_revenue" monthly_df). }
      rewrite (iloc_back_1 _ _ _ _ Hym Hr) in *.
      rewrite (iloc_back_1 _ _ _ _ Htot Hr) in *.
      simplify_eq. rewrite lookup_insert_ne, lookup_insert_eq by done.
      split; [done|]. eexists. split; [eassumption|]. by rewrite lookup_insert_eq.
  - apply Ok_inj in H. subst kpis'. split.
    + intros key Hkey1 Hkey2. by rewrite !lookup_insert_ne by done.
    + intros l r Hr. rewrite Hr, length_app in Hlen. simpl in Hlen. lia.
Qed.

Lemma growth_kpis_frame monthly_df kpis kpis' :
  growth_kpis monthly_df kpis = Ok kpis' →
  ∀ key, key ≠ "mom_revenue_growth" → kpis' !! key = kpis !! key.
Proof.
  unfold growth_kpis. intros H key Hkey.
  case_bool_decide; step_binds H; subst kpis'; by rewrite lookup_insert_ne.
Qed.

(** The gross margin in percent, 0 when there is no revenue. *)
Lemma cost_kpis_spec clean_df (tr : Qc) kpis kpis' :
  cost_kpis clean_df (Num tr) kpis = Ok kpis' →
  (∀ key, key ≠ "total_cost" → key ≠ "gross_margin" → kpis' !! key = kpis !! key) ∧
  (has_col "cost" clean_df = false →
   kpis' !! "total_cost" = Some PNone ∧ kpis' !! "gross_margin" = Some PNone) ∧
  (has_col "cost" clean_df = true →
   ∃ c, pd.sum (col "cost" (rows clean_df)) = Ok (Num c) ∧
     kpis' !! "total_cost" = Some (Num (round2_Qc c)) ∧
     kpis' !! "gross_margin"
     = Some (Num (round2_Qc ((if decide (tr = 0%Qc) then 0 else (tr - c) / tr)
                             * Qc_of_Z 100)%Qc))).
Proof.
  unfold cost_kpis. intros H. destruct (has_col "cost" clean_df) eqn:Hc.
  - step_binds H. subst kpis'.
    split; [intros key Hkey1 Hkey2; by rewrite !lookup_insert_ne by done|].
    split; [done|]. intros _.
    match goal with Hs : pd.sum _ = Ok ?v |- _ =>
      destruct (sum_Ok_Num _ _ Hs) as [c ->]; exists c; split; [exact Hs|] end.
    repeat match goal with
    | Hr : round2 (Num _) = Ok _ |- _ => apply Ok_inj in Hr; subst
    | Ha : arith _ = Ok _ |- _ => simpl in Ha; apply Ok_inj in Ha; subst
    end.
    rewrite lookup_insert_ne, !lookup_insert_eq by done. split; [done|].
    match goal with Ha : arith (py_mul (safe_divide _ _ _) _) = Ok _ |- _ =>
      unfold safe_divide, none_or_zero in Ha; revert Ha end.
    destruct (decide (tr = 0%Qc)) as [->|Htr].
    + rewrite bool_decide_eq_true_2 by done. simpl. intros Ha. apply Ok_inj in Ha.
      subst. match goal with Hr : round2 _ = Ok _ |- _ =>
        simpl in Hr; apply Ok_inj in Hr; by subst end.
    + rewrite bool_decide_eq_false_2 by done. simpl. intros Ha. apply Ok_inj in Ha.
      subst. match goal with Hr : round2 _ = Ok _ |- _ =>
        simpl in Hr; apply Ok_inj in Hr; by subst end.
  - apply Ok_inj in H. subst kpis'.
    split; [intros key Hkey1 Hkey2; by rewrite !lookup_insert_ne by done|].
    split; [|done]. intros _.
    by rewrite lookup_insert_ne, !lookup_insert_eq by done.
Qed.

Lemma marketing_kpis_spec clean_df (tr : Qc) kpis kpis' :
  marketing_kpis clean_df (Num tr) kpis = Ok kpis' →
  (∀ key, key ≠ "total_marketing_spend" → key ≠ "roas" →
          kpis' !! key = kpis !! key) ∧
  (has_col "marketing_spend" clean_df = false →
   kpis' !! "total_marketing_spend" = Some PNone ∧ kpis' !! "roas" = Some PNone) ∧
  (has_col "marketing_spend" clean_df = true →
   ∃ s, pd.sum (col "marketing_spend" (rows clean_df)) = Ok (Num s) ∧
     kpis' !! "total_marketing_spend" = Some (Num (round2_Qc s)) ∧
     kpis' !! "roas"
     = Some (Num (round2_Qc (if decide (round2_Qc s = 0%Qc) then 0
                             else tr / round2_Qc s)%Qc))).
Proof.
  unfold marketing_kpis. intros H.
  destruct (has_col "marketing_spend" clean_df) eqn:Hc.
  - step_binds H. subst kpis'.
    split; [intros key Hkey1 Hkey2; by rewrite !lookup_insert_ne by done|].
    split; [done|]. intros _.
    match goal with Hs : pd.sum _ = Ok ?v |- _ =>
      destruct (sum_Ok_Num _ _ Hs) as [s ->]; exists s; split; [exact Hs|] end.
    match goal with
    | Hr : round2 (Num s) = Ok _ |- _ => apply Ok_inj in Hr; subst
    end.
    rewrite lookup_insert_ne, !lookup_insert_eq by done. split; [done|].
    match goal with Hr : round2 (safe_divide _ _ _) = Ok _ |- _ =>
      unfold safe_divide, none_or_zero in Hr; revert Hr end.
    destruct (decide (round2_Qc s = 0%Qc)) as [Hz|Hz].
    + rewrite bool_decide_eq_true_2 by done. simpl. intros Hr.
      apply Ok_inj in Hr. by subst.
    + rewrite bool_decide_eq_false_2 by done. simpl. intros Hr.
      apply Ok_inj in Hr. by subst.
  - apply Ok_inj in H. subst kpis'.
    split; [intros key Hkey1 Hkey2; by rewrite !lookup_insert_ne by done|].
    split; [|done]. intros _.
    by rewrite lookup_insert_ne, !lookup_insert_eq by done.
Qed.

(** The values that a run of [compute_kpis] on non-empty inputs leaves
    in the dict. *)
Lemma compute_kpis_values (clean_df monthly_df : DataFrame) (kpis : gmap string cell) :
  pd.empty clean_df = false → pd.empty monthly_df = false →
  compute_kpis clean_df monthly_df = Ok kpis →
  ∃ q, pd.sum (col "revenue" (rows clean_df)) = Ok (Num q) ∧
    kpis !! "total_revenue" = Some (Num (round2_Qc q)) ∧
    kpis !! "total_orders"
      = Some (if has_col "order_id" clean_df
              then pd.nunique (col "order_id" (rows clean_df))
              else Num (Qc_of_nat (length (rows clean_df)))) ∧
    kpis !! "unique_customers"
      = Some (if has_col "customer_id" clean_df
              then pd.nunique (col "customer_id" (rows clean_df))
              else Num 0%Qc) ∧
    kpis !! "total_months" = Some (Num (Qc_of_nat (length (rows monthly_df)))) ∧
    (∀ l r, rows monthly_df = l ++ [r] →
       kpis !! "latest_month" = Some (r !!! "year_month") ∧
       ∃ v, round2 (r !!! "total_revenue") = Ok v ∧
            kpis !! "latest_month_revenue" = Some v) ∧
    (has_col "cost" clean_df = false →
     kpis !! "total_cost" = Some PNone ∧ kpis !! "gross_margin" = Some PNone) ∧
    (has_col "cost" clean_df = true →
     ∃ c, pd.sum (col "cost" (rows clean_df)) = Ok (Num c) ∧
       kpis !! "total_cost" = Some (Num (round2_Qc c)) ∧
       kpis !! "gross_margin"
       = Some (Num (round2_Qc ((if decide (round2_Qc q = 0%Qc) then 0
                                else (round2_Qc q - c) / round2_Qc q)
                               * Qc_of_Z 100)%Qc))) ∧
    (has_col "marketing_spend" clean_df = false →
     kpis !! "total_marketing_spend" = Some PNone ∧ kpis !! "roas" = Some PNone) ∧
    (has_col "marketing_spend" clean_df = true →
     ∃ s, pd.sum (col "marketing_spend" (rows clean_df)) = Ok (Num s) ∧
       kpis !! "total_marketing_spend" = Some (Num (round2_Qc s)) ∧
       kpis !! "roas"
       = Some (Num (round2_Qc (if decide (round2_Qc s = 0%Qc) then 0
                               else round2_Qc q / round2_Qc s)%Qc))).
Proof.
  intros Hc Hm. unfold compute_kpis. rewrite Hc, Hm. cbn [orb].
  intros H. step_binds H.
  match goal with Hg : getcol "revenue" clean_df = Ok ?x |- _ =>
    unfold getcol in Hg; destruct (has_col "revenue" clean_df); [|discriminate];
    apply Ok_inj in Hg; subst x end.
  match goal with Hs : pd.sum (col "revenue" _) = Ok ?v |- _ =>
    destruct (sum_Ok_Num _ _ Hs) as [q ->]; exists q; split; [exact Hs|] end.
  match goal with Hr : round2 (Num q) = Ok _ |- _ => apply Ok_inj in Hr; subst end.
  repeat match goal with
  | Hl : latest_month_kpis _ _ = Ok _ |- _ =>
      apply latest_month_kpis_spec in Hl as [Hlf Hlv]
  | Hg : growth_kpis _ _ = Ok _ |- _ => pose proof (growth_kpis_frame _ _ _ Hg) as Hgf;
      clear Hg
  | Hk : cost_kpis _ _ _ = Ok _ |- _ => apply cost_kpis_spec in Hk as (Hcf & Hcn & Hcv)
  | Hk : marketing_kpis _ _ _ = Ok _ |- _ =>
      apply marketing_kpis_spec in Hk as (Hmf & Hmn & Hmv)
  end.
  repeat split.
  - rewrite !lookup_insert_ne by done. rewrite Hmf, Hcf, Hgf, Hlf by done.
    by rewrite !lookup_insert_ne, lookup_insert_eq by done.
  - rewrite !lookup_insert_ne by done. rewrite Hmf, Hcf, Hgf, Hlf by done.
    by rewrite !lookup_insert_ne, lookup_insert_eq by done.
  - rewrite !lookup_insert_ne by done. rewrite Hmf, Hcf, Hgf, Hlf by done.
    by rewrite !lookup_insert_ne, lookup_insert_eq by done.
  - by rewrite lookup_insert_ne, lookup_insert_eq by done.
  - rewrite !lookup_insert_ne by done. rewrite Hmf, Hcf, Hgf by done.
    by apply (Hlv l r).
  - destruct (Hlv l r) as [_ (v & Hv1 & Hv2)]; [done|].
    exists v. split; [done|].
    rewrite !lookup_insert_ne by done. by rewrite Hmf, Hcf, Hgf by done.
  - rewrite !lookup_insert_ne by done. rewrite Hmf by done. by apply Hcn.
  - rewrite !lookup_insert_ne by done. rewrite Hmf by done. by apply Hcn.
  - intros Hcost. destruct (Hcv Hcost) as (c & Hsum & Hv1 & Hv2). exists c.
    split; [done|].
    rewrite !lookup_insert_ne by done. by rewrite !Hmf by done.
  - rewrite !lookup_insert_ne by done. by apply Hmn.
  - rewrite !lookup_insert_ne by done. by apply Hmn.
  - intros Hspend. destruct (Hmv Hspend) as (s & Hsum & Hv1 & Hv2). exists s.
    split; [done|]. by rewrite !lookup_insert_ne by done.
Qed.

End kpi_values.

(** ** From the clean table to the KPI dict *)

Section pipeline.

Import config builtins data_cleaning row_view aggregation kpi_engine conditions
  aggregation_conditions summary_conditions.

Lemma monthly_total_float (df : DataFrame) (keys : list cell) (monthly : list row)
    (cols : list string) :
  Forall2 (month_row df) keys monthly →
  float_column "total_revenue" (mkDF cols monthly).
Proof.
  intros Hrows. unfold float_column. cbn [rows].
  rewrite (col_of_rows (month_row df) "total_revenue"
             (λ k, Num (column_total "revenue" (group "year_month" k (rows df))))
             _ _ Hrows)
    by (intros k r (_ & (H & _) & _); exact H).
  apply Forall_fmap, Forall_forall. done.
Qed.

(** The clean table and its monthly summary are what [compute_kpis]
    expects. *)
Lemma pipeline_ready (df : DataFrame) :
  clean_table df →
  ∃ monthly_df monthly,
    build_monthly_summary df = Ok monthly_df ∧
    rows monthly_df = monthly ∧
    Forall2 (month_row df)
      (merge_sort key_le (remove_dups (col "year_month" (rows df)))) monthly ∧
    kpi_ready df monthly_df ∧
    pd.empty df = false ∧ pd.empty monthly_df = false.
Proof.
  intros Hclean.
  destruct (monthly_rows df Hclean) as (monthly & Hbuild & Hrows).
  destruct (month_keys df Hclean) as (_ & _ & _ & _ & Hne).
  eexists _, monthly. split; [exact Hbuild|]. split; [reflexivity|].
  split; [exact Hrows|].
  pose proof Hclean as [Hrne Hym Hrev Hoid Hcid Hbuckets Hrevf Hcostf Hspendf].
  split; [|split].
  - constructor; try done.
    by apply (monthly_total_float df _ _ _ Hrows).
  - by apply (not_empty "year_month").
  - unfold pd.empty. cbn [rows columns].
    rewrite !bool_decide_eq_false_2; [done|done|].
    intros ->. by apply Forall2_nil_inv_r in Hrows.
Qed.

Lemma key_le_text_refl (k : cell) : is_Str k = true → key_le k k.
Proof.
  destruct k; try done. intros _. unfold key_le, key_leb.
  by apply bool_decide_eq_true.
Qed.

(** X18. On a clean table the pipeline runs through: the monthly
    summary is built and [compute_kpis] returns the fourteen KPIs.
    [total_revenue] is the revenue of the table rounded to two decimals,
    [total_months] the number of distinct months, [latest_month] the
    greatest month of the table and [latest_month_revenue] the rounded
    revenue of the rows of that month. *)
Theorem pipeline_kpis (df : DataFrame) :
  clean_table df →
  ∃ monthly kpis,
    build_monthly_summary df = Ok monthly ∧
    compute_kpis df monthly = Ok kpis ∧
    dom kpis = kpi_keys ∧
    kpis !! "total_revenue"
      = Some (Num (round2_Qc (column_total "revenue" (rows df)))) ∧
    kpis !! "total_months"
      = Some (Num (Qc_of_nat (length (remove_dups (col "year_month" (rows df)))))) ∧
    ∃ latest,
      kpis !! "latest_month" = Some latest ∧
      latest ∈ col "year_month" (rows df) ∧
      (∀ r, r ∈ rows df → key_le (r !!! "year_month") latest) ∧
      kpis !! "latest_month_revenue"
        = Some (Num (round2_Qc
                       (column_total "revenue" (group "year_month" latest (rows df))))).
Proof.
  intros Hclean.
  destruct (pipeline_ready df Hclean)
    as (monthly_df & monthly & Hbuild & Hmonthly & Hrows & Hready & He1 & He2).
  destruct (month_keys df Hclean) as (Hnd & Hperm & Hsorted & Hall & Hne).
  destruct (compute_kpis_total df monthly_df Hready) as [kpis Hk].
  exists monthly_df, kpis. split; [exact Hbuild|]. split; [exact Hk|].
  destruct (compute_kpis_inv df monthly_df kpis He1 He2 Hk) as [Hdom _].
  split; [exact Hdom|].
  destruct (compute_kpis_values df monthly_df kpis He1 He2 Hk)
    as (q & Hsum & Htr & _ & _ & Hmonths & Hlatest & _).
  rewrite (sum_float_total _ (clean_revenue_float df Hclean)) in Hsum.
  apply Ok_inj in Hsum. injection Hsum as <-.
  split; [exact Htr|]. split.
  - rewrite Hmonths, Hmonthly. do 3 f_equal.
    rewrite <- (Forall2_length _ _ _ Hrows). by rewrite Hperm.
  - set (keys := merge_sort key_le (remove_dups (col "year_month" (rows df)))) in *.
    destruct (rows_snoc monthly) as (l & r' & Hsnoc).
    { destruct monthly; [|simpl; lia]. apply Forall2_nil_inv_r in Hrows. done. }
    rewrite Hsnoc in Hrows.
    apply Forall2_app_inv_r in Hrows as (ks & k1 & Hks & Hk1 & Hkeys).
    apply Forall2_cons_inv_r in Hk1 as (k & k1' & Hrow & Hnil & ->).
    apply Forall2_nil_inv_r in Hnil as ->.
    destruct Hrow as (Hym & (Hrev & _) & _).
    assert (Hk_in : k ∈ keys) by (rewrite Hkeys; apply elem_of_app; right; left).
    assert (Hk_col : k ∈ col "year_month" (rows df)).
    { rewrite Hperm, elem_of_remove_dups in Hk_in. exact Hk_in. }
    rewrite Hmonthly in Hlatest.
    destruct (Hlatest l r' Hsnoc) as (Hlm & v & Hv & Hlr).
    exists k. rewrite <- Hym. split; [exact Hlm|]. rewrite Hym.
    split; [exact Hk_col|]. split.
    + intros r Hr. specialize (Hall r Hr). rewrite Hkeys in Hall, Hsorted.
      apply elem_of_app in Hall as [Hin|Hin].
      * apply (StronglySorted_app_1_elem_of _ _ _ _ _ Hsorted Hin). left.
      * apply list_elem_of_singleton in Hin. rewrite Hin.
        apply key_le_text_refl.
        unfold col in Hk_col. apply list_elem_of_fmap in Hk_col as (r0 & -> & Hr0).
        pose proof (clean_buckets df Hclean) as Hb. rewrite Forall_forall in Hb.
        by apply Hb.
    + rewrite Hlr. rewrite Hrev in Hv. simpl in Hv. by apply Ok_inj in Hv as <-.
Qed.

(** X19. The cost and marketing KPIs follow the optional columns:
    without a [cost] column [total_cost] and [gross_margin] are [None],
    with one they are the rounded cost and the rounded margin in
    percent of the rounded revenue, 0 when that revenue is 0; without a
    [marketing_spend] column [total_marketing_spend] and [roas] are
    [None], with one they are the rounded spend and the rounded revenue
    per unit of rounded spend, 0 when that spend is 0. *)
Theorem kpi_optional_columns (clean_df monthly_df : DataFrame) :
  kpi_ready clean_df monthly_df →
  pd.empty clean_df = false → pd.empty monthly_df = false →
  ∃ kpis,
    compute_kpis clean_df monthly_df = Ok kpis ∧
    let tr := round2_Qc (column_total "revenue" (rows clean_df)) in
    let spend := round2_Qc (column_total "marketing_spend" (rows clean_df)) in
    kpis !! "total_revenue" = Some (Num tr) ∧
    (has_col "cost" clean_df = false →
     kpis !! "total_cost" = Some PNone ∧ kpis !! "gross_margin" = Some PNone) ∧
    (has_col "cost" clean_df = true →
     kpis !! "total_cost"
       = Some (Num (round2_Qc (column_total "cost" (rows clean_df)))) ∧
     kpis !! "gross_margin"
       = Some (Num (round2_Qc
                      ((if decide (tr = 0%Qc) then 0
                        else (tr - column_total "cost" (rows clean_df)) / tr)
                       * Qc_of_Z 100)%Qc))) ∧
    (has_col "marketing_spend" clean_df = false →
     kpis !! "total_marketing_spend" = Some PNone ∧ kpis !! "roas" = Some PNone) ∧
    (has_col "marketing_spend" clean_df = true →
     kpis !! "total_marketing_spend" = Some (Num spend) ∧
     kpis !! "roas"
       = Some (Num (round2_Qc (if decide (spend = 0%Qc) then 0 else tr / spend)%Qc))).
Proof.
  intros Hready He1 He2.
  destruct (compute_kpis_total clean_df monthly_df Hready) as [kpis Hk].
  exists kpis. split; [exact Hk|]. cbv zeta.
  destruct (compute_kpis_values clean_df monthly_df kpis He1 He2 Hk)
    as (q & Hsum & Htr & _ & _ & _ & _ & Hcn & Hcv & Hmn & Hmv).
  rewrite (sum_float_total _ (ready_revenue_float _ _ Hready)) in Hsum.
  apply Ok_inj in Hsum. injection Hsum as <-.
  split; [exact Htr|]. split; [exact Hcn|]. split; [|split; [exact Hmn|]].
  - intros Hcost. destruct (Hcv Hcost) as (c & Hc & Hv1 & Hv2).
    rewrite (sum_float_total _ (ready_cost _ _ Hready Hcost)) in Hc.
    apply Ok_inj in Hc. injection Hc as <-. by split.
  - intros Hspend. destruct (Hmv Hspend) as (s & Hs & Hv1 & Hv2).
    rewrite (sum_float_total _ (ready_spend _ _ Hready Hspend)) in Hs.
    apply Ok_inj in Hs. injection Hs as <-. by split.
Qed.

Lemma remove_dups_NoDup {A} `{EqDecision A} (l : list A) :
  NoDup l → remove_dups l = l.
Proof.
  induction 1 as [|x l Hx _ IH]; [done|].
  simpl. destruct (decide_rel elem_of x l) as [Hin|_]; [by destruct Hx|].
  by rewrite IH.
Qed.

(** Where no two rows share an id, the distinct ids are as many as the
    rows that have one. *)
Lemma nunique_distinct (s : list cell) :
  NoDup (dup_key <$> s) → pd.nunique s = Num (Qc_of_nat (count_notna s)).
Proof.
  intros Hnd. unfold pd.nunique, count_notna. do 3 f_equal.
  apply remove_dups_NoDup.
  apply NoDup_fmap_1 in Hnd. eapply sublist_NoDup; [exact Hnd|apply sublist_filter].
Qed.

(** Where the order ids of a clean table are distinct, the KPI
    [total_orders] is the sum of the monthly order counts. *)
Lemma distinct_total_orders (df : DataFrame) :
  clean_table df →
  NoDup (dup_key <$> col "order_id" (rows df)) →
  ∃ monthly kpis v,
    build_monthly_summary df = Ok monthly ∧
    compute_kpis df monthly = Ok kpis ∧
    kpis !! "total_orders" = Some v ∧
    pd.sum (col "total_orders" (rows monthly)) = Ok v ∧
    v = Num (Qc_of_nat (count_notna (col "order_id" (rows df)))).
Proof.
  intros Hclean Hdistinct.
  destruct (pipeline_ready _ Hclean)
    as (monthly_df & monthly & Hbuild & Hmonthly & Hrows & Hready & He1 & He2).
  destruct (compute_kpis_total _ monthly_df Hready) as [kpis Hk].
  destruct (compute_kpis_values _ monthly_df kpis He1 He2 Hk)
    as (q & _ & _ & Horders & _).
  rewrite (clean_order_id _ Hclean) in Horders.
  rewrite (nunique_distinct _ Hdistinct) in Horders.
  destruct (month_keys _ Hclean) as (Hnd & _ & _ & Hall & _).
  exists monthly_df, kpis. eexists. split; [exact Hbuild|]. split; [exact Hk|].
  split; [exact Horders|]. split; [|reflexivity].
  rewrite Hmonthly.
  rewrite (col_of_rows (month_row df) "total_orders"
             (λ k, Num (Qc_of_nat (count_notna
                          (col "order_id" (group "year_month" k (rows df))))))
             _ _ Hrows)
    by (intros k r (_ & (_ & H & _) & _); exact H).
  by apply sum_group_counts.
Qed.

Variable parse_auto : list cell → cell → option Timestamp.
Variable parse_fmt : string → cell → option Timestamp.
Variable to_numeric : string → option Qc.
Variable str_of_num : Qc → string.
Variable str_of_ts : Timestamp → string.

Local Abbreviation clean := (clean parse_auto parse_fmt to_numeric str_of_num str_of_ts).

(** No two rows of the cleaned table share an order id. *)
Lemma clean_order_ids_distinct (mapped : DataFrame) :
  has_col "order_id" mapped = true →
  NoDup (dup_key <$> col "order_id" (rows (clean mapped).1)).
Proof.
  intros Hoid.
  destruct (clean_rows parse_auto parse_fmt to_numeric str_of_num str_of_ts mapped)
    as (p & Hrows & _).
  unfold col. rewrite Hrows, <- !list_fmap_compose.
  assert (Hext : (dup_key ∘ (λ r : row, r !!! "order_id")
                    ∘ row_out to_numeric str_of_num str_of_ts mapped p)
                 <$> filter (row_kept to_numeric mapped p) (deduplicated mapped)
               = (λ r : row, dup_key (r !!! "order_id"))
                 <$> filter (row_kept to_numeric mapped p) (deduplicated mapped)).
  { apply list_fmap_ext. intros i r _. simpl. by rewrite row_out_order_id. }
  rewrite Hext.
  eapply sublist_NoDup; [|apply fmap_sublist, sublist_filter].
  unfold deduplicated. rewrite Hoid.
  apply (drop_duplicates_spec "order_id" (rows mapped)).
Qed.

(** X20. On the output of [clean] for a mapped table with the four
    required columns, the two ways of counting orders agree: the KPI
    [total_orders], the number of distinct order ids, is the sum of the
    monthly [total_orders], the rows with an order id month by month. *)
Theorem pipeline_total_orders (mapped : DataFrame) :
  Forall (λ c, has_col c mapped = true) REQUIRED_COLUMNS →
  rows (clean mapped).1 ≠ [] →
  ∃ monthly kpis v,
    build_monthly_summary (clean mapped).1 = Ok monthly ∧
    compute_kpis (clean mapped).1 monthly = Ok kpis ∧
    kpis !! "total_orders" = Some v ∧
    pd.sum (col "total_orders" (rows monthly)) = Ok v ∧
    v = Num (Qc_of_nat (count_notna (col "order_id" (rows (clean mapped).1)))).
Proof.
  intros Hreq Hne.
  pose proof (clean_is_clean_table parse_auto parse_fmt to_numeric str_of_num
                str_of_ts mapped Hreq Hne) as Hclean.
  assert (Hoid : has_col "order_id" mapped = true).
  { rewrite Forall_forall in Hreq. apply Hreq.
    unfold REQUIRED_COLUMNS. right. left. }
  exact (distinct_total_orders _ Hclean (clean_order_ids_distinct mapped Hoid)).
Qed.

End pipeline.

Lemma pipeline_kpis_witness :
  let df := (samples.clean report_tables.messy_orders).1 in
  aggregation_conditions.clean_table df ∧
  col "year_month" (rows df) = [Str "2024-01"; Str "2024-02"] ∧
  ∃ monthly kpis,
    aggregation.build_monthly_summary df = Ok monthly ∧
    kpi_engine.compute_kpis df monthly = Ok kpis ∧
    kpis !! "total_revenue" = Some (samples.num 1195) ∧
    kpis !! "total_months" = Some (samples.num 2) ∧
    ∃ latest,
      kpis !! "latest_month" = Some latest ∧
      latest ∈ col "year_month" (rows df) ∧
      (∀ r, r ∈ rows df → key_le (r !!! "year_month") latest).
Proof.
  cbv zeta.
  assert (Hclean : aggregation_conditions.clean_table
                     (samples.clean report_tables.messy_orders).1)
    by (split; intros; by_eval).
  split; [exact Hclean|]. split; [by_eval|].
  destruct (pipeline_kpis _ Hclean)
    as (monthly & kpis & Hbuild & Hk & _ & Htr & Hmonths & latest & Hl & Hin & Hmax & _).
  exists monthly, kpis. split; [exact Hbuild|]. split; [exact Hk|].
  rewrite Htr, Hmonths. split; [by_eval|]. split; [by_eval|].
  exists latest. split; [exact Hl|]. split; [exact Hin | exact Hmax].
Defined.

Lemma kpi_optional_columns_witness :
  let with_cost := (samples.clean report_tables.messy_orders).1 in
  conditions.kpi_ready with_cost tables.monthly_1000_1200 ∧
  conditions.kpi_ready tables.clean_3 tables.monthly_1000_1200 ∧
  has_col "cost" with_cost = true ∧
  has_col "cost" tables.clean_3 = false ∧
  (∃ kpis, kpi_engine.compute_kpis with_cost tables.monthly_1000_1200 = Ok kpis ∧
     kpis !! "total_cost" = Some (Num 0%Qc) ∧
     kpis !! "gross_margin" = Some (samples.num 100) ∧
     kpis !! "roas" = Some PNone) ∧
  (∃ kpis, kpi_engine.compute_kpis tables.clean_3 tables.monthly_1000_1200 = Ok kpis ∧
     kpis !! "total_cost" = Some PNone ∧
     kpis !! "gross_margin" = Some PNone).
Proof.
  cbv zeta.
  assert (Hready : conditions.kpi_ready (samples.clean report_tables.messy_orders).1
                     tables.monthly_1000_1200) by (split; intros; by_eval).
  assert (Hready3 : conditions.kpi_ready tables.clean_3 tables.monthly_1000_1200)
    by (split; intros; by_eval).
  assert (Hcost : has_col "cost" (samples.clean report_tables.messy_orders).1 = true)
    by by_eval.
  assert (Hno : has_col "cost" tables.clean_3 = false) by reflexivity.
  assert (Hnospend : has_col "marketing_spend"
                       (samples.clean report_tables.messy_orders).1 = false)
    by by_eval.
  refine (conj Hready (conj Hready3 (conj Hcost (conj Hno (conj _ _))))).
  - destruct (kpi_optional_columns _ _ Hready ltac:(by_eval) ltac:(by_eval))
      as (kpis & Hk & _ & _ & Hc & Hn & _).
    exists kpis. split; [exact Hk|].
    destruct (Hc Hcost) as [-> ->]. destruct (Hn Hnospend) as [_ ->].
    split; [by_eval|]. split; [by_eval | done].
  - destruct (kpi_optional_columns _ _ Hready3 ltac:(by_eval) ltac:(by_eval))
      as (kpis & Hk & _ & Hc & _).
    exists kpis. split; [exact Hk|]. exact (Hc Hno).
Defined.

Lemma pipeline_total_orders_witness :
  let out := (samples.clean report_tables.messy_orders).1 in
  Forall (λ c, has_col c report_tables.messy_orders = true) config.REQUIRED_COLUMNS ∧
  rows out ≠ [] ∧
  ∃ monthly kpis,
    aggregation.build_monthly_summary out = Ok monthly ∧
    kpi_engine.compute_kpis out monthly = Ok kpis ∧
    kpis !! "total_orders" = Some (samples.num 2) ∧
    pd.sum (col "total_orders" (rows monthly)) = Ok (samples.num 2).
Proof.
  cbv zeta.
  assert (Hreq : Forall (λ c, has_col c report_tables.messy_orders = true)
                        config.REQUIRED_COLUMNS) by by_eval.
  assert (Hne : rows (samples.clean report_tables.messy_orders).1 ≠ []) by by_eval.
  split; [exact Hreq|]. split; [exact Hne|].
  destruct (pipeline_total_orders samples.parse_auto samples.parse_fmt
              samples.to_numeric samples.str_of_num samples.str_of_ts
              report_tables.messy_orders Hreq Hne)
    as (monthly & kpis & v & Hbuild & Hk & Horders & Hsum & Hv).
  exists monthly, kpis. split; [exact Hbuild|]. split; [exact Hk|].
  rewrite Horders, Hsum, Hv. split; by_eval.
Defined.

(** ** Growth quality: new and repeat customers *)

Section growth_quality_facts.

Import config builtins aggregation conditions aggregation_conditions growth_quality.

Lemma foldl_min_in (v : cell) (rest : list cell) :
  foldl (λ m x, if bool_decide (key_le m x) then m else x) v rest ∈ v :: rest.
Proof.
  revert v. induction rest as [|x rest IH]; intros v; [left|].
  cbn [foldl]. case_bool_decide.
  - specialize (IH v). apply elem_of_cons in IH as [->|IH]; [left | do 2 right; done].
  - specialize (IH x). right. done.
Qed.

Lemma filter_all {A} (P : A → Prop) `{!∀ x, Decision (P x)} (l : list A) :
  Forall P l → filter P l = l.
Proof.
  induction 1 as [|x l Hx _ IH]; [done|].
  rewrite filter_cons, decide_True by done. by rewrite IH.
Qed.

(** The first month of a group of text months is one of them. *)
Lemma group_min_texts (vs : list cell) :
  vs ≠ [] → Forall (λ v, is_Str v = true) vs →
  ∃ m, group_min vs = Ok m ∧ m ∈ vs.
Proof.
  intros Hne Htexts. unfold group_min.
  rewrite filter_all by (eapply Forall_impl; [exact Htexts|]; by intros []).
  destruct vs as [|v rest]; [done|].
  assert (same_kind (v :: rest) = true) as ->.
  { unfold same_kind. assert (forallb is_Str (v :: rest) = true) as ->; [|done].
    apply forallb_forall. intros x Hx%list_elem_of_In.
    rewrite Forall_forall in Htexts. by apply Htexts. }
  eexists. split; [reflexivity|]. apply foldl_min_in.
Qed.

Lemma keys_comparable_no_timestamps (ks : list cell) :
  Forall (λ k, is_Ts k = false) ks → keys_comparable ks = true.
Proof.
  intros H. unfold keys_comparable.
  assert (existsb is_Ts ks = false) as ->; [|done].
  apply not_true_iff_false. rewrite existsb_exists.
  intros (k & Hk%list_elem_of_In & Hts).
  rewrite Forall_forall in H. apply H in Hk. congruence.
Qed.

(** [first_month_of] finds what the table of first months holds for the
    customer of the row. *)
Lemma first_month_of_spec (Q : cell → cell → Prop) (keys : list cell)
    (cfm : list (cell * cell)) (r : row) :
  Forall2 (λ k p, p.1 = k ∧ Q k p.2) keys cfm →
  r !!! "customer_id" ∈ keys →
  Q (r !!! "customer_id") (first_month_of cfm r).
Proof.
  intros Hcfm Hin. unfold first_month_of.
  induction Hcfm as [|k p ks ps [Hk HQ] _ IH]; [by apply elem_of_nil in Hin|].
  cbn [list_find]. destruct (decide (p.1 = r !!! "customer_id")) as [Hp|Hp].
  - destruct p as [k' m]. simpl in *. by subst.
  - apply elem_of_cons in Hin as [Hin|Hin]; [congruence|].
    specialize (IH Hin).
    destruct (list_find (λ p, p.1 = r !!! "customer_id") ps) as [[i [k' m]]|];
      simpl in *; done.
Qed.

Lemma customer_first_month_Ok (rs : list row) :
  Forall (λ r : row, is_Str (r !!! "year_month") = true) rs →
  Forall (λ r : row, is_Ts (r !!! "customer_id") = false) rs →
  ∃ cfm, customer_first_month rs = Ok cfm ∧
    Forall2 (λ k p, p.1 = k ∧ p.2 ∈ col "year_month" (group "customer_id" k rs))
      (merge_sort key_le
         (remove_dups (filter (λ k, isna k = false) (col "customer_id" rs))))
      cfm.
Proof.
  intros Hym Hcust. unfold customer_first_month, group_keys.
  rewrite keys_comparable_no_timestamps.
  - cbn [bind]. apply traverse_Ok. intros k Hk.
    rewrite merge_sort_Permutation, elem_of_remove_dups in Hk.
    apply list_elem_of_filter in Hk as [_ Hk]. unfold col in Hk.
    apply list_elem_of_fmap in Hk as (r & -> & Hr).
    destruct (group_min_texts
                (col "year_month" (group "customer_id" (r !!! "customer_id") rs)))
      as (m & -> & Hm).
    + assert (Hin : r !!! "year_month"
                    ∈ col "year_month" (group "customer_id" (r !!! "customer_id") rs)).
      { unfold col. apply list_elem_of_fmap. exists r. split; [done|].
        unfold group. by apply list_elem_of_filter. }
      intros Hnil. rewrite Hnil in Hin. by apply elem_of_nil in Hin.
    + unfold col, group. apply Forall_fmap, Forall_forall.
      intros r0 [_ Hr0]%list_elem_of_filter.
      rewrite Forall_forall in Hym. by apply Hym.
    + cbn [bind]. eexists. split; [reflexivity|]. by split.
  - apply Forall_forall. intros k Hk. rewrite elem_of_remove_dups in Hk.
    apply list_elem_of_filter in Hk as [_ Hk]. unfold col in Hk.
    apply list_elem_of_fmap in Hk as (r & -> & Hr).
    rewrite Forall_forall in Hcust. by apply Hcust.
Qed.

(** Every customer has a row of type New: a row of the first month. *)
Lemma customer_has_new_row (rs : list row) (cfm : list (cell * cell)) (r : row) :
  Forall (λ r : row, is_Str (r !!! "year_month") = true) rs →
  Forall2 (λ k p, p.1 = k ∧ p.2 ∈ col "year_month" (group "customer_id" k rs))
    (merge_sort key_le
       (remove_dups (filter (λ k, isna k = false) (col "customer_id" rs))))
    cfm →
  r ∈ rs → isna (r !!! "customer_id") = false →
  ∃ r0, r0 ∈ of_type cfm "New" rs ∧ r0 !!! "customer_id" = r !!! "customer_id".
Proof.
  intros Hym Hcfm Hr Hna.
  assert (Hkey : r !!! "customer_id"
                 ∈ merge_sort key_le
                     (remove_dups (filter (λ k, isna k = false) (col "customer_id" rs)))).
  { rewrite merge_sort_Permutation, elem_of_remove_dups.
    apply list_elem_of_filter. split; [done|].
    unfold col. apply list_elem_of_fmap. eauto. }
  pose proof (first_month_of_spec
                (λ k m, m ∈ col "year_month" (group "customer_id" k rs))
                _ cfm r Hcfm Hkey) as Hm.
  simpl in Hm. unfold col in Hm.
  apply list_elem_of_fmap in Hm as (r0 & Hm & Hr0).
  unfold group in Hr0. apply list_elem_of_filter in Hr0 as [Hsame Hr0].
  exists r0. split; [|done].
  unfold of_type. apply list_elem_of_filter. split; [|done].
  unfold customer_type.
  assert (Hfm : first_month_of cfm r0 = first_month_of cfm r).
  { unfold first_month_of. by rewrite Hsame. }
  rewrite Hfm, Hm.
  rewrite Forall_forall in Hym. specialize (Hym r0 Hr0). simpl in Hym.
  destruct (r0 !!! "year_month"); try done.
  unfold py_eq. by rewrite bool_decide_eq_true_2.
Qed.

Lemma float_column_filter (c : string) (P : row → Prop) `{!∀ r, Decision (P r)}
    (rs : list row) :
  Forall (λ v, is_float v = true) (col c rs) →
  Forall (λ v, is_float v = true) (col c (filter P rs)).
Proof.
  unfold col. rewrite !Forall_fmap. intros Hall. apply Forall_forall.
  intros r [_ Hr]%list_elem_of_filter. rewrite Forall_forall in Hall. by apply Hall.
Qed.

Lemma monthly_type_Ok (cfm : list (cell * cell)) (rs : list row) :
  Forall (λ r : row, is_Str (r !!! "year_month") = true) rs →
  Forall (λ v, is_float v = true) (col "revenue" rs) →
  ∃ mt, monthly_type cfm rs = Ok mt.
Proof.
  intros Hym Hrev. unfold monthly_type.
  destruct (group_keys_texts "year_month" rs Hym) as (months & -> & _).
  cbn [bind].
  destruct (traverse_Ok (month_types cfm rs) (λ _ _, True) months)
    as (per_month & -> & _); [|cbn [bind]; eauto].
  intros k _. unfold month_types.
  destruct (group_keys_texts "customer_type"
              ((λ r : row, <["customer_type" := Str (customer_type cfm r)]> r)
                 <$> group "year_month" k rs)) as (types & -> & _).
  { apply Forall_fmap, Forall_forall. intros r _. simpl.
    by rewrite lookup_total_insert_eq. }
  cbn [bind].
  destruct (traverse_Ok
    (λ t,
       total_revenue ←r pd.sum
         (col "revenue"
            (filter (λ r, Str (customer_type cfm r) = t) (group "year_month" k rs)));
       Ok (<["customers" := pd.nunique
               (col "customer_id"
                  (filter (λ r, Str (customer_type cfm r) = t)
                     (group "year_month" k rs)))]>
             (<["total_revenue" := total_revenue]>
                (<["customer_type" := t]> (<["year_month" := k]> (∅ : row))))))
    (λ _ _, True) types) as (out & -> & _); [|eauto].
  intros t _.
  rewrite sum_float_total by (unfold group; by do 2 apply float_column_filter).
  cbn [bind]. eauto.
Qed.

Lemma pct_round1 (n d : cell) :
  ∃ v w, growth_quality.arith
           (py_mul (safe_divide n d default_0) (Num (Qc_of_Z 100))) = Ok v ∧
         round1 v = Ok w.
Proof.
  pose proof (safe_divide_float n d) as Hf.
  destruct (safe_divide n d default_0); try discriminate; simpl; eauto.
Qed.

(** The run of [analyze] on a clean table. *)
Lemma analyze_figures (df monthly_df : DataFrame) (kpis : gmap string cell) :
  clean_table df → pd.empty monthly_df = false →
  Forall (λ r : row, is_Ts (r !!! "customer_id") = false) (rows df) →
  ∃ cfm f,
    analyze df monthly_df kpis = Ok (Some f) ∧
    Forall2 (λ k p, p.1 = k ∧ p.2 ∈ col "year_month" (group "customer_id" k (rows df)))
      (merge_sort key_le
         (remove_dups (filter (λ k, isna k = false) (col "customer_id" (rows df)))))
      cfm ∧
    new_count f = pd.nunique (col "customer_id" (of_type cfm "New" (rows df))) ∧
    repeat_count f = pd.nunique (col "customer_id" (of_type cfm "Repeat" (rows df))) ∧
    new_revenue f = Num (column_total "revenue" (of_type cfm "New" (rows df))) ∧
    repeat_revenue f
      = Num (column_total "revenue" (of_type cfm "Repeat" (rows df))) ∧
    total_rev f
      = Num (column_total "revenue" (of_type cfm "New" (rows df))
             + column_total "revenue" (of_type cfm "Repeat" (rows df)))%Qc.
Proof.
  intros Hclean Hm Hcust.
  pose proof Hclean as [Hne Hym Hrev Hoid Hcid Hbuckets Hrevf _ _].
  unfold analyze.
  rewrite (not_empty "year_month" df Hym Hne), Hm, Hcid, Hym, Hrev. cbn [orb andb negb].
  destruct (customer_first_month_Ok (rows df) Hbuckets Hcust) as (cfm & -> & Hcfm).
  cbn [bind].
  destruct (monthly_type_Ok cfm (rows df) Hbuckets Hrevf) as (mt & ->).
  cbn [bind].
  destruct (pct_round1 (pd.nunique (col "customer_id" (of_type cfm "Repeat" (rows df))))
              (default (Num 0%Qc) (kpis !! "unique_customers")))
    as (rate & repeat_rate & Hrate & Hround).
  rewrite Hrate. cbn [bind]. rewrite Hround. cbn [bind].
  rewrite !sum_float_total by (unfold of_type; by apply float_column_filter).
  cbn [bind growth_quality.arith py_add].
  destruct (pct_round1
              (Num (Qc_sum (cell_number <$> col "revenue" (of_type cfm "Repeat" (rows df)))))
              (Num (Qc_sum (cell_number <$> col "revenue" (of_type cfm "New" (rows df)))
                    + Qc_sum (cell_number <$> col "revenue"
                                (of_type cfm "Repeat" (rows df))))%Qc))
    as (share & repeat_share & Hshare & Hround').
  rewrite Hshare. cbn [bind]. rewrite Hround'. cbn [bind]. exists cfm. eexists. split; [reflexivity|]. by repeat split.
Qed.

Lemma column_total_by_type (cfm : list (cell * cell)) (c : string) (rs : list row) :
  (column_total c (of_type cfm "New" rs) + column_total c (of_type cfm "Repeat" rs)
   = column_total c rs)%Qc.
Proof.
  unfold column_total, col, of_type. induction rs as [|r rs IH].
  - apply Qc_is_canon. reflexivity.
  - rewrite !filter_cons.
    assert (Htype : customer_type cfm r = "New" ∨ customer_type cfm r = "Repeat").
    { unfold customer_type. destruct (py_eq _ _); [by left | by right]. }
    destruct Htype as [E|E].
    + rewrite (decide_True (P := customer_type cfm r = "New")) by done.
      rewrite (decide_False (P := customer_type cfm r = "Repeat"))
        by (rewrite E; discriminate).
      csimpl. rewrite <- IH. ring.
    + rewrite (decide_False (P := customer_type cfm r = "New"))
        by (rewrite E; discriminate).
      rewrite (decide_True (P := customer_type cfm r = "Repeat")) by done.
      csimpl. rewrite <- IH. ring.
Qed.


Lemma length_remove_dups_subset (l k : list cell) :
  (∀ x, x ∈ l → x ∈ k) → (length (remove_dups l) ≤ length (remove_dups k))%nat.
Proof.
  intros Hsub. apply submseteq_length, NoDup_submseteq; [apply NoDup_remove_dups|].
  intros x. rewrite !elem_of_remove_dups. apply Hsub.
Qed.


End growth_quality_facts.




(** ** The run of the script *)

Section app_run.

Import config data_cleaning aggregation kpi_engine conditions aggregation_conditions.

Variable parse_auto : list cell → cell → option Timestamp.
Variable parse_fmt : string → cell → option Timestamp.
Variable to_numeric : string → option Qc.
Variable str_of_num : Qc → string.
Variable str_of_ts : Timestamp → string.

Local Abbreviation clean := (clean parse_auto parse_fmt to_numeric str_of_num str_of_ts).
Local Abbreviation run := (app.run parse_auto parse_fmt to_numeric str_of_num str_of_ts).

Lemma run_clean (mapped_df : DataFrame) :
  run mapped_df []
  = if pd.empty (clean mapped_df).1 then Ok app.NoValidData
    else
      monthly_df ←r build_monthly_summary (clean mapped_df).1;
      kpis ←r compute_kpis (clean mapped_df).1 monthly_df;
      Ok (app.Analysed (clean mapped_df).1 monthly_df kpis).
Proof.
  unfold app.run. rewrite bool_decide_eq_false_2 by (by intros H).
  by destruct (clean mapped_df).
Qed.

(** What the script does with a clean table that is not empty. *)
Lemma analysed (df : DataFrame) :
  clean_table df →
  ∃ monthly_df kpis,
    (monthly_df ←r build_monthly_summary df;
     kpis ←r compute_kpis df monthly_df;
     Ok (app.Analysed df monthly_df kpis))
    = Ok (app.Analysed df monthly_df kpis) ∧
    rows monthly_df ≠ [] ∧ dom kpis = kpi_keys.
Proof.
  intros Hclean.
  destruct (pipeline_ready df Hclean)
    as (monthly_df & monthly & Hbuild & Hmonthly & Hrows & Hready & He1 & He2).
  destruct (compute_kpis_total df monthly_df Hready) as [kpis Hk].
  exists monthly_df, kpis. rewrite Hbuild. cbn [bind]. rewrite Hk. cbn [bind].
  split; [done|]. split.
  - unfold pd.empty in He2. apply orb_false_elim in He2 as [He2 _].
    by apply bool_decide_eq_false in He2.
  - by destruct (compute_kpis_inv df monthly_df kpis He1 He2 Hk).
Qed.


End app_run.


(** ** Customers month by month, and the ratios of the KPI dict *)

Section customers_and_ratios.

Import config builtins aggregation kpi_engine conditions aggregation_conditions
  summary_conditions.

Lemma sum_list_zero {A} (f : A → nat) (l : list A) :
  (∀ x, x ∈ l → f x = 0%nat) → sum_list (f <$> l) = 0%nat.
Proof.
  induction l as [|a l IH]; intros Hf; [done|]. csimpl.
  rewrite (Hf a) by left. rewrite IH; [done|]. intros x Hx. apply Hf. by right.
Qed.

Lemma sum_list_plus {A} (f g : A → nat) (l : list A) :
  sum_list ((λ x, f x + g x)%nat <$> l)
  = (sum_list (f <$> l) + sum_list (g <$> l))%nat.
Proof. induction l as [|a l IH]; [done|]. csimpl. rewrite IH. lia. Qed.

Lemma sum_list_le {A} (f g : A → nat) (l : list A) :
  (∀ x, x ∈ l → (f x ≤ g x)%nat) →
  (sum_list (f <$> l) ≤ sum_list (g <$> l))%nat.
Proof.
  induction l as [|a l IH]; intros Hfg; [done|]. csimpl.
  pose proof (Hfg a (list_elem_of_here _ _)).
  assert (sum_list (f <$> l) ≤ sum_list (g <$> l))%nat; [|lia].
  apply IH. intros x Hx. apply Hfg. by right.
Qed.

Lemma sum_list_indicator (x : cell) (n : nat) (keys : list cell) :
  NoDup keys → x ∈ keys →
  sum_list ((λ k, if decide (x = k) then n else 0%nat) <$> keys) = n.
Proof.
  induction 1 as [|k ks Hk Hnd IH]; intros Hx; [by apply elem_of_nil in Hx|].
  csimpl. destruct (decide (x = k)) as [->|Hne].
  - rewrite sum_list_zero; [lia|]. intros y Hy.
    destruct (decide (k = y)) as [->|_]; [by destruct Hk | done].
  - rewrite IH; [done|]. apply elem_of_cons in Hx as [?|?]; done.
Qed.

(** The rows with a value in column [c], counted group by group. *)
Lemma count_groups (key c : string) (keys : list cell) (rs : list row) :
  NoDup keys → (∀ r, r ∈ rs → r !!! key ∈ keys) →
  sum_list ((λ k, count_notna (col c (group key k rs))) <$> keys)
  = count_notna (col c rs).
Proof.
  intros Hnd. induction rs as [|r rs IH]; intros Hall.
  { by apply sum_list_zero. }
  assert (Hcons : ∀ g, count_notna (col c (r :: g))
                       = ((if isna (r !!! c) then 0 else 1) + count_notna (col c g))%nat).
  { intros g. unfold count_notna, col. csimpl. rewrite filter_cons.
    destruct (isna (r !!! c)); by case_decide. }
  rewrite Hcons, <- IH by (intros r' Hr'; apply Hall; by right).
  rewrite <- (sum_list_indicator (r !!! key) (if isna (r !!! c) then 0 else 1)%nat
                keys Hnd) at 1 by (apply Hall; by left).
  rewrite <- sum_list_plus. f_equal. apply list_fmap_ext. intros i k _.
  unfold group. rewrite filter_cons.
  destruct (decide (r !!! key = k)); [apply Hcons | done].
Qed.

Lemma length_remove_dups_le (l : list cell) :
  (length (remove_dups l) ≤ length l)%nat.
Proof.
  induction l as [|x l IH]; [done|]. simpl.
  destruct (decide_rel elem_of x l); simpl; lia.
Qed.

(** The distinct values of a list, each of which lies in one of the
    lists [ls], are at most as many as the distinct values of these
    lists taken together. *)
Lemma distinct_cover (l : list cell) (ls : list (list cell)) :
  (∀ x, x ∈ l → ∃ g, g ∈ ls ∧ x ∈ g) →
  (length (remove_dups l) ≤ sum_list ((λ g, length (remove_dups g)) <$> ls))%nat.
Proof.
  intros Hcover.
  transitivity (length (mjoin (remove_dups <$> ls))).
  - apply submseteq_length, NoDup_submseteq; [apply NoDup_remove_dups|].
    intros x Hx. rewrite elem_of_remove_dups in Hx.
    destruct (Hcover x Hx) as (g & Hg & Hxg).
    apply list_elem_of_join. exists (remove_dups g).
    split; [by apply elem_of_remove_dups|]. apply list_elem_of_fmap. eauto.
  - by rewrite length_join, <- list_fmap_compose.
Qed.

(** The distinct customers of a table against the distinct customers of
    its groups. *)
Lemma distinct_values_groups (key c : string) (keys : list cell) (rs : list row) :
  NoDup keys → (∀ r, r ∈ rs → r !!! key ∈ keys) →
  let per_group := (λ k, distinct_values (col c (group key k rs))) <$> keys in
  Forall (λ n, n ≤ distinct_values (col c rs))%nat per_group ∧
  (distinct_values (col c rs) ≤ sum_list per_group)%nat ∧
  (sum_list per_group ≤ count_notna (col c rs))%nat.
Proof.
  intros Hnd Hall per_group. subst per_group. split; [|split].
  - apply Forall_fmap, Forall_forall. intros k _. simpl.
    apply length_remove_dups_subset. intros x.
    rewrite !list_elem_of_filter. intros [Hx Hin]. split; [done|].
    unfold col, group in *. apply list_elem_of_fmap in Hin as (r & -> & Hr).
    apply list_elem_of_filter in Hr as [_ Hr]. apply list_elem_of_fmap. eauto.
  - unfold distinct_values.
    change ((λ k, length (remove_dups (filter (λ v, isna v = false)
                                          (col c (group key k rs))))) <$> keys)
      with (((λ g, length (remove_dups g))
             ∘ (λ k, filter (λ v, isna v = false) (col c (group key k rs)))) <$> keys).
    rewrite list_fmap_compose.
    apply distinct_cover. intros x. rewrite list_elem_of_filter. intros [Hx Hin].
    unfold col in Hin. apply list_elem_of_fmap in Hin as (r & -> & Hr).
    exists (filter (λ v, isna v = false) (col c (group key (r !!! key) rs))).
    split.
    + apply list_elem_of_fmap. exists (r !!! key). split; [done|]. by apply Hall.
    + apply list_elem_of_filter. split; [done|].
      unfold col, group. apply list_elem_of_fmap. exists r. split; [done|].
      by apply list_elem_of_filter.
  - rewrite <- (count_groups key c keys rs Hnd Hall).
    apply sum_list_le. intros k _. apply length_remove_dups_le.
Qed.

(** X24. Customers cannot be added up over the months: on a clean
    table the KPI [unique_customers], the number of distinct customers,
    is at least the [unique_customers] of every month and at most their
    sum over the monthly summary, and that sum is at most the number of
    rows with a customer id. *)
Theorem monthly_unique_customers_bounds (df : DataFrame) :
  clean_table df →
  ∃ monthly kpis (per_month : list nat),
    build_monthly_summary df = Ok monthly ∧
    compute_kpis df monthly = Ok kpis ∧
    col "unique_customers" (rows monthly) = (λ n, Num (Qc_of_nat n)) <$> per_month ∧
    kpis !! "unique_customers"
      = Some (Num (Qc_of_nat (distinct_values (col "customer_id" (rows df))))) ∧
    Forall (λ n, n ≤ distinct_values (col "customer_id" (rows df)))%nat per_month ∧
    (distinct_values (col "customer_id" (rows df)) ≤ sum_list per_month)%nat ∧
    (sum_list per_month ≤ count_notna (col "customer_id" (rows df)))%nat.
Proof.
  intros Hclean.
  destruct (pipeline_ready _ Hclean)
    as (monthly_df & monthly & Hbuild & Hmonthly & Hrows & Hready & He1 & He2).
  destruct (compute_kpis_total _ monthly_df Hready) as [kpis Hk].
  destruct (compute_kpis_values _ monthly_df kpis He1 He2 Hk)
    as (q & _ & _ & _ & Hcust & _).
  rewrite (clean_customer_id _ Hclean) in Hcust.
  destruct (month_keys _ Hclean) as (Hnd & _ & _ & Hall & _).
  destruct (distinct_values_groups "year_month" "customer_id" _ _ Hnd Hall)
    as (Heach & Hlow & Hhigh).
  exists monthly_df, kpis. eexists.
  split; [exact Hbuild|]. split; [exact Hk|].
  split; [|split; [exact Hcust|split; [exact Heach|split; [exact Hlow|exact Hhigh]]]].
  rewrite Hmonthly.
  rewrite (col_of_rows (month_row df) "unique_customers"
             (λ k, pd.nunique (col "customer_id" (group "year_month" k (rows df))))
             _ _ Hrows)
    by (intros k r (_ & (_ & _ & H & _) & _); exact H).
  by rewrite <- list_fmap_compose.
Qed.

Ltac split_binds H :=
  repeat (let H' := fresh in
          pose proof (bind_Ok _ _ _ H) as (? & ? & H'); clear H; rename H' into H);
  try apply Ok_inj in H.

(** The three ratios of the KPI dict. *)
Lemma safe_divide_round2 (a : Qc) (n : nat) :
  round2 (safe_divide (Num a) (Num (Qc_of_nat n)) default_0)
  = Ok (Num (round2_Qc (if decide (n = 0%nat) then 0 else a / Qc_of_nat n)%Qc)).
Proof.
  unfold safe_divide, none_or_zero. destruct (decide (n = 0%nat)) as [->|Hn].
  - by rewrite bool_decide_eq_true_2 by (apply Qc_is_canon; reflexivity).
  - by rewrite bool_decide_eq_false_2 by (intros H; by apply Qc_of_nat_0 in H).
Qed.

Lemma compute_kpis_ratios (clean_df monthly_df : DataFrame) (kpis : gmap string cell) :
  pd.empty clean_df = false → pd.empty monthly_df = false →
  float_column "revenue" clean_df →
  compute_kpis clean_df monthly_df = Ok kpis →
  let orders :=
    if has_col "order_id" clean_df
    then distinct_values (col "order_id" (rows clean_df))
    else length (rows clean_df) in
  let customers :=
    if has_col "customer_id" clean_df
    then distinct_values (col "customer_id" (rows clean_df))
    else 0%nat in
  let tr := round2_Qc (column_total "revenue" (rows clean_df)) in
  kpis !! "avg_order_value"
    = Some (Num (round2_Qc (if decide (orders = 0%nat) then 0
                            else tr / Qc_of_nat orders)%Qc)) ∧
  kpis !! "revenue_per_customer"
    = Some (Num (round2_Qc (if decide (customers = 0%nat) then 0
                            else tr / Qc_of_nat customers)%Qc)) ∧
  kpis !! "orders_per_customer"
    = Some (Num (round2_Qc (if decide (customers = 0%nat) then 0
                            else Qc_of_nat orders / Qc_of_nat customers)%Qc)).
Proof.
  intros Hc Hm Hrevf H orders customers tr.
  unfold compute_kpis in H. rewrite Hc, Hm in H. cbn [orb] in H.
  assert (Horders :
    (if has_col "order_id" clean_df then pd.nunique (col "order_id" (rows clean_df))
     else Num (Qc_of_nat (length (rows clean_df)))) = Num (Qc_of_nat orders)).
  { subst orders. by destruct (has_col "order_id" clean_df). }
  assert (Hcustomers :
    (if has_col "customer_id" clean_df
     then pd.nunique (col "customer_id" (rows clean_df))
     else Num 0%Qc) = Num (Qc_of_nat customers)).
  { subst customers. destruct (has_col "customer_id" clean_df); [done|].
    f_equal. by apply Qc_is_canon. }
  rewrite Horders, Hcustomers in H. clearbody orders customers.
  split_binds H.
  match goal with Hg : getcol "revenue" clean_df = Ok ?x |- _ =>
    unfold getcol in Hg; destruct (has_col "revenue" clean_df); [|discriminate];
    apply Ok_inj in Hg; subst x end.
  match goal with Hs : pd.sum (col "revenue" _) = Ok ?v |- _ =>
    rewrite (sum_float_total _ Hrevf) in Hs; apply Ok_inj in Hs; subst v end.
  match goal with Hr : round2 (Num _) = Ok _ |- _ => apply Ok_inj in Hr; subst end.
  subst tr. unfold column_total.
  repeat match goal with
  | Hr : round2 (safe_divide _ _ _) = Ok _ |- _ =>
      rewrite safe_divide_round2 in Hr; apply Ok_inj in Hr; subst
  end.
  repeat match goal with
  | Hl : latest_month_kpis _ _ = Ok _ |- _ =>
      apply latest_month_kpis_spec in Hl as [Hlf _]
  | Hg : growth_kpis _ _ = Ok _ |- _ => pose proof (growth_kpis_frame _ _ _ Hg) as Hgf;
      clear Hg
  | Hk : cost_kpis _ _ _ = Ok _ |- _ => apply cost_kpis_spec in Hk as (Hcf & _)
  | Hk : marketing_kpis _ _ _ = Ok _ |- _ => apply marketing_kpis_spec in Hk as (Hmf & _)
  end.
  split; [|split].
  - rewrite !lookup_insert_ne by done. rewrite Hmf, Hcf, Hgf, Hlf by done.
    by rewrite !lookup_insert_ne, lookup_insert_eq by done.
  - rewrite !lookup_insert_ne by done. rewrite Hmf, Hcf, Hgf, Hlf by done.
    by rewrite lookup_insert_eq.
  - by rewrite lookup_insert_eq.
Qed.

(** X25. The three ratios of the KPI dict divide safely: with
    [total_orders] the number of distinct order ids (the number of rows
    without an [order_id] column) and [unique_customers] the number of
    distinct customer ids (0 without a [customer_id] column),
    [avg_order_value] is the rounded revenue per order, and
    [revenue_per_customer] and [orders_per_customer] are the rounded
    revenue and the orders per customer, each rounded to two decimals
    and each 0 when its denominator is 0. *)
Theorem kpi_ratios (clean_df monthly_df : DataFrame) :
  kpi_ready clean_df monthly_df →
  pd.empty clean_df = false → pd.empty monthly_df = false →
  ∃ kpis (orders customers : nat),
    compute_kpis clean_df monthly_df = Ok kpis ∧
    orders = (if has_col "order_id" clean_df
              then distinct_values (col "order_id" (rows clean_df))
              else length (rows clean_df)) ∧
    customers = (if has_col "customer_id" clean_df
                 then distinct_values (col "customer_id" (rows clean_df))
                 else 0%nat) ∧
    kpis !! "total_orders" = Some (Num (Qc_of_nat orders)) ∧
    kpis !! "unique_customers" = Some (Num (Qc_of_nat customers)) ∧
    let tr := round2_Qc (column_total "revenue" (rows clean_df)) in
    kpis !! "avg_order_value"
      = Some (Num (round2_Qc (if decide (orders = 0%nat) then 0
                              else tr / Qc_of_nat orders)%Qc)) ∧
    kpis !! "revenue_per_customer"
      = Some (Num (round2_Qc (if decide (customers = 0%nat) then 0
                              else tr / Qc_of_nat customers)%Qc)) ∧
    kpis !! "orders_per_customer"
      = Some (Num (round2_Qc (if decide (customers = 0%nat) then 0
                              else Qc_of_nat orders / Qc_of_nat customers)%Qc)).
Proof.
  intros Hready He1 He2.
  destruct (compute_kpis_total _ _ Hready) as [kpis Hk].
  destruct (compute_kpis_values _ _ kpis He1 He2 Hk)
    as (q & _ & _ & Horders & Hcust & _).
  destruct (compute_kpis_ratios _ _ kpis He1 He2 (ready_revenue_float _ _ Hready) Hk)
    as (Haov & Hrpc & Hopc).
  exists kpis. eexists _, _. split; [exact Hk|].
  split; [reflexivity|]. split; [reflexivity|].
  split; [|split; [|split; [exact Haov|split; [exact Hrpc|exact Hopc]]]].
  - rewrite Horders. by destruct (has_col "order_id" clean_df).
  - rewrite Hcust. destruct (has_col "customer_id" clean_df); [done|].
    do 2 f_equal. by apply Qc_is_canon.
Qed.

End customers_and_ratios.

Lemma monthly_unique_customers_bounds_witness :
  let df := report_tables.returning_customer in
  aggregation_conditions.clean_table df ∧
  ∃ monthly kpis,
    aggregation.build_monthly_summary df = Ok monthly ∧
    kpi_engine.compute_kpis df monthly = Ok kpis ∧
    col "unique_customers" (rows monthly) = [samples.num 1; samples.num 2] ∧
    kpis !! "unique_customers" = Some (samples.num 2).
Proof.
  cbv zeta.
  assert (Hclean : aggregation_conditions.clean_table report_tables.returning_customer)
    by (split; intros; by_eval).
  split; [exact Hclean|].
  destruct (monthly_unique_customers_bounds _ Hclean)
    as (monthly & kpis & per_month & Hbuild & Hk & Hcol & Hcust & _).
  exists monthly, kpis. split; [exact Hbuild|]. split; [exact Hk|].
  split; [|rewrite Hcust; by_eval].
  assert (Heq : Ok monthly = aggregation.build_monthly_summary
                               report_tables.returning_customer)
    by (symmetry; exact Hbuild).
  vm_compute in Heq. apply Ok_inj in Heq. subst monthly. by_eval.
Defined.

Lemma kpi_ratios_witness :
  conditions.kpi_ready tables.clean_3 tables.monthly_1000_1200 ∧
  ∃ kpis,
    kpi_engine.compute_kpis tables.clean_3 tables.monthly_1000_1200 = Ok kpis ∧
    kpis !! "total_orders" = Some (samples.num 3) ∧
    kpis !! "unique_customers" = Some (samples.num 2) ∧
    kpis !! "revenue_per_customer" = Some (samples.num 1100) ∧
    kpis !! "orders_per_customer" = Some (Num (Q2Qc (3 # 2))).
Proof.
  assert (Hready : conditions.kpi_ready tables.clean_3 tables.monthly_1000_1200)
    by (split; intros; by_eval).
  split; [exact Hready|].
  destruct (kpi_ratios _ _ Hready ltac:(by_eval) ltac:(by_eval))
    as (kpis & orders & customers & Hk & -> & -> & Ho & Hc & _ & Hrpc & Hopc).
  exists kpis. split; [exact Hk|].
  rewrite Ho, Hc, Hrpc, Hopc. repeat split; by_eval.
Defined.

(** ** Mapping a frame that is already mapped *)

Section mapped_again.

Import schema_detection mapping_conditions alias_conditions.

(** The standard names are normalized as they stand. *)
Lemma standard_normalized (f : string) :
  f ∈ all_standard → _normalize_col_name f = f.
Proof.
  intros Hf.
  assert (H : Forall (λ f, _normalize_col_name f = f) all_standard)
    by (apply (bool_decide_unpack _); vm_compute; exact I).
  rewrite Forall_forall in H. by apply H.
Qed.

(** A standard name is an alias of itself only. *)
Lemma standard_alias_self (f g : string) :
  f ∈ all_standard → g ∈ all_standard → g ∈ normalized_aliases f → f = g.
Proof.
  intros Hf Hg Hin. apply (alias_owner_unique f g g Hf Hg Hin).
  destruct (standard_first_alias g Hg) as [rest ->]. left.
Qed.

(** The labels after step 4: the source of a standard name carries that
    name, every other column its own. *)
Lemma renamed_elem (df_columns : list string) (st : maps) (a : string) :
  mapping_inv df_columns all_standard st →
  a ∈ (λ c, default c (rename_map st !! c)) <$> df_columns →
  (∃ c, mapping st !! a = Some c) ∨
  (a ∈ df_columns ∧ ∀ f, mapping st !! f ≠ Some a).
Proof.
  intros Hinv (c & -> & Hc)%list_elem_of_fmap.
  destruct (renamed_label df_columns st c Hinv) as [Hb Hfree].
  destruct (bound_or_free st c) as [[f Hf]|Hno].
  - left. exists c. by rewrite (Hb f Hf).
  - right. by rewrite (Hfree Hno).
Qed.

(** Searching the aliases of a standard name among the renamed labels
    finds the name itself where it was bound, and nothing where it was
    not. *)
Lemma first_present_renamed (df_columns : list string) (st : maps) (f : string) :
  mapping_inv df_columns all_standard st → f ∈ all_standard →
  first_present ((λ c, default c (rename_map st !! c)) <$> df_columns) f
  = (λ _, f) <$> mapping st !! f.
Proof.
  intros Hinv Hf. destruct (mapping st !! f) as [c|] eqn:Hm; simpl.
  - apply first_present_self; [done|].
    destruct (mapping_inv_bound _ _ _ _ Hinv Hm) as (_ & _ & Hc).
    apply list_elem_of_fmap. exists c. split; [|done].
    symmetry. by apply (renamed_label df_columns st c Hinv).
  - apply first_present_None. intros a Ha Hin.
    pose proof (inv_done _ _ _ Hinv f Hf) as Hd. rewrite Hm in Hd. symmetry in Hd.
    destruct (renamed_elem df_columns st a Hinv Hin) as [[c Hc]|[Hcol _]].
    + destruct (mapping_inv_bound _ _ _ _ Hinv Hc) as (Hg & _ & _).
      rewrite (standard_alias_self f a Hf Hg Ha) in Hm. congruence.
    + by apply (proj1 (first_present_None df_columns f) Hd a).
Qed.

(** X26. Mapping a mapped frame changes nothing: where the normalized
    headers of a frame differ from each other, [detect_and_map] leaves
    the labels of its own output as they are, binds every standard name
    it had bound to itself and no other, and reports the same missing
    required columns. *)
Theorem detect_and_map_idempotent (raw_columns : list string) :
  NoDup (_normalize_col_name <$> raw_columns) →
  let renamed := (detect_and_map raw_columns).1.1 in
  let mapping := (detect_and_map raw_columns).1.2 in
  (detect_and_map renamed).1.1 = renamed ∧
  (∀ f, (detect_and_map renamed).1.2 !! f = (λ _, f) <$> mapping !! f) ∧
  (detect_and_map renamed).2 = (detect_and_map raw_columns).2.
Proof.
  intros Hnd. cbv zeta.
  assert (Hcols : normalized_columns raw_columns = _normalize_col_name <$> raw_columns)
    by (apply deduplicate_columns_distinct, Hnd).
  set (df_columns := normalized_columns raw_columns) in *.
  set (st := build_mapping df_columns).
  pose proof (build_mapping_inv df_columns) as Hinv. fold st in Hinv.
  set (renamed := (λ c, default c (rename_map st !! c)) <$> df_columns).
  change ((detect_and_map raw_columns).1.1) with renamed.
  change ((detect_and_map raw_columns).1.2) with (mapping st).
  change ((detect_and_map raw_columns).2)
    with (filter (λ c, mapping st !! c = None) config.REQUIRED_COLUMNS).
  assert (Hfixed : _normalize_col_name <$> renamed = renamed).
  { rewrite <- (list_fmap_id renamed) at 2. apply list_fmap_ext. intros i a Hi.
    apply list_elem_of_lookup_2 in Hi. simpl.
    destruct (renamed_elem df_columns st a Hinv Hi) as [[c Hc]|[Hcol _]].
    - apply standard_normalized. by apply (mapping_inv_bound _ _ _ _ Hinv Hc).
    - rewrite Hcols in Hcol. apply list_elem_of_fmap in Hcol as (name & -> & _).
      apply normalize_col_name_fixed. }
  assert (Hsame : normalized_columns renamed = renamed).
  { unfold normalized_columns. rewrite Hfixed.
    apply deduplicate_columns_distinct, renamed_distinct; [done|].
    rewrite Hcols. exact Hnd. }
  set (st' := build_mapping renamed).
  pose proof (build_mapping_inv renamed) as Hinv'. fold st' in Hinv'.
  assert (Hmap : ∀ f, mapping st' !! f = (λ _, f) <$> mapping st !! f).
  { intros f. destruct (decide (f ∈ all_standard)) as [Hf|Hf].
    - rewrite (inv_done _ _ _ Hinv' f Hf). by apply first_present_renamed.
    - by rewrite (inv_todo _ _ _ Hinv' f Hf), (inv_todo _ _ _ Hinv f Hf). }
  assert (Hunfold : detect_and_map renamed
            = ((λ c, default c (rename_map st' !! c)) <$> renamed, mapping st',
               filter (λ c, mapping st' !! c = None) config.REQUIRED_COLUMNS)).
  { unfold detect_and_map. cbv zeta. rewrite Hsame. reflexivity. }
  rewrite Hunfold. cbn [fst snd]. split; [|split; [exact Hmap|]].
  - rewrite <- (list_fmap_id renamed) at 2. apply list_fmap_ext. intros i a _. simpl.
    destruct (rename_map st' !! a) as [g|] eqn:E; [|done]. simpl.
    apply (inv_rename _ _ _ Hinv') in E as [Hg Hne].
    rewrite Hmap in Hg. destruct (mapping st !! g); simpl in Hg; congruence.
  - apply list_filter_iff. intros f. rewrite Hmap.
    destruct (mapping st !! f); simpl; split; congruence.
Qed.

End mapped_again.

Lemma detect_and_map_idempotent_witness :
  let renamed := (schema_detection.detect_and_map alias_conditions.raw_sales).1.1 in
  NoDup (schema_detection._normalize_col_name <$> alias_conditions.raw_sales) ∧
  renamed = ["order_id"; "revenue"; "amount"; "date"; "customer_id"] ∧
  (schema_detection.detect_and_map renamed).1.1 = renamed ∧
  (schema_detection.detect_and_map renamed).2 = [].
Proof.
  cbv zeta.
  assert (Hnd : NoDup (schema_detection._normalize_col_name
                         <$> alias_conditions.raw_sales))
    by (apply (bool_decide_unpack _); vm_compute; exact I).
  destruct (detect_and_map_idempotent alias_conditions.raw_sales Hnd)
    as (Hlabels & _ & Hmissing).
  refine (conj Hnd (conj _ (conj Hlabels _))); [reflexivity|].
  rewrite Hmissing. reflexivity.
Defined.
